(** * kafka-topic-creator: the topic manager, its retry classifier and the
      desired-state loader, embedded in Rocq.

    The development follows the Go sources:
    - [manager.go] (both revisions): [createTopicsFromSpecs],
      [isRetryableError], and in the later revision [GetExistingTopics],
      [SyncTopics] and [increaseTopicPartitions];
    - [topics.go] (both revisions): [GetAllTopicConfigs];
    - [main.go]: the order in which the loader and the manager run.

    Go [int] values are modelled as [Z]; every counter of the program is
    bounded by the length of a slice, so no wrap-around is reachable.  The
    one narrowing conversion of the program, [int32(spec.ReplicationFactor)],
    is written out.  Go strings are byte strings ([string] of [ascii]). *)

From Stdlib Require Import ZArith Ascii String DecimalString.
From stdpp Require Import base option list gmap strings.

Local Open Scope Z_scope.

(** ** Go strings: [strings.ToLower], [strings.Contains], [%d] *)

Module GoStrings.

(** [utf8.RuneSelf = 0x80]: bytes below it are single-byte runes. *)
Definition RuneSelf : N := 128.

Definition isASCIIByte (c : ascii) : bool := (N_of_ascii c <? RuneSelf)%N.

Definition isUpperByte (c : ascii) : bool :=
  (65 <=? N_of_ascii c)%N && (N_of_ascii c <=? 90)%N.

(** [c += 'a' - 'A'] for ['A' <= c <= 'Z']. *)
Definition lowerByte (c : ascii) : ascii :=
  if isUpperByte c then ascii_of_N (N_of_ascii c + 32) else c.

Fixpoint isASCII (s : string) : bool :=
  match s with
  | EmptyString => true
  | String c s' => isASCIIByte c && isASCII s'
  end.

Fixpoint mapBytes (f : ascii -> ascii) (s : string) : string :=
  match s with
  | EmptyString => EmptyString
  | String c s' => String (f c) (mapBytes f s')
  end.

(** [strings.ToLower]: the standard library lowers ASCII-only strings byte
    by byte and hands every other string to [Map(unicode.ToLower, s)].
    The Unicode tables are not part of this repository; they are the
    parameter [unicodeLower]. *)
Definition ToLower (unicodeLower : string -> string) (s : string) : string :=
  if isASCII s then mapBytes lowerByte s else unicodeLower s.

Fixpoint HasPrefix (s prefix : string) {struct prefix} : bool :=
  match prefix, s with
  | EmptyString, _ => true
  | String _ _, EmptyString => false
  | String a p', String b s' => if Ascii.eqb a b then HasPrefix s' p' else false
  end.

(** [strings.Contains(s, substr)]: [substr] occurs at some offset of [s]. *)
Fixpoint Contains (s substr : string) : bool :=
  HasPrefix s substr ||
  match s with
  | EmptyString => false
  | String _ s' => Contains s' substr
  end.

(** The [%d] verb on an [int]. *)
Definition fmt_d (n : Z) : string := NilZero.string_of_int (Z.to_int n).

End GoStrings.
Import GoStrings.

(** ** Go errors *)

(** An [error] value: its [Error()] text and, for errors built with the
    [%w] verb, the error it wraps. *)
Inductive error : Type :=
| NewError (text : string)
| WrapError (text : string) (wrapped : error).

Definition ErrorText (e : error) : string :=
  match e with NewError t | WrapError t _ => t end.

Definition Unwrap (e : error) : option error :=
  match e with NewError _ => None | WrapError _ w => Some w end.

(** [fmt.Errorf] with no [%w] verb, and with a trailing [%w]. *)
Definition Errorf (text : string) : error := NewError text.

Definition Errorf_w (pre : string) (err : error) : error :=
  WrapError (pre +:+ ErrorText err) err.

(** A Go [(value, error)] result pair. *)
Inductive result (A : Type) : Type :=
| Ok (a : A)
| Err (e : error).
Arguments Ok {A} a.
Arguments Err {A} e.

(** ** The retry classifier ([manager.go], [isRetryableError]) *)

Definition retryableErrors : list string :=
  [ "connection refused";
    "connection closed";
    "timeout";
    "network is unreachable";
    "no such host";
    "connection reset by peer";
    "broken pipe" ]%string.

Definition isRetryableError (unicodeLower : string -> string)
    (err : option error) : bool :=
  match err with
  | None => false
  | Some e =>
      let errStr := ErrorText e in
      existsb (fun retryable => Contains (ToLower unicodeLower errStr) retryable)
              retryableErrors
  end.


(** ** The data of the Kafka client library that the program reads *)

(** [kafka.TopicSpecification]; the program sets these three fields only. *)
Record TopicSpecification : Type := mkSpec {
  spec_Topic : string;
  NumPartitions : Z;
  ReplicationFactor : Z
}.

(** [kafka.PartitionMetadata]: the program reads [Replicas] ([[]int32]). *)
Record PartitionMetadata : Type := mkPartition {
  Replicas : list Z
}.

(** [kafka.TopicMetadata]. *)
Record TopicMetadata : Type := mkTopicMetadata {
  meta_Topic : string;
  Partitions : list PartitionMetadata
}.

(** [kafka.Error]: [Code()] and the text shown by [%v]. *)
Record KafkaError : Type := mkKafkaError {
  Code : Z;
  ErrString : string
}.

(** [kafka.ErrNoError] and [kafka.ErrTopicAlreadyExists], the librdkafka
    response codes 0 and 36. *)
Definition ErrNoError : Z := 0.
Definition ErrTopicAlreadyExists : Z := 36.

(** [kafka.TopicResult]. *)
Record TopicResult : Type := mkTopicResult {
  res_Topic : string;
  res_Error : KafkaError
}.

(** [kafka.PartitionsSpecification]. *)
Record PartitionsSpecification : Type := mkPartitionsSpec {
  ps_Topic : string;
  IncreaseTo : Z
}.

(** The helper types of [SyncTopics]. *)
Record topicUpdateInfo : Type := mkUpdateInfo {
  topic : string;
  current : TopicMetadata;
  desired : TopicSpecification;
  needsPartitionIncrease : bool
}.

Record topicScaleDownInfo : Type := mkScaleDownInfo {
  sd_topic : string;
  currentPartitions : Z;
  desiredPartitions : Z
}.

#[global] Instance TopicSpecification_eq_dec : EqDecision TopicSpecification.
Proof. solve_decision. Defined.
#[global] Instance PartitionsSpecification_eq_dec : EqDecision PartitionsSpecification.
Proof. solve_decision. Defined.

(** [len(s)] as a Go [int]. *)
Definition len {A : Type} (l : list A) : Z := Z.of_nat (length l).

(** [int32(n)] for a Go [int] [n]: the low 32 bits, read as signed. *)
Definition int32 (n : Z) : Z := (n + 2 ^ 31) mod 2 ^ 32 - 2 ^ 31.

(** [time.Second] in nanoseconds, the unit of [time.Duration]. *)
Definition Second : Z := 1000000000.

(** ** What a run does to the outside world *)

(** The three admin-client methods the manager calls, with their arguments. *)
Inductive Call : Type :=
| CallGetMetadata (allTopics : bool) (timeoutMs : Z)
| CallCreateTopics (specs : list TopicSpecification)
| CallCreatePartitions (specs : list PartitionsSpecification).

(** The lines the manager prints, one constructor per [Printf] site,
    carrying that site's arguments. *)
Inductive Line : Type :=
| AttemptingToCreate (attempt maxRetries : Z)
| ConnectionError (err : error)
| RetryingIn (waitTime : Z)
| TopicCreated (name : string)
| TopicAlreadyExists (name : string)
| TopicCreateFailed (name : string) (err : KafkaError)
| CreationSummary (successCount existsCount errorCount : Z)
| ReplicationChangeNotImplemented (name : string)
| AlreadyMatches (name : string)
| CreatingNewTopics (n : Z)
| FailedToCreateTopics (err : error)
| UpdatingExistingTopics (n : Z)
| FailedToUpdatePartitions (name : string) (err : error)
| UpdatedPartitions (name : string)
| CannotBeScaledDown (n : Z)
| ScaleDownItem (name : string) (currentPartitions desiredPartitions : Z)
| SyncSummary (created updated unchanged cannotScaleDown failed : Z).

Inductive Event : Type :=
| EvCall (c : Call)
| EvPrint (l : Line)
| EvSleep (d : Z).

(** The admin client is an external collaborator: a state [G] (broker,
    network, context) and the three methods as transitions on it. *)
Record AdminClient (G : Type) : Type := mkAdminClient {
  GetMetadata : G -> bool -> Z -> G * result (list TopicMetadata);
  CreateTopics : G -> list TopicSpecification -> G * result (list TopicResult);
  CreatePartitions :
    G -> list PartitionsSpecification -> G * result (list TopicResult)
}.
Arguments GetMetadata {G} _ _ _ _.
Arguments CreateTopics {G} _ _ _.
Arguments CreatePartitions {G} _ _ _.

(** The text of the run-time panic of an index expression. *)
Definition indexOutOfRange (i n : Z) : string :=
  "runtime error: index out of range [" +:+ fmt_d i +:+ "] with length " +:+ fmt_d n.

(** A Go function either returns or panics. *)
Inductive outcome (A : Type) : Type :=
| Returned (a : A)
| Panicked (msg : string).
Arguments Returned {A} a.
Arguments Panicked {A} msg.

(** ** The monad of the manager: client state in, outcome, client state and
       the events of the run out *)

Module Run.
Section Run.
Context {G : Type}.

Definition M (A : Type) : Type := G -> outcome A * G * list Event.

Definition ret {A} (a : A) : M A := fun g => (Returned a, g, []).

Definition bind {A B} (m : M A) (k : A -> M B) : M B :=
  fun g =>
    match m g with
    | (Returned a, g1, t1) =>
      match k a g1 with (o, g2, t2) => (o, g2, t1 ++ t2) end
    | (Panicked msg, g1, t1) => (Panicked msg, g1, t1)
    end.

Definition emit (e : Event) : M unit := fun g => (Returned tt, g, [e]).

Definition panic {A} (msg : string) : M A := fun g => (Panicked msg, g, []).

(** [for _, x := range xs { acc = body(acc, x) }]. *)
Fixpoint forRange {A S} (body : S -> A -> M S) (acc : S) (xs : list A) : M S :=
  match xs with
  | [] => ret acc
  | x :: xs' => bind (body acc x) (fun acc' => forRange body acc' xs')
  end.

(** [xs[i]]: a run-time panic when [i] is out of range. *)
Definition index {A} (xs : list A) (i : nat) : M A :=
  match xs !! i with
  | Some x => ret x
  | None => panic (indexOutOfRange (Z.of_nat i) (Z.of_nat (length xs)))
  end.

Definition outcomeOf {A} (r : outcome A * G * list Event) : outcome A := r.1.1.
Definition clientOf {A} (r : outcome A * G * list Event) : G := r.1.2.
Definition eventsOf {A} (r : outcome A * G * list Event) : list Event := r.2.
End Run.
End Run.
Import Run.

Notation "'let*' x ':=' c 'in' k" := (bind c (fun x => k))
  (at level 100, x pattern, c at next level, k at level 200,
   right associativity, only parsing).
Notation "c ';;;' k" := (bind c (fun _ => k))
  (at level 100, k at level 200, right associativity, only parsing).

Definition print {G} (l : Line) : M (G:=G) unit := emit (EvPrint l).

(** ** The topic manager ([manager.go]) *)

Section Manager.
Context {G : Type} (adminClient : AdminClient G).
Context (unicodeLower : string -> string).

Local Abbreviation M := (M (G:=G)).

(** The three calls through the admin client; each leaves its mark in the
    events of the run. *)
Definition callGetMetadata (allTopics : bool) (timeoutMs : Z)
    : M (result (list TopicMetadata)) :=
  fun g =>
    match GetMetadata adminClient g allTopics timeoutMs with
    | (g', r) => (Returned r, g', [EvCall (CallGetMetadata allTopics timeoutMs)])
    end.

Definition callCreateTopics (specs : list TopicSpecification)
    : M (result (list TopicResult)) :=
  fun g =>
    match CreateTopics adminClient g specs with
    | (g', r) => (Returned r, g', [EvCall (CallCreateTopics specs)])
    end.

Definition callCreatePartitions (specs : list PartitionsSpecification)
    : M (result (list TopicResult)) :=
  fun g =>
    match CreatePartitions adminClient g specs with
    | (g', r) => (Returned r, g', [EvCall (CallCreatePartitions specs)])
    end.

(** *** [createTopicsFromSpecs] *)

(** The three counters of the result loop. *)
Record createCounts : Type := mkCounts {
  successCount : Z;
  existsCount : Z;
  errorCount : Z
}.

(** The body of [for _, result := range results]. *)
Definition checkResult (c : createCounts) (result : TopicResult) : M createCounts :=
  if Code (res_Error result) =? ErrNoError then
    print (TopicCreated (res_Topic result)) ;;;
    ret (mkCounts (successCount c + 1) (existsCount c) (errorCount c))
  else if Code (res_Error result) =? ErrTopicAlreadyExists then
    print (TopicAlreadyExists (res_Topic result)) ;;;
    ret (mkCounts (successCount c) (existsCount c + 1) (errorCount c))
  else
    print (TopicCreateFailed (res_Topic result) (res_Error result)) ;;;
    ret (mkCounts (successCount c) (existsCount c) (errorCount c + 1)).

(** [for attempt := 1; attempt <= maxRetries; attempt++ { ... }] followed
    by [return lastErr].  [fuel] counts the iterations still allowed; the
    loop needs at most [maxRetries - attempt + 1] of them. *)
Fixpoint createAttempts (fuel : nat) (maxRetries attempt : Z)
    (lastErr : option error) (topicSpecs : list TopicSpecification)
    : M (option error) :=
  match fuel with
  | O => ret lastErr
  | S fuel' =>
    if attempt <=? maxRetries then
      print (AttemptingToCreate attempt maxRetries) ;;;
      let* r := callCreateTopics topicSpecs in
      match r with
      | Err err =>
          let lastErr' :=
            Some (Errorf_w ("failed to create topics on attempt "
                            +:+ fmt_d attempt +:+ ": ") err) in
          print (ConnectionError err) ;;;
          if (attempt <? maxRetries) && isRetryableError unicodeLower (Some err) then
            let waitTime := attempt * 1 * Second in
            print (RetryingIn waitTime) ;;;
            emit (EvSleep waitTime) ;;;
            createAttempts fuel' maxRetries (attempt + 1) lastErr' topicSpecs
          else
            ret lastErr'
      | Ok results =>
          let* c := forRange checkResult (mkCounts 0 0 0) results in
          print (CreationSummary (successCount c) (existsCount c) (errorCount c)) ;;;
          if errorCount c =? 0 then
            ret None
          else
            ret (Some (Errorf ("some topics failed to create: "
                               +:+ fmt_d (errorCount c) +:+ " errors out of "
                               +:+ fmt_d (len topicSpecs) +:+ " topics")))
      end
    else
      ret lastErr
  end.

Definition maxRetries : Z := 2.

Definition createTopicsFromSpecs (topicSpecs : list TopicSpecification)
    : M (option error) :=
  createAttempts (Z.to_nat maxRetries) maxRetries 1 None topicSpecs.

Definition ManagerCreateTopics (topicSpecs : list TopicSpecification)
    : M (option error) :=
  createTopicsFromSpecs topicSpecs.

(** *** [increaseTopicPartitions] *)

(** [for _, result := range results { if code != ErrNoError { return ... } }] *)
Fixpoint firstPartitionError (results : list TopicResult) : option error :=
  match results with
  | [] => None
  | result :: rest =>
      if negb (Code (res_Error result) =? ErrNoError) then
        Some (Errorf ("failed to increase partitions for topic '"
                      +:+ res_Topic result +:+ "': "
                      +:+ ErrString (res_Error result)))
      else firstPartitionError rest
  end.

Definition increaseTopicPartitions (topicName : string) (newPartitionCount : Z)
    : M (option error) :=
  let partitionSpec := [ mkPartitionsSpec topicName newPartitionCount ] in
  let* r := callCreatePartitions partitionSpec in
  match r with
  | Err err =>
      ret (Some (Errorf_w ("failed to increase partitions for topic '"
                           +:+ topicName +:+ "': ") err))
  | Ok results => ret (firstPartitionError results)
  end.

(** *** [GetExistingTopics] *)

(** [metadata.Topics] is ranged over in the order the runtime picks; the
    list returned by the client stands for that order. *)
Definition GetExistingTopics : M (result (gmap string TopicMetadata)) :=
  let* r := callGetMetadata true 5000 in
  match r with
  | Err err => ret (Err (Errorf_w "failed to get metadata: " err))
  | Ok metadataTopics =>
      ret (Ok (foldl (fun topics t => <[meta_Topic t := t]> topics) ∅ metadataTopics))
  end.

(** *** [SyncTopics] *)

(** The variables of the analysis loop. *)
Record analysis : Type := mkAnalysis {
  topicsToCreate : list TopicSpecification;
  topicsToUpdate : list topicUpdateInfo;
  cannotScaleDown : list topicScaleDownInfo;
  unchangedCount : Z
}.

Definition emptyAnalysis : analysis := mkAnalysis [] [] [] 0.

(** [len(existing.Partitions) > 0 &&
     int32(spec.ReplicationFactor) != existing.Partitions[0].Replicas[0]]:
    the right operand is evaluated only when the left one holds, and both
    of its index expressions can panic. *)
Definition replicationDiffers (spec : TopicSpecification) (existing : TopicMetadata)
    : M bool :=
  if len (Partitions existing) >? 0 then
    let* p0 := index (Partitions existing) 0 in
    let* r0 := index (Replicas p0) 0 in
    ret (negb (int32 (ReplicationFactor spec) =? r0))
  else ret false.

(** The body of [for _, spec := range topicSpecs]. *)
Definition analyzeSpec (existingTopics : gmap string TopicMetadata)
    (a : analysis) (spec : TopicSpecification) : M analysis :=
  match existingTopics !! spec_Topic spec with
  | None =>
      ret (mkAnalysis (topicsToCreate a ++ [spec]) (topicsToUpdate a)
                      (cannotScaleDown a) (unchangedCount a))
  | Some existing =>
      let currentPartitions := len (Partitions existing) in
      let needsUpdate := NumPartitions spec >? currentPartitions in
      let updateInfo :=
        mkUpdateInfo (spec_Topic spec) existing spec
                     (NumPartitions spec >? currentPartitions) in
      let cannotScaleDown' :=
        if NumPartitions spec >? currentPartitions then cannotScaleDown a
        else if NumPartitions spec <? currentPartitions then
          cannotScaleDown a ++
            [ mkScaleDownInfo (spec_Topic spec) currentPartitions (NumPartitions spec) ]
        else cannotScaleDown a in
      let* differs := replicationDiffers spec existing in
      (if differs then print (ReplicationChangeNotImplemented (spec_Topic spec))
       else ret tt) ;;;
      if needsUpdate then
        ret (mkAnalysis (topicsToCreate a) (topicsToUpdate a ++ [updateInfo])
                        cannotScaleDown' (unchangedCount a))
      else if NumPartitions spec =? currentPartitions then
        print (AlreadyMatches (spec_Topic spec)) ;;;
        ret (mkAnalysis (topicsToCreate a) (topicsToUpdate a)
                        cannotScaleDown' (unchangedCount a + 1))
      else
        ret (mkAnalysis (topicsToCreate a) (topicsToUpdate a)
                        cannotScaleDown' (unchangedCount a))
  end.

Definition analyzeTopics (existingTopics : gmap string TopicMetadata)
    (topicSpecs : list TopicSpecification) : M analysis :=
  forRange (analyzeSpec existingTopics) emptyAnalysis topicSpecs.

(** [createdCount, updatedCount, failedCount]. *)
Record tally : Type := mkTally {
  createdCount : Z;
  updatedCount : Z;
  failedCount : Z
}.

(** [if len(topicsToCreate) > 0 { ... }] *)
Definition createMissing (toCreate : list TopicSpecification) (t : tally) : M tally :=
  if len toCreate >? 0 then
    print (CreatingNewTopics (len toCreate)) ;;;
    let* err := createTopicsFromSpecs toCreate in
    match err with
    | Some e =>
        print (FailedToCreateTopics e) ;;;
        ret (mkTally (createdCount t) (updatedCount t) (failedCount t + len toCreate))
    | None =>
        ret (mkTally (len toCreate) (updatedCount t) (failedCount t))
    end
  else ret t.

(** The body of [for _, update := range topicsToUpdate]. *)
Definition applyUpdate (t : tally) (update : topicUpdateInfo) : M tally :=
  if needsPartitionIncrease update then
    let* err := increaseTopicPartitions (topic update) (NumPartitions (desired update)) in
    match err with
    | Some e =>
        print (FailedToUpdatePartitions (topic update) e) ;;;
        ret (mkTally (createdCount t) (updatedCount t) (failedCount t + 1))
    | None =>
        print (UpdatedPartitions (topic update)) ;;;
        ret (mkTally (createdCount t) (updatedCount t + 1) (failedCount t))
    end
  else ret t.

(** [if len(topicsToUpdate) > 0 { ... }] *)
Definition updateExisting (toUpdate : list topicUpdateInfo) (t : tally) : M tally :=
  if len toUpdate >? 0 then
    print (UpdatingExistingTopics (len toUpdate)) ;;;
    forRange applyUpdate t toUpdate
  else ret t.

(** [if len(cannotScaleDown) > 0 { ... }] *)
Definition reportScaleDown (infos : list topicScaleDownInfo) : M unit :=
  if len infos >? 0 then
    print (CannotBeScaledDown (len infos)) ;;;
    forRange (fun _ info =>
                print (ScaleDownItem (sd_topic info) (currentPartitions info)
                                     (desiredPartitions info)))
             tt infos
  else ret tt.

Definition SyncTopics (topicSpecs : list TopicSpecification) : M (option error) :=
  let* r := GetExistingTopics in
  match r with
  | Err err => ret (Some (Errorf_w "failed to get existing topics: " err))
  | Ok existingTopics =>
      let* a := analyzeTopics existingTopics topicSpecs in
      let* t1 := createMissing (topicsToCreate a) (mkTally 0 0 0) in
      let* t2 := updateExisting (topicsToUpdate a) t1 in
      reportScaleDown (cannotScaleDown a) ;;;
      print (SyncSummary (createdCount t2) (updatedCount t2) (unchangedCount a)
                         (len (cannotScaleDown a)) (failedCount t2)) ;;;
      if failedCount t2 >? 0 then
        ret (Some (Errorf ("some operations failed: "
                           +:+ fmt_d (failedCount t2) +:+ " failures")))
      else ret None
  end.

End Manager.

(** ** The desired-state loader ([topics.go]) *)

(** [TopicConfig], one record of the YAML file. *)
Record TopicConfig : Type := mkTopicConfig {
  Name : string;
  cfg_Partitions : Z;
  cfg_ReplicationFactor : Z;
  Description : string
}.

(** What [os.ReadFile] followed by [yaml.Unmarshal] gives: the file system
    and the YAML parser are outside the program. *)
Inductive loaded : Type :=
| ReadFailed (err : error)
| ParseFailed (err : error)
| Parsed (topics : list TopicConfig).

Definition toSpecification (topic : TopicConfig) : TopicSpecification :=
  mkSpec (Name topic) (cfg_Partitions topic) (cfg_ReplicationFactor topic).

(** The revision of [topics.go] that validates each record. *)
Module TopicsChecked.

(** [for _, topic := range config.Topics { ... }] with its three early
    returns. *)
Fixpoint convert (topics : list TopicConfig) (topicSpecs : list TopicSpecification)
    : result (list TopicSpecification) :=
  match topics with
  | [] => Ok topicSpecs
  | topic :: rest =>
      if String.eqb (Name topic) "" then
        Err (Errorf "topic name cannot be empty")
      else if cfg_Partitions topic <=? 0 then
        Err (Errorf ("topic '" +:+ Name topic +:+ "' must have at least 1 partition"))
      else if cfg_ReplicationFactor topic <=? 0 then
        Err (Errorf ("topic '" +:+ Name topic
                     +:+ "' must have at least 1 replication factor"))
      else convert rest (topicSpecs ++ [toSpecification topic])
  end.

Definition GetAllTopicConfigs (configFile : string) (file : loaded)
    : result (list TopicSpecification) :=
  match file with
  | ReadFailed err =>
      Err (Errorf_w ("failed to read config file " +:+ configFile +:+ ": ") err)
  | ParseFailed err =>
      Err (Errorf_w ("failed to parse config file " +:+ configFile +:+ ": ") err)
  | Parsed topics => convert topics []
  end.

End TopicsChecked.

(** The revision of [topics.go] that converts the records as they are. *)
Module TopicsUnchecked.

Fixpoint convert (topics : list TopicConfig) (topicSpecs : list TopicSpecification)
    : result (list TopicSpecification) :=
  match topics with
  | [] => Ok topicSpecs
  | topic :: rest => convert rest (topicSpecs ++ [toSpecification topic])
  end.

Definition GetAllTopicConfigs (configFile : string) (file : loaded)
    : result (list TopicSpecification) :=
  match file with
  | ReadFailed err => Err (Errorf_w "failed to read topics.yaml file: " err)
  | ParseFailed err => Err (Errorf_w "failed to parse topics.yaml file: " err)
  | Parsed topics => convert topics []
  end.

End TopicsUnchecked.

(** ** The command ([main.go]) *)

(** How the process ends. *)
Inductive exit : Type :=
| UsageError
| Fatal (err : error)
| Listed (topics : list TopicSpecification)
| Cancelled
| Completed.

Section Main.
Context {G : Type} (adminClient : AdminClient G).
Context (unicodeLower : string -> string).
(** [ctx.Err() == context.Canceled], read off the client state. *)
Context (ctxCanceled : G -> bool).
(** The loader the command is built with. *)
Context (GetAllTopicConfigs : string -> loaded -> result (list TopicSpecification)).

(** [main], from the flags on.  [setup] is the outcome of [loadConfig] and
    [getKafkaAdmin], which read the environment and build the admin handle
    without any of the three calls. *)
Definition main (listTopics : bool) (configFile : string) (file : loaded)
    (setup : option error) : M (G:=G) exit :=
  if String.eqb configFile "" then ret UsageError
  else
    match GetAllTopicConfigs configFile file with
    | Err err => ret (Fatal err)
    | Ok topicConfigs =>
        if listTopics then ret (Listed topicConfigs)
        else
          match setup with
          | Some err => ret (Fatal err)
          | None =>
              let* err := ManagerCreateTopics adminClient unicodeLower topicConfigs in
              match err with
              | Some e =>
                  fun g => if ctxCanceled g then (Returned Cancelled, g, [])
                           else (Returned (Fatal e), g, [])
              | None => ret Completed
              end
          end
    end.
End Main.

(** ** A scripted admin client *)

(** A client that answers each method from a list of prepared responses,
    oldest first, and fails once a list is used up. *)
Record Script : Type := mkScript {
  metadataResponses : list (result (list TopicMetadata));
  createResponses : list (result (list TopicResult));
  partitionResponses : list (result (list TopicResult))
}.

Definition scripted : AdminClient Script :=
  {| GetMetadata := fun s _ _ =>
       match metadataResponses s with
       | r :: rest => (mkScript rest (createResponses s) (partitionResponses s), r)
       | [] => (s, Err (Errorf "script exhausted"))
       end;
     CreateTopics := fun s _ =>
       match createResponses s with
       | r :: rest => (mkScript (metadataResponses s) rest (partitionResponses s), r)
       | [] => (s, Err (Errorf "script exhausted"))
       end;
     CreatePartitions := fun s _ =>
       match partitionResponses s with
       | r :: rest => (mkScript (metadataResponses s) (createResponses s) rest, r)
       | [] => (s, Err (Errorf "script exhausted"))
       end |}.

(** ** Observations on the events of a run *)

Definition callOf (e : Event) : option Call :=
  match e with EvCall c => Some c | _ => None end.

(** The admin-client calls of a run, in order. *)
Definition callsOf (events : list Event) : list Call := omap callOf events.

Definition isCreateTopicsCall (e : Event) : bool :=
  match e with EvCall (CallCreateTopics _) => true | _ => false end.

(** The number of [CreateTopics] attempts of a run. *)
Definition createAttemptsOf (events : list Event) : nat :=
  length (List.filter isCreateTopicsCall events).

Definition sleepOf (e : Event) : option Z :=
  match e with EvSleep d => Some d | _ => None end.

(** The waits of a run, in order. *)
Definition sleepsOf (events : list Event) : list Z := omap sleepOf events.

Definition lineOf (e : Event) : option Line :=
  match e with EvPrint l => Some l | _ => None end.

(** The printed lines of a run, in order. *)
Definition linesOf (events : list Event) : list Line := omap lineOf events.


(** ** Vocabulary of the properties *)

(** [occursIn sub s]: [sub] is a contiguous part of [s]. *)
Definition occursIn (sub s : string) : Prop :=
  exists pre post : string, s = pre +:+ sub +:+ post.

(** The substrings as the specification lists them. *)
Definition specifiedRetryableSubstrings : list string :=
  [ "connection refused";
    "connection closed";
    "timeout";
    "network unreachable";
    "no such host";
    "connection reset by peer";
    "broken pipe" ]%string.

(** The classifier as the specification words it: the lower-cased text of a
    non-nil error contains one of the listed substrings. *)
Definition specifiedRetryable (subs : list string)
    (unicodeLower : string -> string) (err : option error) : Prop :=
  exists e sub, err = Some e /\ In sub subs /\
                occursIn sub (ToLower unicodeLower (ErrorText e)).

(** The three classes of a per-topic result code. *)
Definition isCreated (r : TopicResult) : bool :=
  Code (res_Error r) =? ErrNoError.
Definition isAlreadyExists (r : TopicResult) : bool :=
  Code (res_Error r) =? ErrTopicAlreadyExists.
Definition isTopicError (r : TopicResult) : bool :=
  negb (isCreated r) && negb (isAlreadyExists r).

(** The line printed for one result. *)
Definition resultLine (r : TopicResult) : Line :=
  if isCreated r then TopicCreated (res_Topic r)
  else if isAlreadyExists r then TopicAlreadyExists (res_Topic r)
  else TopicCreateFailed (res_Topic r) (res_Error r).

Definition countIf {A} (p : A -> bool) (l : list A) : Z :=
  len (filter (fun x => p x = true) l).

(** The error returned when some topics of a batch failed. *)
Definition someTopicsFailed (errors : Z) (topicCount : Z) : error :=
  Errorf ("some topics failed to create: " +:+ fmt_d errors
          +:+ " errors out of " +:+ fmt_d topicCount +:+ " topics").

(** The error returned when the call of attempt [attempt] failed. *)
Definition attemptFailed (attempt : Z) (err : error) : error :=
  Errorf_w ("failed to create topics on attempt " +:+ fmt_d attempt +:+ ": ") err.

(** The events of a failed first attempt that is retried. *)
Definition retryPrefix (specs : list TopicSpecification) (err : error) : list Event :=
  [EvPrint (AttemptingToCreate 1 2); EvCall (CallCreateTopics specs);
   EvPrint (ConnectionError err);
   EvPrint (RetryingIn (1 * 1 * Second)); EvSleep (1 * 1 * Second)].


(** The classification of a desired topic against a snapshot, as the
    specification words it. *)
Inductive Classification : Type :=
| ToCreate
| ToIncreasePartitions
| CannotScaleDown (currentPartitions desiredPartitions : Z)
| Unchanged.

Definition classify (snapshot : gmap string TopicMetadata)
    (spec : TopicSpecification) : Classification :=
  match snapshot !! spec_Topic spec with
  | None => ToCreate
  | Some existing =>
      if len (Partitions existing) <? NumPartitions spec then ToIncreasePartitions
      else if NumPartitions spec <? len (Partitions existing) then
        CannotScaleDown (len (Partitions existing)) (NumPartitions spec)
      else Unchanged
  end.

Definition isToCreate (c : Classification) : bool :=
  match c with ToCreate => true | _ => false end.
Definition isToIncreasePartitions (c : Classification) : bool :=
  match c with ToIncreasePartitions => true | _ => false end.
Definition isCannotScaleDown (c : Classification) : bool :=
  match c with CannotScaleDown _ _ => true | _ => false end.
Definition isUnchanged (c : Classification) : bool :=
  match c with Unchanged => true | _ => false end.

(** The entry a desired topic contributes to each work list, if any. *)
Definition createEntry (snapshot : gmap string TopicMetadata)
    (spec : TopicSpecification) : option TopicSpecification :=
  if isToCreate (classify snapshot spec) then Some spec else None.

Definition updateEntry (snapshot : gmap string TopicMetadata)
    (spec : TopicSpecification) : option topicUpdateInfo :=
  match snapshot !! spec_Topic spec, classify snapshot spec with
  | Some existing, ToIncreasePartitions =>
      Some (mkUpdateInfo (spec_Topic spec) existing spec true)
  | _, _ => None
  end.

Definition scaleDownEntry (snapshot : gmap string TopicMetadata)
    (spec : TopicSpecification) : option topicScaleDownInfo :=
  match classify snapshot spec with
  | CannotScaleDown cur des => Some (mkScaleDownInfo (spec_Topic spec) cur des)
  | _ => None
  end.

(** The work lists and the unchanged count a pass over [specs] arrives at:
    each list keeps its members in the order of [specs]. *)
Definition analysisOf (snapshot : gmap string TopicMetadata)
    (specs : list TopicSpecification) : analysis :=
  mkAnalysis (omap (createEntry snapshot) specs)
             (omap (updateEntry snapshot) specs)
             (omap (scaleDownEntry snapshot) specs)
             (len (List.filter (fun spec => isUnchanged (classify snapshot spec)) specs)).

(** The replica sample of a topic: the first replica of partition 0. *)
Definition replicaSample (existing : TopicMetadata) : option Z :=
  match Partitions existing with
  | [] => None
  | p0 :: _ => match Replicas p0 with [] => None | r0 :: _ => Some r0 end
  end.

(** A topic with a partition 0 that lists no replica. *)
Definition sampleMissing (existing : TopicMetadata) : bool :=
  match Partitions existing with
  | [] => false
  | p0 :: _ => match Replicas p0 with [] => true | _ :: _ => false end
  end.

(** The desired topic names a topic of the snapshot whose sample is missing. *)
Definition hitsMissingSample (snapshot : gmap string TopicMetadata)
    (spec : TopicSpecification) : bool :=
  match snapshot !! spec_Topic spec with
  | Some existing => sampleMissing existing
  | None => false
  end.

(** The desired replication factor differs from the sample. *)
Definition replicationMismatch (snapshot : gmap string TopicMetadata)
    (spec : TopicSpecification) : bool :=
  match snapshot !! spec_Topic spec with
  | Some existing =>
      match replicaSample existing with
      | Some r0 => negb (int32 (ReplicationFactor spec) =? r0)
      | None => false
      end
  | None => false
  end.

(** The lines the pass prints for one desired topic. *)
Definition analysisLines (snapshot : gmap string TopicMetadata)
    (spec : TopicSpecification) : list Event :=
  (if replicationMismatch snapshot spec
   then [EvPrint (ReplicationChangeNotImplemented (spec_Topic spec))] else [])
  ++ (if isUnchanged (classify snapshot spec)
      then [EvPrint (AlreadyMatches (spec_Topic spec))] else []).

(** The map [GetExistingTopics] builds from the topics of the metadata. *)
Definition snapshotOf (metadataTopics : list TopicMetadata) : gmap string TopicMetadata :=
  foldl (fun topics t => <[meta_Topic t := t]> topics) ∅ metadataTopics.

(** One step of the pass on the pure side. *)
Definition analysisStep (snapshot : gmap string TopicMetadata)
    (a : analysis) (spec : TopicSpecification) : analysis :=
  mkAnalysis
    (topicsToCreate a ++ option_list (createEntry snapshot spec))
    (topicsToUpdate a ++ option_list (updateEntry snapshot spec))
    (cannotScaleDown a ++ option_list (scaleDownEntry snapshot spec))
    (unchangedCount a + (if isUnchanged (classify snapshot spec) then 1 else 0)).

(** The lines that record a failure in the tally of [SyncTopics]. *)
Definition isCreateFailure (e : Event) : bool :=
  match e with EvPrint (FailedToCreateTopics _) => true | _ => false end.

Definition isUpdateFailure (e : Event) : bool :=
  match e with EvPrint (FailedToUpdatePartitions _ _) => true | _ => false end.

(** The batch create of a run ended with an error. *)
Definition createFailed (events : list Event) : bool := existsb isCreateFailure events.

(** The number of partition increases of a run that ended with an error. *)
Definition updateFailures (events : list Event) : Z :=
  len (List.filter isUpdateFailure events).

(** The [CreatePartitions] call made for one queued update. *)
Definition directiveOf (u : topicUpdateInfo) : Call :=
  CallCreatePartitions [mkPartitionsSpec (topic u) (NumPartitions (desired u))].

(** A partition-altering call that names [name]. *)
Definition altersPartitionsOf (name : string) (c : Call) : bool :=
  match c with
  | CallCreatePartitions specs =>
      existsb (fun p => String.eqb (ps_Topic p) name) specs
  | _ => false
  end.

(** The cannot-scale-down report. *)
Definition scaleDownItem (info : topicScaleDownInfo) : Event :=
  EvPrint (ScaleDownItem (sd_topic info) (currentPartitions info)
                         (desiredPartitions info)).

Definition reportLines (infos : list topicScaleDownInfo) : list Event :=
  match infos with
  | [] => []
  | _ :: _ => EvPrint (CannotBeScaledDown (len infos)) :: map scaleDownItem infos
  end.

(** The error [SyncTopics] returns when its tally has failures. *)
Definition operationsFailed (failures : Z) : error :=
  Errorf ("some operations failed: " +:+ fmt_d failures +:+ " failures").

(** The error of a failed partition increase. *)
Definition increaseCallFailed (topicName : string) (err : error) : error :=
  Errorf_w ("failed to increase partitions for topic '" +:+ topicName +:+ "': ") err.

(** The outcome of one update as the tally sees it. *)
Definition updateLine (name : string) (err : option error) : Event :=
  match err with
  | Some e => EvPrint (FailedToUpdatePartitions name e)
  | None => EvPrint (UpdatedPartitions name)
  end.

(** The error, if any, that [increaseTopicPartitions] draws from the answer
    of the client. *)
Definition increaseError (topicName : string)
    (answer : result (list TopicResult)) : option error :=
  match answer with
  | Err err => Some (increaseCallFailed topicName err)
  | Ok results => firstPartitionError results
  end.

(** The answers of the client to the calls of a queue of updates, made one
    after the other from the state [g], and the state after the last one. *)
Fixpoint increaseAnswers {G : Type} (adminClient : AdminClient G)
    (toUpdate : list topicUpdateInfo) (g : G)
    : list (result (list TopicResult)) * G :=
  match toUpdate with
  | [] => ([], g)
  | u :: rest =>
      let call := CreatePartitions adminClient g
                    [mkPartitionsSpec (topic u) (NumPartitions (desired u))] in
      let later := increaseAnswers adminClient rest call.1 in
      (call.2 :: later.1, later.2)
  end.

(** An answer to a partition increase that is not a success: the call
    itself failed, or some result carries a code other than [ErrNoError]. *)
Definition answerFailed (answer : result (list TopicResult)) : bool :=
  match answer with
  | Err _ => true
  | Ok results => existsb (fun r => negb (Code (res_Error r) =? ErrNoError)) results
  end.

Definition failedAnswers (answers : list (result (list TopicResult))) : Z :=
  len (List.filter answerFailed answers).

(** What the update phase calls and prints for a queue and the answers to
    its calls: for each update its call, then its line. *)
Fixpoint updateTrace (toUpdate : list topicUpdateInfo)
    (answers : list (result (list TopicResult))) : list Event :=
  match toUpdate, answers with
  | u :: us, answer :: rest =>
      EvCall (directiveOf u)
      :: updateLine (topic u) (increaseError (topic u) answer)
      :: updateTrace us rest
  | _, _ => []
  end.

Definition updatePhase (toUpdate : list topicUpdateInfo)
    (answers : list (result (list TopicResult))) : list Event :=
  match toUpdate with
  | [] => []
  | _ :: _ => EvPrint (UpdatingExistingTopics (len toUpdate))
              :: updateTrace toUpdate answers
  end.



(** A desired topic with another replication factor, when its name is in
    the snapshot. *)
Definition setReplication (snapshot : gmap string TopicMetadata)
    (rf : TopicSpecification -> Z) (spec : TopicSpecification) : TopicSpecification :=
  match snapshot !! spec_Topic spec with
  | Some _ => mkSpec (spec_Topic spec) (NumPartitions spec) (rf spec)
  | None => spec
  end.

(** A queued update without the replication factor of the desired topic it
    carries along. *)
Definition forgetReplication (u : topicUpdateInfo) : topicUpdateInfo :=
  mkUpdateInfo (topic u) (current u)
    (mkSpec (spec_Topic (desired u)) (NumPartitions (desired u)) 0)
    (needsPartitionIncrease u).

Definition isReplicationWarning (e : Event) : bool :=
  match e with EvPrint (ReplicationChangeNotImplemented _) => true | _ => false end.

(** The events of a run without the replication warnings. *)
Definition withoutReplicationWarnings (events : list Event) : list Event :=
  List.filter (fun e => negb (isReplicationWarning e)) events.

(** ** Sample runs *)

Definition noUnicode : string -> string := fun s => s.

Definition success : KafkaError := mkKafkaError ErrNoError "Success".

(** A topic "orders" whose partition 0 lists no replica. *)
Definition ordersWithoutReplicas (partitions : nat) : TopicMetadata :=
  mkTopicMetadata "orders" (mkPartition [] :: replicate (partitions - 1) (mkPartition [1])).

(** A topic with [partitions] partitions, each on broker 1. *)
Definition topicOnBroker1 (name : string) (partitions : nat) : TopicMetadata :=
  mkTopicMetadata name (replicate partitions (mkPartition [1])).

(** A client whose metadata call answers with [topics], and whose other
    calls answer from the given lists. *)
Definition clusterWith (topics : list TopicMetadata)
    (creates partitions : list (result (list TopicResult))) : Script :=
  mkScript [Ok topics] creates partitions.

(** A client that refuses the first connection and then creates the topic. *)
Definition refusedThenCreated : Script :=
  mkScript []
    [ Err (Errorf "dial tcp: connection refused");
      Ok [mkTopicResult "orders" success] ]
    [].

(** A client that refuses every connection. *)
Definition alwaysRefused : Script :=
  mkScript []
    [ Err (Errorf "dial tcp: connection refused");
      Err (Errorf "dial tcp: connection refused") ]
    [].

(** A client whose first answer creates one topic, finds one already there
    and rejects one. *)
Definition mixedAnswer : Script :=
  mkScript []
    [ Ok [ mkTopicResult "orders" success;
           mkTopicResult "payments" (mkKafkaError ErrTopicAlreadyExists "Topic already exists");
           mkTopicResult "audit" (mkKafkaError 37 "Invalid partitions") ] ]
    [].

Definition threeTopics : list TopicSpecification :=
  [ mkSpec "orders" 3 1; mkSpec "payments" 1 1; mkSpec "audit" 0 1 ].

(** The wrapped error of a failed metadata call. *)
Definition fetchFailed (err : error) : error :=
  Errorf_w "failed to get existing topics: " (Errorf_w "failed to get metadata: " err).


(** The desired topics the pass gets through before it hits a missing
    replica sample. *)
Fixpoint beforeFirstHit (snapshot : gmap string TopicMetadata)
    (specs : list TopicSpecification) : list TopicSpecification :=
  match specs with
  | [] => []
  | spec :: rest =>
      if hitsMissingSample snapshot spec then []
      else spec :: beforeFirstHit snapshot rest
  end.


(** A cluster whose topics "orders" and "payments" are both to grow; the
    first partition increase times out, the second is performed. *)
Definition growingCluster : Script :=
  clusterWith [topicOnBroker1 "orders" 1; topicOnBroker1 "payments" 2]
    []
    [ Err (Errorf "request timed out locally");
      Ok [mkTopicResult "payments" success] ].

Definition growBoth : list TopicSpecification :=
  [mkSpec "orders" 3 1; mkSpec "payments" 4 1].

(** A record of the configuration file is acceptable. *)
Definition validRecord (topic : TopicConfig) : bool :=
  negb (String.eqb (Name topic) "") && (0 <? cfg_Partitions topic)
  && (0 <? cfg_ReplicationFactor topic).

(** A record with an empty name and no partitions. *)
Definition emptyRecord : TopicConfig := mkTopicConfig "" 0 0 "".

(** A client that accepts whatever it is asked to create. *)
Definition acceptsAnything : Script :=
  mkScript [] [Ok [mkTopicResult "" success]] [].

Definition neverCanceled : Script -> bool := fun _ => false.

(** ** Further vocabulary: the desired topics by what the snapshot says *)

(** The desired topic names no topic of the snapshot. *)
Definition isMissing (snapshot : gmap string TopicMetadata)
    (spec : TopicSpecification) : bool :=
  match snapshot !! spec_Topic spec with
  | None => true
  | Some _ => false
  end.

(** The desired topic names a topic with fewer partitions than desired. *)
Definition isGrowing (snapshot : gmap string TopicMetadata)
    (spec : TopicSpecification) : bool :=
  match snapshot !! spec_Topic spec with
  | None => false
  | Some existing => len (Partitions existing) <? NumPartitions spec
  end.

(** The desired topic names a topic with exactly the desired partitions. *)
Definition isSettled (snapshot : gmap string TopicMetadata)
    (spec : TopicSpecification) : bool :=
  match snapshot !! spec_Topic spec with
  | None => false
  | Some existing => NumPartitions spec =? len (Partitions existing)
  end.

(** The [CreatePartitions] call that grows the topic of a desired topic. *)
Definition growCall (spec : TopicSpecification) : Call :=
  CallCreatePartitions [mkPartitionsSpec (spec_Topic spec) (NumPartitions spec)].

(** The topics of a metadata answer that carry a given name. *)
Definition named (name : string) (topics : list TopicMetadata) : list TopicMetadata :=
  List.filter (fun t => String.eqb (meta_Topic t) name) topics.

(** A cluster where "orders" has three partitions and "payments" one, and a
    client that is never asked anything else. *)
Definition settledCluster : Script :=
  clusterWith [topicOnBroker1 "orders" 3; topicOnBroker1 "payments" 1] [] [].

Definition settledDesired : list TopicSpecification :=
  [mkSpec "orders" 3 1; mkSpec "payments" 1 1].

(** A cluster with "orders" on one partition, "payments" on three and no
    "audit", whose client performs every create and every increase. *)
Definition mixedCluster : Script :=
  clusterWith [topicOnBroker1 "orders" 1; topicOnBroker1 "payments" 3]
    [Ok [mkTopicResult "audit" success]]
    [Ok [mkTopicResult "orders" success]].

Definition mixedDesired : list TopicSpecification :=
  [mkSpec "orders" 3 1; mkSpec "payments" 1 1; mkSpec "audit" 6 1].

(** A metadata answer that lists "orders" twice. *)
Definition ordersListedTwice : Script :=
  clusterWith [topicOnBroker1 "orders" 1; topicOnBroker1 "orders" 3] [] [].

(** A topic whose partition 0 has the given replicas, followed by
    [more] partitions on broker 1. *)
Definition topicWithReplicas (name : string) (replicas : list Z) (more : nat)
    : TopicMetadata :=
  mkTopicMetadata name (mkPartition replicas :: replicate more (mkPartition [1])).

(** Every result of an answer is a success or an already-exists. *)
Definition allBenign (results : list TopicResult) : Prop :=
  forall r, In r results ->
    Code (res_Error r) = ErrNoError \/ Code (res_Error r) = ErrTopicAlreadyExists.

(** The error of the validating loader for a record it rejects: the first
    of the three checks that fails. *)
Definition recordError (topic : TopicConfig) : error :=
  if String.eqb (Name topic) "" then Errorf "topic name cannot be empty"
  else if cfg_Partitions topic <=? 0 then
    Errorf ("topic '" +:+ Name topic +:+ "' must have at least 1 partition")
  else
    Errorf ("topic '" +:+ Name topic +:+ "' must have at least 1 replication factor").

(** A specification the broker can be asked to create. *)
Definition wellFormedSpec (spec : TopicSpecification) : Prop :=
  spec_Topic spec <> ""%string /\ 0 < NumPartitions spec /\ 0 < ReplicationFactor spec.

(** A file with two good records around one without partitions. *)
Definition oneBadRecord : list TopicConfig :=
  [ mkTopicConfig "orders" 3 1 "";
    mkTopicConfig "payments" 0 1 "";
    mkTopicConfig "" 1 1 "" ].

(** ** The admin client configuration ([config.go], [kafka.go]) *)

(** [KafkaConfig], as [envconfig] fills it from the environment. *)
Record KafkaConfig : Type := mkKafkaConfig {
  Server : string;
  Username : string;
  Password : string;
  DebugEnabled : bool;
  Debug : string;
  LogLevel : Z
}.

(** A [kafka.ConfigValue]: the program stores strings, booleans and ints. *)
Inductive ConfigValue : Type :=
| CfgString (s : string)
| CfgBool (b : bool)
| CfgInt (n : Z).

(** [kafka.ConfigMap.SetKey]: for a key without the "{topic}." prefix, and
    the program uses no other, the value is stored under the key. *)
Definition SetKey (key : string) (value : ConfigValue)
    (m : gmap string ConfigValue) : gmap string ConfigValue :=
  <[key := value]> m.

(** The lines [getKafkaAdmin] prints, one constructor per [Printf] site. *)
Inductive AdminLine : Type :=
| CreatingAdminClient
| ServerIs (server : string)
| DebugIs (debug : string) (level : Z)
| DebugDisabled
| AuthenticationIs (protocol : string)
| UsernameIs (username : string)
| AuthenticationNone
| NoCredentialsWarning
| SecurityIs (protocol : string)
| ConnectingToCluster.

(** The map literal [getKafkaAdmin] starts from (both revisions). *)
Definition baseConfigMap (config : KafkaConfig) : gmap string ConfigValue :=
  <["metadata.max.age.ms"%string := CfgInt 30000]>
    (<["request.timeout.ms"%string := CfgInt 5000]>
       (<["socket.keepalive.enable"%string := CfgBool true]>
          (<["bootstrap.servers"%string := CfgString (Server config)]> ∅))).

(** The debug block of [getKafkaAdmin] (both revisions). *)
Definition debugBlock (config : KafkaConfig)
    (st : gmap string ConfigValue * list AdminLine)
    : gmap string ConfigValue * list AdminLine :=
  let '(configMap, out) := st in
  if DebugEnabled config then
    let configMap1 :=
      if negb (String.eqb (Debug config) "") then
        SetKey "debug" (CfgString (Debug config)) configMap
      else SetKey "debug" (CfgString "broker,topic,protocol") configMap in
    (SetKey "log_level" (CfgInt (LogLevel config)) configMap1,
     out ++ [DebugIs (Debug config) (LogLevel config)])
  else
    (SetKey "log_level" (CfgInt 3) configMap, out ++ [DebugDisabled]).

(** The end of [getKafkaAdmin]: [kafka.NewAdminClient] on the map, its error
    wrapped.  The constructor belongs to the client library; [C] is the type
    of its handles. *)
Definition connectAdmin {C : Type}
    (NewAdminClient : gmap string ConfigValue -> result C)
    (st : gmap string ConfigValue * list AdminLine) : list AdminLine * result C :=
  let '(configMap, out) := st in
  (out ++ [ConnectingToCluster],
   match NewAdminClient configMap with
   | Ok adminClient => Ok adminClient
   | Err err => Err (Errorf_w "failed to create admin client: " err)
   end).

(** The revision of [kafka.go] that sets SASL from the credentials and then
    switches to SSL by the server address. *)
Module KafkaSslFirst.

(** [shouldUseSSL]: Confluent Cloud, or port 9092. *)
Definition shouldUseSSL (server : string) : bool :=
  Contains server "confluent.cloud" || Contains server ":9092".

(** The configuration [getKafkaAdmin] hands to [kafka.NewAdminClient], and
    the lines printed on the way. *)
Definition adminConfig (config : KafkaConfig)
    : gmap string ConfigValue * list AdminLine :=
  let st0 := (baseConfigMap config, [CreatingAdminClient; ServerIs (Server config)]) in
  let '(configMap1, out1) := debugBlock config st0 in
  let '(configMap2, out2) :=
    if negb (String.eqb (Username config) "") && negb (String.eqb (Password config) "")
    then
      (SetKey "security.protocol" (CfgString "SASL_PLAINTEXT")
         (SetKey "sasl.password" (CfgString (Password config))
            (SetKey "sasl.username" (CfgString (Username config))
               (SetKey "sasl.mechanisms" (CfgString "PLAIN") configMap1))),
       out1 ++ [AuthenticationIs "SASL PLAIN"; UsernameIs (Username config)])
    else (configMap1, out1 ++ [AuthenticationNone; NoCredentialsWarning]) in
  if shouldUseSSL (Server config) then
    (SetKey "security.protocol" (CfgString "SASL_SSL") configMap2,
     out2 ++ [SecurityIs "SASL_SSL (trying SSL first)"])
  else (configMap2, out2 ++ [SecurityIs "SASL_PLAINTEXT"]).

Definition getKafkaAdmin {C : Type}
    (NewAdminClient : gmap string ConfigValue -> result C)
    (config : KafkaConfig) : list AdminLine * result C :=
  connectAdmin NewAdminClient (adminConfig config).

End KafkaSslFirst.

(** The revision of [kafka.go] that picks the security protocol by
  [config.ShouldUseAuth()] first. *)
Module KafkaByAuth.

(** [shouldUseSSL]: Confluent Cloud, or one of the ports 9093 to 9095. *)
Definition shouldUseSSL (server : string) : bool :=
  Contains server "confluent.cloud" || Contains server ":9093"
  || Contains server ":9094" || Contains server ":9095".

(** [ShouldUseAuth] is a method of [KafkaConfig] that the sources do not
    include; it is a parameter here. *)
Definition adminConfig (ShouldUseAuth : KafkaConfig -> bool) (config : KafkaConfig)
    : gmap string ConfigValue * list AdminLine :=
  let st0 := (baseConfigMap config, [CreatingAdminClient; ServerIs (Server config)]) in
  let '(configMap1, out1) := debugBlock config st0 in
  if ShouldUseAuth config then
    let configMap2 :=
      SetKey "sasl.password" (CfgString (Password config))
        (SetKey "sasl.username" (CfgString (Username config))
           (SetKey "sasl.mechanisms" (CfgString "PLAIN") configMap1)) in
    let '(configMap3, out3) :=
      if shouldUseSSL (Server config) then
        (SetKey "security.protocol" (CfgString "SASL_SSL") configMap2,
         out1 ++ [AuthenticationIs "SASL_SSL"])
      else
        (SetKey "security.protocol" (CfgString "SASL_PLAINTEXT") configMap2,
         out1 ++ [AuthenticationIs "SASL_PLAINTEXT"]) in
    (configMap3, out3 ++ [UsernameIs (Username config)])
  else
    (SetKey "security.protocol" (CfgString "PLAINTEXT") configMap1,
     out1 ++ [AuthenticationNone; NoCredentialsWarning]).

Definition getKafkaAdmin {C : Type} (ShouldUseAuth : KafkaConfig -> bool)
    (NewAdminClient : gmap string ConfigValue -> result C)
    (config : KafkaConfig) : list AdminLine * result C :=
  connectAdmin NewAdminClient (adminConfig ShouldUseAuth config).

End KafkaByAuth.


(** The configuration of a local broker, as the defaults give it. *)
Definition localDefaults : KafkaConfig :=
  mkKafkaConfig "localhost:9092" "" "" false "" 6.

(** A client library that records the map it is given. *)
Definition recordingClient (m : gmap string ConfigValue)
    : result (gmap string ConfigValue) := Ok m.

(** The error [increaseTopicPartitions] builds from a failed result. *)
Definition increaseResultFailed (result : TopicResult) : error :=
  Errorf ("failed to increase partitions for topic '" +:+ res_Topic result
          +:+ "': " +:+ ErrString (res_Error result)).

(** A client whose answer to a partition increase holds a success for
    "orders" followed by two failures. *)
Definition secondResultFails : Script :=
  mkScript [] []
    [ Ok [ mkTopicResult "orders" success;
           mkTopicResult "payments" (mkKafkaError 37 "Invalid partitions");
           mkTopicResult "audit" (mkKafkaError 41 "Not controller") ] ].

(** A client that creates "orders" on the first call. *)
Definition createsOrders : Script :=
  mkScript [] [Ok [mkTopicResult "orders" success]] [].

Definition ordersRecord : TopicConfig := mkTopicConfig "orders" 3 1 "order events".
(** * Properties *)

(** ** Strings *)

Lemma append_String (a : ascii) (s t : string) :
  String a s +:+ t = String a (s +:+ t).
Proof. reflexivity. Qed.


Lemma HasPrefix_true (s p : string) :
  HasPrefix s p = true <-> exists post, s = p +:+ post.
Proof.
  revert s. induction p as [|a p IH]; intros s; simpl.
  - split; [intros _; by exists s | done].
  - destruct s as [|b s]; simpl.
    + split; [done | intros [post H]; discriminate].
    + destruct (Ascii.eqb_spec a b) as [->|Hne].
      * rewrite IH. split; intros [post H]; exists post;
          rewrite append_String in *; congruence.
      * split; [done | intros [post H]; rewrite append_String in H; congruence].
Qed.

Lemma Contains_occursIn (s sub : string) :
  Contains s sub = true <-> occursIn sub s.
Proof.
  unfold occursIn. induction s as [|b s IH]; simpl.
  - rewrite orb_false_r, HasPrefix_true. split.
    + intros [post H]. by exists ""%string, post.
    + intros [[|c pre] [post H]]; [by exists post | discriminate].
  - rewrite orb_true_iff, HasPrefix_true, IH. split.
    + intros [[post H] | (pre & post & H)].
      * by exists ""%string, post.
      * exists (String b pre), post. rewrite append_String. by rewrite H.
    + intros [[|c pre] [post H]].
      * left. by exists post.
      * right. exists pre, post. rewrite append_String in H. congruence.
Qed.

(** On ASCII-only text [ToLower] does not consult the Unicode tables. *)
Lemma ToLower_ascii (ul1 ul2 : string -> string) (s : string) :
  isASCII s = true -> ToLower ul1 s = ToLower ul2 s.
Proof. unfold ToLower. by intros ->. Qed.

(** ** The retry classifier *)

Lemma isRetryableError_iff (unicodeLower : string -> string) (err : option error) :
  isRetryableError unicodeLower err = true
  <-> specifiedRetryable retryableErrors unicodeLower err.
Proof.
  unfold specifiedRetryable, isRetryableError. destruct err as [e|].
  - rewrite existsb_exists. split.
    + intros (sub & Hin & Hc). exists e, sub. by rewrite <- Contains_occursIn.
    + intros (e' & sub & [= <-] & Hin & Hocc). exists sub.
      by rewrite Contains_occursIn.
  - split; [done | intros (e & sub & H & _); discriminate].
Qed.

(** C4, as the specification states it, fails: the text
    "network unreachable" contains one of the listed substrings, and
    [isRetryableError] answers false on it, because the program looks for
    "network is unreachable". *)
Lemma C4_specified_list_counterexample :
  ~ (isRetryableError (fun s => s) (Some (Errorf "network unreachable")) = true
     <-> specifiedRetryable specifiedRetryableSubstrings (fun s => s)
           (Some (Errorf "network unreachable"))).
Proof.
  intros [_ H].
  assert (Hf : isRetryableError (fun s => s) (Some (Errorf "network unreachable")) = false)
    by reflexivity.
  rewrite Hf in H. enough (false = true) by discriminate. apply H.
  exists (Errorf "network unreachable"), "network unreachable"%string.
  split; [done|]. split; [simpl; tauto|].
  by exists ""%string, ""%string.
Qed.

(** C4 (amended): [isRetryableError] answers true exactly when the error is
    not nil and its lower-cased text contains one of: connection refused,
    connection closed, timeout, network is unreachable, no such host,
    connection reset by peer, broken pipe.  It answers true on
    "dial tcp: connection refused", false on "invalid configuration" and
    false on a nil error. *)
Theorem C4_isRetryableError_classifier (unicodeLower : string -> string) :
  (forall err : option error,
      isRetryableError unicodeLower err = true
      <-> exists e sub,
            err = Some e /\
            In sub [ "connection refused"; "connection closed"; "timeout";
                     "network is unreachable"; "no such host";
                     "connection reset by peer"; "broken pipe" ]%string /\
            occursIn sub (ToLower unicodeLower (ErrorText e)))
  /\ (forall err : option error,
         isRetryableError unicodeLower err = false
         <-> err = None \/
             exists e, err = Some e /\
               forall sub,
                 In sub [ "connection refused"; "connection closed"; "timeout";
                          "network is unreachable"; "no such host";
                          "connection reset by peer"; "broken pipe" ]%string ->
                 ~ occursIn sub (ToLower unicodeLower (ErrorText e)))
  /\ isRetryableError unicodeLower (Some (Errorf "dial tcp: connection refused")) = true
  /\ isRetryableError unicodeLower (Some (Errorf "invalid configuration")) = false
  /\ isRetryableError unicodeLower None = false.
Proof.
  split; [|split; [|repeat split]].
  - intros err. apply isRetryableError_iff.
  - intros err. rewrite <- not_true_iff_false, isRetryableError_iff.
    unfold specifiedRetryable, retryableErrors. split.
    + intros Hn. destruct err as [e|]; [right | by left].
      exists e. split; [done|]. intros sub Hin Hocc. apply Hn. by exists e, sub.
    + intros [-> | (e & -> & Hno)] (e' & sub & Heq & Hin & Hocc).
      * discriminate.
      * injection Heq as <-. by apply (Hno sub).
Qed.


#[global] Arguments isRetryableError : simpl never.
#[global] Arguments Errorf : simpl never.
#[global] Arguments Errorf_w : simpl never.
#[global] Arguments fmt_d : simpl never.

(** ** Running the monad *)

Section RunFacts.
Context {G : Type}.

Lemma bind_returned {A B} (m : M (G:=G) A) (k : A -> M B) g a g1 t1 :
  m g = (Returned a, g1, t1) ->
  bind m k g = (outcomeOf (k a g1), clientOf (k a g1), t1 ++ eventsOf (k a g1)).
Proof.
  intros H. unfold bind, outcomeOf, clientOf, eventsOf. rewrite H.
  by destruct (k a g1) as [[o g2] t2].
Qed.

Lemma bind_panicked {A B} (m : M (G:=G) A) (k : A -> M B) g msg g1 t1 :
  m g = (Panicked msg, g1, t1) -> bind m k g = (Panicked msg, g1, t1).
Proof. intros H. unfold bind. by rewrite H. Qed.

Lemma run_eta {A} (r : outcome A * G * list Event) :
  r = (outcomeOf r, clientOf r, eventsOf r).
Proof. by destruct r as [[o g] t]. Qed.

End RunFacts.

(** ** Observations distribute over the events *)

Lemma callsOf_app (a b : list Event) : callsOf (a ++ b) = callsOf a ++ callsOf b.
Proof. apply omap_app. Qed.

Lemma sleepsOf_app (a b : list Event) : sleepsOf (a ++ b) = sleepsOf a ++ sleepsOf b.
Proof. apply omap_app. Qed.

Lemma linesOf_app (a b : list Event) : linesOf (a ++ b) = linesOf a ++ linesOf b.
Proof. apply omap_app. Qed.

Lemma createAttemptsOf_app (a b : list Event) :
  createAttemptsOf (a ++ b) = (createAttemptsOf a + createAttemptsOf b)%nat.
Proof. unfold createAttemptsOf. by rewrite List.filter_app, length_app. Qed.

(** Printed lines are neither calls nor waits. *)
Lemma callsOf_prints {A} (f : A -> Line) (l : list A) :
  callsOf (map (fun x => EvPrint (f x)) l) = [].
Proof. induction l; [done | by simpl]. Qed.

Lemma sleepsOf_prints {A} (f : A -> Line) (l : list A) :
  sleepsOf (map (fun x => EvPrint (f x)) l) = [].
Proof. induction l; [done | by simpl]. Qed.

Lemma createAttemptsOf_prints {A} (f : A -> Line) (l : list A) :
  createAttemptsOf (map (fun x => EvPrint (f x)) l) = 0%nat.
Proof. induction l; [done | by simpl]. Qed.

Lemma linesOf_prints {A} (f : A -> Line) (l : list A) :
  linesOf (map (fun x => EvPrint (f x)) l) = map f l.
Proof. induction l as [|x l IH]; [done | simpl; by f_equal]. Qed.

(** Read the calls, the waits and the attempts off an explicit run. *)
Ltac observe :=
  unfold eventsOf, outcomeOf, clientOf; cbn [fst snd];
  rewrite ?callsOf_app, ?sleepsOf_app, ?createAttemptsOf_app,
    ?callsOf_prints, ?sleepsOf_prints, ?createAttemptsOf_prints;
  unfold createAttemptsOf, callsOf, sleepsOf; simpl.

(** ** The create path *)

Lemma countIf_cons {A} (p : A -> bool) x l :
  countIf p (x :: l) = (if p x then 1 else 0) + countIf p l.
Proof.
  unfold countIf, len. rewrite filter_cons.
  case_decide as Hp.
  - rewrite Hp. simpl length. lia.
  - destruct (p x); [done | lia].
Qed.

Lemma countIf_nonneg {A} (p : A -> bool) l : 0 <= countIf p l.
Proof. unfold countIf, len. lia. Qed.

Lemma countIf_zero {A} (p : A -> bool) (l : list A) :
  countIf p l = 0 <-> forall x, In x l -> p x = false.
Proof.
  induction l as [|x l IH].
  - split; [intros _ y [] | done].
  - rewrite countIf_cons. pose proof (countIf_nonneg p l). split.
    + intros H0 y [<-|Hy].
      * destruct (p x); [lia | done].
      * apply IH; [|done]. destruct (p x); lia.
    + intros Hall. rewrite (Hall x) by (by left).
      rewrite (proj2 IH); [done|]. intros y Hy. apply Hall. by right.
Qed.

(** The classes are exclusive and cover every result. *)
Lemma result_classes (r : TopicResult) :
  (isCreated r = true /\ isAlreadyExists r = false /\ isTopicError r = false) \/
  (isCreated r = false /\ isAlreadyExists r = true /\ isTopicError r = false) \/
  (isCreated r = false /\ isAlreadyExists r = false /\ isTopicError r = true).
Proof.
  unfold isTopicError, isCreated, isAlreadyExists, ErrNoError, ErrTopicAlreadyExists.
  destruct (Z.eqb_spec (Code (res_Error r)) 0) as [->|]; [by left|].
  destruct (Z.eqb_spec (Code (res_Error r)) 36); [right; by left | right; by right].
Qed.

Section CreateFacts.
Context {G : Type} (adminClient : AdminClient G).
Context (unicodeLower : string -> string).

Local Abbreviation createAttempts := (createAttempts adminClient unicodeLower).
Local Abbreviation createTopicsFromSpecs :=
  (createTopicsFromSpecs adminClient unicodeLower).

(** The result loop looks at every result, whatever the ones before it
    were, prints one line for each and counts each in its class. *)
Lemma checkResults_run (results : list TopicResult) (c : createCounts) (g : G) :
  forRange checkResult c results g
  = (Returned (mkCounts (successCount c + countIf isCreated results)
                        (existsCount c + countIf isAlreadyExists results)
                        (errorCount c + countIf isTopicError results)),
     g, map (fun r => EvPrint (resultLine r)) results).
Proof.
  revert c. induction results as [|r rs IH]; intros c; simpl.
  - unfold ret, countIf, len. simpl. rewrite !Z.add_0_r. by destruct c.
  - rewrite !countIf_cons.
    assert (Hstep : exists c',
      checkResult c r g = (Returned c', g, [EvPrint (resultLine r)]) /\
      successCount c' = successCount c + (if isCreated r then 1 else 0) /\
      existsCount c' = existsCount c + (if isAlreadyExists r then 1 else 0) /\
      errorCount c' = errorCount c + (if isTopicError r then 1 else 0)).
    { unfold checkResult, resultLine, isTopicError, isCreated, isAlreadyExists.
      destruct (Code (res_Error r) =? ErrNoError) eqn:E1;
        [|destruct (Code (res_Error r) =? ErrTopicAlreadyExists) eqn:E2];
        eexists; (split; [reflexivity|]); simpl; repeat split; try lia.
      apply Z.eqb_eq in E1. rewrite E1. simpl. lia. }
    destruct Hstep as (c' & Hrun & Hs & He & Hf).
    rewrite (bind_returned _ _ _ _ _ _ Hrun), IH.
    unfold outcomeOf, clientOf, eventsOf. simpl.
    rewrite Hs, He, Hf, !Z.add_assoc. reflexivity.
Qed.

(** One iteration whose call succeeds: the results are inspected and the
    loop is left, with success or with the aggregated error. *)
Lemma attempt_succeeds fuel maxR attempt lastErr specs g g1 results :
  attempt <= maxR ->
  CreateTopics adminClient g specs = (g1, Ok results) ->
  createAttempts (S fuel) maxR attempt lastErr specs g
  = (Returned (if countIf isTopicError results =? 0 then None
               else Some (someTopicsFailed (countIf isTopicError results) (len specs))),
     g1,
     [EvPrint (AttemptingToCreate attempt maxR); EvCall (CallCreateTopics specs)]
     ++ map (fun r => EvPrint (resultLine r)) results
     ++ [EvPrint (CreationSummary (countIf isCreated results)
                                  (countIf isAlreadyExists results)
                                  (countIf isTopicError results))]).
Proof.
  intros Hle Hcall. simpl. apply Z.leb_le in Hle. rewrite Hle.
  unfold bind at 1. unfold print at 1, emit at 1.
  unfold bind at 1. unfold callCreateTopics at 1. rewrite Hcall.
  unfold bind at 1. rewrite checkResults_run. simpl.
  unfold bind, print, emit, ret. rewrite !Z.add_0_l.
  destruct (countIf isTopicError results =? 0); reflexivity.
Qed.

(** One iteration whose call fails and is not retried. *)
Lemma attempt_fails_last fuel maxR attempt lastErr specs g g1 err :
  attempt <= maxR ->
  CreateTopics adminClient g specs = (g1, Err err) ->
  (attempt <? maxR) && isRetryableError unicodeLower (Some err) = false ->
  createAttempts (S fuel) maxR attempt lastErr specs g
  = (Returned (Some (attemptFailed attempt err)), g1,
     [EvPrint (AttemptingToCreate attempt maxR); EvCall (CallCreateTopics specs);
      EvPrint (ConnectionError err)]).
Proof.
  intros Hle Hcall Hno. simpl. apply Z.leb_le in Hle. rewrite Hle.
  unfold bind at 1. unfold print at 1, emit at 1.
  unfold bind at 1. unfold callCreateTopics at 1. rewrite Hcall.
  rewrite Hno. reflexivity.
Qed.

(** One iteration whose call fails and is retried: a wait of
    [attempt * 1 * time.Second], then the next iteration. *)
Lemma attempt_fails_retry fuel maxR attempt lastErr specs g g1 err :
  attempt <= maxR ->
  CreateTopics adminClient g specs = (g1, Err err) ->
  (attempt <? maxR) && isRetryableError unicodeLower (Some err) = true ->
  let next := createAttempts fuel maxR (attempt + 1)
                (Some (attemptFailed attempt err)) specs g1 in
  createAttempts (S fuel) maxR attempt lastErr specs g
  = (outcomeOf next, clientOf next,
     [EvPrint (AttemptingToCreate attempt maxR); EvCall (CallCreateTopics specs);
      EvPrint (ConnectionError err);
      EvPrint (RetryingIn (attempt * 1 * Second)); EvSleep (attempt * 1 * Second)]
     ++ eventsOf next).
Proof.
  intros Hle Hcall Hyes next. simpl. apply Z.leb_le in Hle. rewrite Hle.
  unfold bind at 1. unfold print at 1, emit at 1.
  unfold bind at 1. unfold callCreateTopics at 1. rewrite Hcall.
  rewrite Hyes. unfold bind, print, emit. fold createAttempts. fold next.
  unfold attemptFailed in next. fold next.
  by destruct next as [[o g2] t2].
Qed.
End CreateFacts.

Section CreateClaims.
Context {G : Type} (adminClient : AdminClient G).
Context (unicodeLower : string -> string).

Local Abbreviation createTopicsFromSpecs :=
  (createTopicsFromSpecs adminClient unicodeLower).
Local Abbreviation isRetryable := (isRetryableError unicodeLower).

Lemma createTopicsFromSpecs_unfold specs :
  createTopicsFromSpecs specs = createAttempts adminClient unicodeLower 2 2 1 None specs.
Proof. reflexivity. Qed.

(** The whole run of [createTopicsFromSpecs], by the answers of the
    client to the first and to the second call. *)
Lemma create_first_ok specs g g1 results :
  CreateTopics adminClient g specs = (g1, Ok results) ->
  createTopicsFromSpecs specs g
  = (Returned (if countIf isTopicError results =? 0 then None
               else Some (someTopicsFailed (countIf isTopicError results) (len specs))),
     g1,
     [EvPrint (AttemptingToCreate 1 2); EvCall (CallCreateTopics specs)]
     ++ map (fun r => EvPrint (resultLine r)) results
     ++ [EvPrint (CreationSummary (countIf isCreated results)
                                  (countIf isAlreadyExists results)
                                  (countIf isTopicError results))]).
Proof.
  intros H. rewrite createTopicsFromSpecs_unfold.
  by apply attempt_succeeds.
Qed.

Lemma create_first_terminal specs g g1 err :
  CreateTopics adminClient g specs = (g1, Err err) ->
  isRetryable (Some err) = false ->
  createTopicsFromSpecs specs g
  = (Returned (Some (attemptFailed 1 err)), g1,
     [EvPrint (AttemptingToCreate 1 2); EvCall (CallCreateTopics specs);
      EvPrint (ConnectionError err)]).
Proof.
  intros H Hno. rewrite createTopicsFromSpecs_unfold.
  apply attempt_fails_last; [done | done |]. by rewrite Hno.
Qed.

Lemma create_retry_ok specs g g1 err g2 results :
  CreateTopics adminClient g specs = (g1, Err err) ->
  isRetryable (Some err) = true ->
  CreateTopics adminClient g1 specs = (g2, Ok results) ->
  createTopicsFromSpecs specs g
  = (Returned (if countIf isTopicError results =? 0 then None
               else Some (someTopicsFailed (countIf isTopicError results) (len specs))),
     g2,
     retryPrefix specs err
     ++ [EvPrint (AttemptingToCreate 2 2); EvCall (CallCreateTopics specs)]
     ++ map (fun r => EvPrint (resultLine r)) results
     ++ [EvPrint (CreationSummary (countIf isCreated results)
                                  (countIf isAlreadyExists results)
                                  (countIf isTopicError results))]).
Proof.
  intros H1 Hyes H2. rewrite createTopicsFromSpecs_unfold.
  rewrite (attempt_fails_retry _ _ 1 2 1 None specs g g1 err);
    [| done | done | by rewrite Hyes].
  rewrite (attempt_succeeds _ _ 0 2 (1 + 1) _ specs g1 g2 results); done.
Qed.

Lemma create_retry_err specs g g1 err g2 err2 :
  CreateTopics adminClient g specs = (g1, Err err) ->
  isRetryable (Some err) = true ->
  CreateTopics adminClient g1 specs = (g2, Err err2) ->
  createTopicsFromSpecs specs g
  = (Returned (Some (attemptFailed 2 err2)), g2,
     retryPrefix specs err
     ++ [EvPrint (AttemptingToCreate 2 2); EvCall (CallCreateTopics specs);
         EvPrint (ConnectionError err2)]).
Proof.
  intros H1 Hyes H2. rewrite createTopicsFromSpecs_unfold.
  rewrite (attempt_fails_retry _ _ 1 2 1 None specs g g1 err);
    [| done | done | by rewrite Hyes].
  rewrite (attempt_fails_last _ _ 0 2 (1 + 1) _ specs g1 g2 err2); done.
Qed.

(** [createTopicsFromSpecs] never panics. *)
Lemma createTopicsFromSpecs_returns specs g :
  exists r, outcomeOf (createTopicsFromSpecs specs g) = Returned r.
Proof.
  destruct (CreateTopics adminClient g specs) as [g1 [results|err]] eqn:H1.
  - rewrite (create_first_ok _ _ _ _ H1). eauto.
  - destruct (isRetryable (Some err)) eqn:Hr.
    + destruct (CreateTopics adminClient g1 specs) as [g2 [results|err2]] eqn:H2.
      * rewrite (create_retry_ok _ _ _ _ _ _ H1 Hr H2). eauto.
      * rewrite (create_retry_err _ _ _ _ _ _ H1 Hr H2). eauto.
    + rewrite (create_first_terminal _ _ _ _ H1 Hr). eauto.
Qed.

(** The calls of a run of [createTopicsFromSpecs] are [CreateTopics]
    calls with the whole batch. *)
Lemma createTopicsFromSpecs_calls specs g :
  callsOf (eventsOf (createTopicsFromSpecs specs g))
  = replicate (createAttemptsOf (eventsOf (createTopicsFromSpecs specs g)))
              (CallCreateTopics specs)
  /\ (1 <= createAttemptsOf (eventsOf (createTopicsFromSpecs specs g)) <= 2)%nat.
Proof.
  destruct (CreateTopics adminClient g specs) as [g1 [results|err]] eqn:H1.
  - rewrite (create_first_ok _ _ _ _ H1). observe. split; [done | lia].
  - destruct (isRetryable (Some err)) eqn:Hr.
    + destruct (CreateTopics adminClient g1 specs) as [g2 [results|err2]] eqn:H2.
      * rewrite (create_retry_ok _ _ _ _ _ _ H1 Hr H2). observe. split; [done | lia].
      * rewrite (create_retry_err _ _ _ _ _ _ H1 Hr H2). observe. split; [done | lia].
    + rewrite (create_first_terminal _ _ _ _ H1 Hr). observe. split; [done | lia].
Qed.
(** C2. [createTopicsFromSpecs] calls [CreateTopics] at least once and at
    most twice, each time with the whole batch.  When the first call itself
    fails, a second attempt is made exactly when [isRetryableError] accepts
    the error (attempt 1 is below the ceiling 2), after a wait of
    1 x 1 second; an error that is not retryable ends the run with the
    wrapped error of attempt 1.  A retryable failure followed by a call
    that succeeds with no per-topic error gives success after exactly two
    attempts; a retryable failure followed by a second failure gives
    exactly two attempts and the wrapped error of attempt 2. *)
Theorem C2_create_retry_bound (specs : list TopicSpecification) (g : G) :
  let run := createTopicsFromSpecs specs g in
  let first := CreateTopics adminClient g specs in
  let second := CreateTopics adminClient first.1 specs in
  (1 <= createAttemptsOf (eventsOf run) <= 2)%nat
  /\ callsOf (eventsOf run)
     = replicate (createAttemptsOf (eventsOf run)) (CallCreateTopics specs)
  /\ (forall err, first.2 = Err err ->
        (createAttemptsOf (eventsOf run) = 2%nat
         <-> isRetryable (Some err) = true /\ 1 < maxRetries))
  /\ (forall err, first.2 = Err err -> isRetryable (Some err) = true ->
        sleepsOf (eventsOf run) = [1 * (1 * Second)]
        /\ exists rest,
             eventsOf run
             = [EvPrint (AttemptingToCreate 1 2); EvCall (CallCreateTopics specs);
                EvPrint (ConnectionError err);
                EvPrint (RetryingIn (1 * 1 * Second)); EvSleep (1 * 1 * Second);
                EvPrint (AttemptingToCreate 2 2); EvCall (CallCreateTopics specs)]
               ++ rest)
  /\ (forall err, first.2 = Err err -> isRetryable (Some err) = false ->
        outcomeOf run = Returned (Some (attemptFailed 1 err))
        /\ sleepsOf (eventsOf run) = [])
  /\ (forall err results,
        first.2 = Err err -> isRetryable (Some err) = true ->
        second.2 = Ok results ->
        (forall r, In r results -> isTopicError r = false) ->
        outcomeOf run = Returned None
        /\ createAttemptsOf (eventsOf run) = 2%nat)
  /\ (forall err err2,
        first.2 = Err err -> isRetryable (Some err) = true ->
        second.2 = Err err2 ->
        outcomeOf run = Returned (Some (attemptFailed 2 err2))
        /\ Unwrap (attemptFailed 2 err2) = Some err2
        /\ createAttemptsOf (eventsOf run) = 2%nat).
Proof.
  intros run first second.
  pose proof (createTopicsFromSpecs_calls specs g) as [Hcalls Hbound].
  split; [exact Hbound|]. split; [exact Hcalls|].
  subst run first second.
  destruct (CreateTopics adminClient g specs) as [g1 r1] eqn:H1. cbn [fst snd].
  destruct (CreateTopics adminClient g1 specs) as [g2 r2] eqn:H2. cbn [fst snd].
  split; [|split; [|split; [|split]]].
  - intros err ->. split.
    + intros Htwo. destruct (isRetryable (Some err)) eqn:Hr; [done|].
      rewrite (create_first_terminal _ _ _ _ H1 Hr) in Htwo. by observe.
    + intros [Hr _]. destruct r2 as [results|err2].
      * rewrite (create_retry_ok _ _ _ _ _ _ H1 Hr H2). by observe.
      * rewrite (create_retry_err _ _ _ _ _ _ H1 Hr H2). by observe.
  - intros err -> Hr. destruct r2 as [results|err2].
    + rewrite (create_retry_ok _ _ _ _ _ _ H1 Hr H2). split; [by observe|].
      eexists. reflexivity.
    + rewrite (create_retry_err _ _ _ _ _ _ H1 Hr H2). split; [by observe|].
      eexists. reflexivity.
  - intros err -> Hr. rewrite (create_first_terminal _ _ _ _ H1 Hr). by observe.
  - intros err results -> Hr -> Hclean.
    rewrite (create_retry_ok _ _ _ _ _ _ H1 Hr H2).
    apply countIf_zero in Hclean. rewrite Hclean. by observe.
  - intros err err2 -> Hr ->.
    rewrite (create_retry_err _ _ _ _ _ _ H1 Hr H2). by observe.
Qed.

(** C3. Whenever a [CreateTopics] call succeeds, on the first attempt or on
    the retry, every result of the answer is inspected and gets its line,
    whatever the results before it were.  Code [ErrNoError] counts as
    created, [ErrTopicAlreadyExists] as already existing, every other code
    as an error.  The function returns nil exactly when the error count is
    zero; when it is positive it returns the aggregated error, and the
    successful call is the last call of the run. *)
Theorem C3_per_topic_results (specs : list TopicSpecification) (g : G)
    (results : list TopicResult) :
  let run := createTopicsFromSpecs specs g in
  let first := CreateTopics adminClient g specs in
  let second := CreateTopics adminClient first.1 specs in
  let errors := countIf isTopicError results in
  let inspection :=
    map (fun r => EvPrint (resultLine r)) results
    ++ [EvPrint (CreationSummary (countIf isCreated results)
                                 (countIf isAlreadyExists results) errors)] in
  (forall r, In r results ->
     resultLine r
     = if Code (res_Error r) =? ErrNoError then TopicCreated (res_Topic r)
       else if Code (res_Error r) =? ErrTopicAlreadyExists
            then TopicAlreadyExists (res_Topic r)
            else TopicCreateFailed (res_Topic r) (res_Error r))
  /\ countIf isCreated results + countIf isAlreadyExists results + errors
     = len results
  /\ (errors = 0 <->
      forall r, In r results ->
        Code (res_Error r) = ErrNoError \/ Code (res_Error r) = ErrTopicAlreadyExists)
  /\ (first.2 = Ok results ->
        (outcomeOf run = Returned None <-> errors = 0)
        /\ (0 < errors ->
              outcomeOf run = Returned (Some (someTopicsFailed errors (len specs))))
        /\ eventsOf run
           = [EvPrint (AttemptingToCreate 1 2); EvCall (CallCreateTopics specs)]
             ++ inspection
        /\ clientOf run = first.1)
  /\ (forall err, first.2 = Err err -> isRetryable (Some err) = true ->
        second.2 = Ok results ->
        (outcomeOf run = Returned None <-> errors = 0)
        /\ (0 < errors ->
              outcomeOf run = Returned (Some (someTopicsFailed errors (len specs))))
        /\ eventsOf run
           = retryPrefix specs err
             ++ [EvPrint (AttemptingToCreate 2 2); EvCall (CallCreateTopics specs)]
             ++ inspection
        /\ clientOf run = second.1).
Proof.
  intros run first second errors inspection.
  assert (Hout : forall o : outcome (option error),
             o = Returned (if errors =? 0 then None
                           else Some (someTopicsFailed errors (len specs))) ->
             (o = Returned None <-> errors = 0)
             /\ (0 < errors ->
                 o = Returned (Some (someTopicsFailed errors (len specs))))).
  { intros o ->. destruct (Z.eqb_spec errors 0) as [E|E].
    - split; [split; done | intros; lia].
    - split; [split; [intros [=] | intros; lia] | done]. }
  split; [|split; [|split; [|split]]].
  - intros r _. reflexivity.
  - subst errors. clear. induction results as [|r rs IH]; [done|].
    rewrite !countIf_cons. unfold len in *. simpl length.
    destruct (result_classes r) as [(->&->&->)|[(->&->&->)|(->&->&->)]]; lia.
  - subst errors. rewrite countIf_zero. split; intros H r Hr; specialize (H r Hr).
    + unfold isTopicError, isCreated, isAlreadyExists in H.
      destruct (Z.eqb_spec (Code (res_Error r)) ErrNoError); [by left|].
      destruct (Z.eqb_spec (Code (res_Error r)) ErrTopicAlreadyExists); [by right|done].
    + unfold isTopicError, isCreated, isAlreadyExists.
      destruct H as [-> | ->]; reflexivity.
  - subst run first second.
    destruct (CreateTopics adminClient g specs) as [g1 r1] eqn:H1. cbn [fst snd].
    intros ->. rewrite (create_first_ok _ _ _ _ H1).
    unfold outcomeOf, eventsOf, clientOf. cbn [fst snd].
    destruct (Hout _ eq_refl) as [Ha Hb]. done.
  - subst run first second.
    destruct (CreateTopics adminClient g specs) as [g1 r1] eqn:H1. cbn [fst snd].
    destruct (CreateTopics adminClient g1 specs) as [g2 r2] eqn:H2. cbn [fst snd].
    intros err -> Hr ->. rewrite (create_retry_ok _ _ _ _ _ _ H1 Hr H2).
    unfold outcomeOf, eventsOf, clientOf. cbn [fst snd].
    destruct (Hout _ eq_refl) as [Ha Hb]. done.
Qed.
End CreateClaims.

(** C2 on a client that refuses the first connection and then answers. *)
Lemma C2_create_retry_bound_witness :
  outcomeOf (createTopicsFromSpecs scripted noUnicode [mkSpec "orders" 3 1]
               refusedThenCreated) = Returned None
  /\ createAttemptsOf
       (eventsOf (createTopicsFromSpecs scripted noUnicode [mkSpec "orders" 3 1]
                    refusedThenCreated)) = 2%nat.
Proof.
  pose proof (C2_create_retry_bound scripted noUnicode [mkSpec "orders" 3 1]
                refusedThenCreated) as H.
  cbv zeta in H. destruct H as (_ & _ & _ & _ & _ & H & _).
  apply (H (Errorf "dial tcp: connection refused") [mkTopicResult "orders" success]).
  - reflexivity.
  - reflexivity.
  - reflexivity.
  - intros r [<- | []]. reflexivity.
Defined.

(** C3 on an answer with one created, one existing and one rejected topic. *)
Lemma C3_per_topic_results_witness :
  outcomeOf (createTopicsFromSpecs scripted noUnicode threeTopics mixedAnswer)
  = Returned (Some (someTopicsFailed 1 3))
  /\ createAttemptsOf
       (eventsOf (createTopicsFromSpecs scripted noUnicode threeTopics mixedAnswer))
     = 1%nat.
Proof.
  pose proof (C3_per_topic_results scripted noUnicode threeTopics mixedAnswer
                [ mkTopicResult "orders" success;
                  mkTopicResult "payments"
                    (mkKafkaError ErrTopicAlreadyExists "Topic already exists");
                  mkTopicResult "audit" (mkKafkaError 37 "Invalid partitions") ]) as H.
  cbv zeta in H. destruct H as (_ & _ & _ & H & _).
  destruct (H eq_refl) as (_ & Herr & Hev & _).
  split.
  - apply Herr. reflexivity.
  - rewrite Hev. reflexivity.
Defined.

(** ** The analysis pass of [SyncTopics] *)

Section AnalysisFacts.
Context {G : Type}.

Local Abbreviation M := (M (G:=G)).

Lemma len_nil {A} : len (@nil A) = 0.
Proof. reflexivity. Qed.

Lemma len_cons {A} (x : A) l : len (x :: l) = 1 + len l.
Proof. unfold len. simpl length. lia. Qed.

Lemma len_nonneg {A} (l : list A) : 0 <= len l.
Proof. unfold len. lia. Qed.

Lemma len_app {A} (l k : list A) : len (l ++ k) = len l + len k.
Proof. unfold len. rewrite length_app. lia. Qed.

Lemma len_pos_iff {A} (l : list A) : (len l >? 0) = true <-> l <> [].
Proof.
  destruct l; [by rewrite len_nil|]. rewrite len_cons.
  pose proof (len_nonneg l). split; [done | intros _; apply Z.gtb_lt; lia].
Qed.

(** The replication check on a topic whose sample is there. *)
Lemma replicationDiffers_sampled spec existing (g : G) :
  sampleMissing existing = false ->
  replicationDiffers spec existing g
  = (Returned (match replicaSample existing with
               | Some r0 => negb (int32 (ReplicationFactor spec) =? r0)
               | None => false
               end), g, []).
Proof.
  unfold replicationDiffers, sampleMissing, replicaSample.
  destruct (Partitions existing) as [|p0 ps]; [done|].
  rewrite len_cons. pose proof (len_nonneg ps).
  replace (1 + len ps >? 0) with true by (symmetry; apply Z.gtb_lt; lia).
  destruct (Replicas p0) as [|r0 rs] eqn:Hr; [done|]. intros _.
  unfold bind, index. simpl. rewrite Hr. reflexivity.
Qed.

(** The replication check on a topic whose partition 0 lists no replica:
    [existing.Partitions[0].Replicas[0]] is out of range. *)
Lemma replicationDiffers_missing spec existing (g : G) :
  sampleMissing existing = true ->
  replicationDiffers spec existing g = (Panicked (indexOutOfRange 0 0), g, []).
Proof.
  unfold replicationDiffers, sampleMissing.
  destruct (Partitions existing) as [|p0 ps]; [done|].
  rewrite len_cons. pose proof (len_nonneg ps).
  replace (1 + len ps >? 0) with true by (symmetry; apply Z.gtb_lt; lia).
  destruct (Replicas p0) as [|r0 rs] eqn:Hr; [|done]. intros _.
  unfold bind, index. simpl. rewrite Hr. reflexivity.
Qed.

(** One iteration of the pass. *)
Lemma analyzeSpec_sampled snapshot a spec (g : G) :
  hitsMissingSample snapshot spec = false ->
  analyzeSpec snapshot a spec g
  = (Returned (analysisStep snapshot a spec), g, analysisLines snapshot spec).
Proof.
  unfold hitsMissingSample, analyzeSpec, analysisStep, analysisLines,
    replicationMismatch, createEntry, updateEntry, scaleDownEntry, classify.
  destruct (snapshot !! spec_Topic spec) as [existing|] eqn:Hlook.
  - intros Hs.
    rewrite (bind_returned _ _ _ _ _ _ (replicationDiffers_sampled spec existing g Hs)).
    rewrite Z.gtb_ltb.
    set (differs := match replicaSample existing with
                    | Some r0 => negb (int32 (ReplicationFactor spec) =? r0)
                    | None => false end).
    destruct (len (Partitions existing) <? NumPartitions spec) eqn:Hgt.
    + destruct differs; unfold outcomeOf, clientOf, eventsOf, bind, print, emit, ret;
        simpl; rewrite ?app_nil_r, ?Z.add_0_r; reflexivity.
    + destruct (NumPartitions spec <? len (Partitions existing)) eqn:Hlt.
      * assert (Hne : (NumPartitions spec =? len (Partitions existing)) = false)
          by (apply Z.eqb_neq; apply Z.ltb_lt in Hlt; lia).
        rewrite Hne.
        destruct differs; unfold outcomeOf, clientOf, eventsOf, bind, print, emit, ret;
          simpl; rewrite ?app_nil_r, ?Z.add_0_r; reflexivity.
      * assert (Heq : (NumPartitions spec =? len (Partitions existing)) = true)
          by (apply Z.eqb_eq; apply Z.ltb_ge in Hlt, Hgt; lia).
        rewrite Heq.
        destruct differs; unfold outcomeOf, clientOf, eventsOf, bind, print, emit, ret;
          simpl; rewrite ?app_nil_r; reflexivity.
  - intros _. unfold ret. simpl. rewrite ?app_nil_r, ?Z.add_0_r. reflexivity.
Qed.

Lemma analyzeSpec_missing snapshot a spec (g : G) :
  hitsMissingSample snapshot spec = true ->
  analyzeSpec snapshot a spec g = (Panicked (indexOutOfRange 0 0), g, []).
Proof.
  unfold hitsMissingSample, analyzeSpec.
  destruct (snapshot !! spec_Topic spec) as [existing|]; [|done].
  intros Hs. by rewrite (bind_panicked _ _ _ _ _ _ (replicationDiffers_missing spec existing g Hs)).
Qed.

Lemma foldl_analysisStep snapshot specs a :
  foldl (analysisStep snapshot) a specs
  = mkAnalysis
      (topicsToCreate a ++ topicsToCreate (analysisOf snapshot specs))
      (topicsToUpdate a ++ topicsToUpdate (analysisOf snapshot specs))
      (cannotScaleDown a ++ cannotScaleDown (analysisOf snapshot specs))
      (unchangedCount a + unchangedCount (analysisOf snapshot specs)).
Proof.
  revert a. induction specs as [|spec specs IH]; intros a.
  - simpl. rewrite !app_nil_r, len_nil, Z.add_0_r. by destruct a.
  - simpl foldl. rewrite IH. unfold analysisStep, analysisOf. simpl.
    rewrite <- !app_assoc. f_equal.
    + f_equal. by destruct (createEntry snapshot spec).
    + f_equal. by destruct (updateEntry snapshot spec).
    + f_equal. by destruct (scaleDownEntry snapshot spec).
    + destruct (isUnchanged (classify snapshot spec)); rewrite ?len_cons; lia.
Qed.

(** The pass over a list none of whose topics hits a missing sample. *)
Lemma analyzeTopics_sampled snapshot specs (g : G) :
  existsb (hitsMissingSample snapshot) specs = false ->
  analyzeTopics snapshot specs g
  = (Returned (analysisOf snapshot specs), g, flat_map (analysisLines snapshot) specs).
Proof.
  unfold analyzeTopics.
  assert (Hgen : forall a,
    existsb (hitsMissingSample snapshot) specs = false ->
    forRange (analyzeSpec snapshot) a specs g
    = (Returned (foldl (analysisStep snapshot) a specs), g,
       flat_map (analysisLines snapshot) specs)).
  { induction specs as [|spec specs IH]; intros a Hno; [done|].
    simpl in Hno. apply orb_false_iff in Hno as [H1 H2]. simpl forRange.
    rewrite (bind_returned _ _ _ _ _ _ (analyzeSpec_sampled snapshot a spec g H1)).
    rewrite (IH _ H2). reflexivity. }
  intros Hno. rewrite (Hgen _ Hno), foldl_analysisStep. simpl.
  by rewrite Z.add_0_l.
Qed.

(** The pass over a list one of whose topics hits a missing sample panics,
    having printed the lines of the topics before it and made no call. *)
Lemma analyzeTopics_missing snapshot specs (g : G) :
  existsb (hitsMissingSample snapshot) specs = true ->
  analyzeTopics snapshot specs g
  = (Panicked (indexOutOfRange 0 0), g,
     flat_map (analysisLines snapshot) (beforeFirstHit snapshot specs)).
Proof.
  unfold analyzeTopics. generalize emptyAnalysis.
  induction specs as [|spec specs IH]; intros a Hex; [done|].
  simpl forRange. simpl in Hex. simpl beforeFirstHit.
  destruct (hitsMissingSample snapshot spec) eqn:H1.
  - by rewrite (bind_panicked _ _ _ _ _ _ (analyzeSpec_missing snapshot a spec g H1)).
  - rewrite (bind_returned _ _ _ _ _ _ (analyzeSpec_sampled snapshot a spec g H1)).
    by rewrite (IH (analysisStep snapshot a spec) Hex).
Qed.
End AnalysisFacts.

(** ** The partition-increase path and the execution phases *)

Lemma updateFailures_app (a b : list Event) :
  updateFailures (a ++ b) = updateFailures a + updateFailures b.
Proof. unfold updateFailures. by rewrite List.filter_app, len_app. Qed.

Lemma createFailed_app (a b : list Event) :
  createFailed (a ++ b) = createFailed a || createFailed b.
Proof. apply existsb_app. Qed.

Lemma updateFailures_nonneg (a : list Event) : 0 <= updateFailures a.
Proof. apply len_nonneg. Qed.

Lemma firstPartitionError_None (results : list TopicResult) :
  firstPartitionError results = None
  <-> forall r, In r results -> Code (res_Error r) = ErrNoError.
Proof.
  induction results as [|r rs IH]; simpl.
  - split; [intros _ r [] | done].
  - destruct (Z.eqb_spec (Code (res_Error r)) ErrNoError) as [E|E]; simpl.
    + rewrite IH. split; [intros H x [<-|Hx]; auto | intros H x Hx; apply H; by right].
    + split; [done | intros H; exfalso; apply E, H; by left].
Qed.

Section ExecutionFacts.
Context {G : Type} (adminClient : AdminClient G).
Context (unicodeLower : string -> string).

Local Abbreviation increaseTopicPartitions := (increaseTopicPartitions adminClient).
Local Abbreviation applyUpdate := (applyUpdate adminClient).
Local Abbreviation updateExisting := (updateExisting adminClient).
Local Abbreviation createMissing := (createMissing adminClient unicodeLower).
Local Abbreviation createTopicsFromSpecs :=
  (createTopicsFromSpecs adminClient unicodeLower).

Lemma increaseTopicPartitions_run topicName newPartitionCount (g : G) :
  let call := CreatePartitions adminClient g
                [mkPartitionsSpec topicName newPartitionCount] in
  increaseTopicPartitions topicName newPartitionCount g
  = (Returned (increaseError topicName call.2), call.1,
     [EvCall (CallCreatePartitions [mkPartitionsSpec topicName newPartitionCount])]).
Proof.
  intros call. subst call. unfold increaseTopicPartitions, bind, callCreatePartitions.
  destruct (CreatePartitions adminClient g _) as [g1 [results|err]]; reflexivity.
Qed.

(** One queued update: one call, one line, one count. *)
Lemma applyUpdate_run (t : tally) (update : topicUpdateInfo) (g : G) :
  needsPartitionIncrease update = true ->
  let call := CreatePartitions adminClient g
                [mkPartitionsSpec (topic update) (NumPartitions (desired update))] in
  let err := increaseError (topic update) call.2 in
  applyUpdate t update g
  = (Returned (match err with
               | Some _ => mkTally (createdCount t) (updatedCount t) (failedCount t + 1)
               | None => mkTally (createdCount t) (updatedCount t + 1) (failedCount t)
               end),
     call.1,
     [EvCall (directiveOf update); updateLine (topic update) err]).
Proof.
  intros Hneeds call err. unfold applyUpdate. rewrite Hneeds.
  rewrite (bind_returned _ _ _ _ _ _ (increaseTopicPartitions_run _ _ g)).
  fold call. fold err. by destruct err.
Qed.

(** The update loop goes through the whole queue: a failed update is
    counted and the loop moves on to the next one. *)
Lemma updates_run (toUpdate : list topicUpdateInfo) (t : tally) (g : G) :
  (forall u, In u toUpdate -> needsPartitionIncrease u = true) ->
  exists t' g' events,
    forRange applyUpdate t toUpdate g = (Returned t', g', events)
    /\ callsOf events = map directiveOf toUpdate
    /\ createdCount t' = createdCount t
    /\ failedCount t' = failedCount t + updateFailures events
    /\ updatedCount t' = updatedCount t + (len toUpdate - updateFailures events)
    /\ createFailed events = false
    /\ createAttemptsOf events = 0%nat
    /\ 0 <= updateFailures events <= len toUpdate.
Proof.
  revert t g. induction toUpdate as [|u us IH]; intros t g Hall.
  - exists t, g, []. simpl. unfold updateFailures, len. simpl.
    repeat split; lia.
  - simpl forRange.
    rewrite (bind_returned _ _ _ _ _ _ (applyUpdate_run t u g (Hall u (or_introl eq_refl)))).
    set (call := CreatePartitions adminClient g _).
    set (err := increaseError (topic u) call.2).
    set (t1 := match err with Some _ => _ | None => _ end).
    destruct (IH t1 call.1 (fun x Hx => Hall x (or_intror Hx)))
      as (t' & g' & events & -> & Hc & Hcr & Hf & Hu & Hcf & Hat & Hb).
    eexists _, _, _. split; [reflexivity|].
    unfold eventsOf. cbn [snd].
    rewrite callsOf_app, Hc, updateFailures_app, createFailed_app, Hcf,
      createAttemptsOf_app, Hat, len_cons.
    subst t1. destruct err; simpl in *; unfold updateFailures in *; simpl;
      rewrite ?len_cons, ?len_nil; repeat split; try done; lia.
Qed.

Lemma updateExisting_run (toUpdate : list topicUpdateInfo) (t : tally) (g : G) :
  (forall u, In u toUpdate -> needsPartitionIncrease u = true) ->
  exists t' g' events,
    updateExisting toUpdate t g
    = (Returned t', g',
       match toUpdate with
       | [] => []
       | _ :: _ => EvPrint (UpdatingExistingTopics (len toUpdate)) :: events
       end)
    /\ forRange applyUpdate t toUpdate g = (Returned t', g', events)
    /\ callsOf events = map directiveOf toUpdate
    /\ createdCount t' = createdCount t
    /\ failedCount t' = failedCount t + updateFailures events
    /\ updatedCount t' = updatedCount t + (len toUpdate - updateFailures events)
    /\ createFailed events = false
    /\ createAttemptsOf events = 0%nat
    /\ 0 <= updateFailures events <= len toUpdate.
Proof.
  intros Hall. destruct (updates_run toUpdate t g Hall) as (t' & g' & events & Hrun & Hrest).
  exists t', g', events. split; [|by split].
  unfold updateExisting. destruct toUpdate as [|u us].
  - simpl in *. unfold ret in *. congruence.
  - replace (len (u :: us) >? 0) with true
      by (symmetry; by apply len_pos_iff).
    unfold bind at 1. unfold print, emit. by rewrite Hrun.
Qed.

(** The lines of [createTopicsFromSpecs] are not tally lines. *)
Lemma createTopicsFromSpecs_no_tally_lines specs (g : G) :
  createFailed (eventsOf (createTopicsFromSpecs specs g)) = false
  /\ updateFailures (eventsOf (createTopicsFromSpecs specs g)) = 0.
Proof.
  assert (Hmap : forall results,
    createFailed (map (fun r => EvPrint (resultLine r)) results) = false
    /\ updateFailures (map (fun r => EvPrint (resultLine r)) results) = 0).
  { induction results as [|r rs [IH1 IH2]]; [done|].
    unfold createFailed, updateFailures in *. simpl. unfold resultLine at 1 3.
    destruct (isCreated r), (isAlreadyExists r); simpl; by rewrite IH1, IH2. }
  destruct (CreateTopics adminClient g specs) as [g1 [results|err]] eqn:H1.
  - rewrite (create_first_ok _ _ _ _ _ _ H1). unfold eventsOf. cbn [snd].
    rewrite !createFailed_app, !updateFailures_app.
    destruct (Hmap results) as [-> ->]. done.
  - destruct (isRetryableError unicodeLower (Some err)) eqn:Hr.
    + destruct (CreateTopics adminClient g1 specs) as [g2 [results|err2]] eqn:H2.
      * rewrite (create_retry_ok _ _ _ _ _ _ _ _ H1 Hr H2). unfold eventsOf. cbn [snd].
        rewrite !createFailed_app, !updateFailures_app.
        destruct (Hmap results) as [-> ->]. done.
      * by rewrite (create_retry_err _ _ _ _ _ _ _ _ H1 Hr H2).
    + by rewrite (create_first_terminal _ _ _ _ _ _ H1 Hr).
Qed.

(** The create phase. *)
Lemma createMissing_run (toCreate : list TopicSpecification) (t : tally) (g : G) :
  let run := createTopicsFromSpecs toCreate g in
  exists err events,
    outcomeOf run = Returned err
    /\ createMissing toCreate t g
       = match toCreate with
         | [] => (Returned t, g, [])
         | _ :: _ =>
             (Returned (match err with
                        | Some _ => mkTally (createdCount t) (updatedCount t)
                                            (failedCount t + len toCreate)
                        | None => mkTally (len toCreate) (updatedCount t) (failedCount t)
                        end),
              clientOf run, events)
         end
    /\ events = EvPrint (CreatingNewTopics (len toCreate)) :: eventsOf run
                ++ match err with
                   | Some e => [EvPrint (FailedToCreateTopics e)]
                   | None => []
                   end
    /\ callsOf events
       = replicate (createAttemptsOf events) (CallCreateTopics toCreate)
    /\ (1 <= createAttemptsOf events <= 2)%nat
    /\ createFailed events = match err with Some _ => true | None => false end
    /\ updateFailures events = 0.
Proof.
  intros run.
  destruct (createTopicsFromSpecs_returns adminClient unicodeLower toCreate g)
    as [err Herr].
  fold run in Herr. exists err. eexists. split; [exact Herr|].
  split; [|split; [reflexivity|]].
  - unfold createMissing. destruct toCreate as [|c cs]; [done|].
    replace (len (c :: cs) >? 0) with true by (symmetry; by apply len_pos_iff).
    unfold bind at 1. unfold print, emit.
    rewrite (bind_returned _ _ _ _ _ _
               (eq_trans (run_eta (createTopicsFromSpecs (c :: cs) g))
                         (f_equal (fun o => (o, _, _)) Herr))).
    fold run. by destruct err.
  - destruct (createTopicsFromSpecs_calls adminClient unicodeLower toCreate g)
      as [Hcalls Hbound].
    destruct (createTopicsFromSpecs_no_tally_lines toCreate g) as [Hcf Huf].
    fold run in Hcalls, Hbound, Hcf, Huf.
    change (EvPrint (CreatingNewTopics (len toCreate)) :: eventsOf run ++ ?x)
      with ([EvPrint (CreatingNewTopics (len toCreate))] ++ eventsOf run ++ x).
    rewrite !callsOf_app, !createAttemptsOf_app, !createFailed_app,
      !updateFailures_app, Hcalls, Hcf, Huf.
    destruct err; simpl; rewrite ?app_nil_r, ?Nat.add_0_r; repeat split; try done; lia.
Qed.
(** The update phase, as the rest of the run sees it. *)
Lemma updateExisting_summary (toUpdate : list topicUpdateInfo) (t : tally) (g : G) :
  (forall u, In u toUpdate -> needsPartitionIncrease u = true) ->
  exists t' g' updates,
    updateExisting toUpdate t g = (Returned t', g', updates)
    /\ callsOf updates = map directiveOf toUpdate
    /\ createdCount t' = createdCount t
    /\ failedCount t' = failedCount t + updateFailures updates
    /\ updatedCount t' = updatedCount t + (len toUpdate - updateFailures updates)
    /\ createFailed updates = false
    /\ createAttemptsOf updates = 0%nat
    /\ 0 <= updateFailures updates <= len toUpdate.
Proof.
  intros Hall.
  destruct (updateExisting_run toUpdate t g Hall)
    as (t' & g' & events & Hrun & _ & Hc & Hcr & Hf & Hu & Hcf & Hat & Hb).
  eexists t', g', _. split; [exact Hrun|].
  destruct toUpdate as [|u us].
  - unfold updateFailures, len in *. simpl in *. repeat split; try done; lia.
  - change (EvPrint (UpdatingExistingTopics (len (u :: us))) :: events)
      with ([EvPrint (UpdatingExistingTopics (len (u :: us)))] ++ events).
    rewrite callsOf_app, createFailed_app, createAttemptsOf_app, updateFailures_app,
      Hc, Hcf, Hat.
    change (updateFailures [EvPrint (UpdatingExistingTopics (len (u :: us)))]) with 0.
    rewrite Z.add_0_l. repeat split; try done; lia.
Qed.

(** The create phase, as the rest of the run sees it. *)
Lemma createMissing_summary (toCreate : list TopicSpecification) (t : tally) (g : G) :
  exists t' g' creation,
    createMissing toCreate t g = (Returned t', g', creation)
    /\ callsOf creation
       = replicate (createAttemptsOf creation) (CallCreateTopics toCreate)
    /\ (createAttemptsOf creation <= 2)%nat
    /\ (toCreate = [] <-> createAttemptsOf creation = 0%nat)
    /\ (toCreate = [] -> createFailed creation = false)
    /\ updateFailures creation = 0
    /\ failedCount t'
       = failedCount t + (if createFailed creation then len toCreate else 0)
    /\ updatedCount t' = updatedCount t
    /\ createdCount t'
       = (if createFailed creation then createdCount t
          else match toCreate with [] => createdCount t | _ :: _ => len toCreate end).
Proof.
  destruct (createMissing_run toCreate t g)
    as (err & creation0 & Herr & Hc & Hev & Hcalls & Hbound & Hcf & Huf).
  destruct toCreate as [|c cs].
  - exists t, g, []. split; [exact Hc|].
    unfold updateFailures, createAttemptsOf, createFailed, len. simpl.
    repeat split; try done; lia.
  - eexists _, _, creation0. split; [exact Hc|].
    rewrite Hcalls, Hcf, Huf. split; [done|]. split; [lia|].
    split; [split; [done | lia]|]. split; [done|]. split; [done|].
    destruct err; simpl; repeat split; lia.
Qed.
End ExecutionFacts.

(** ** The three ways a run of [SyncTopics] can go *)

Lemma analysisOf_updates_need_increase snapshot specs u :
  In u (topicsToUpdate (analysisOf snapshot specs)) ->
  needsPartitionIncrease u = true.
Proof.
  unfold analysisOf. simpl. rewrite <- list_elem_of_In, list_elem_of_omap.
  intros (spec & _ & Hu). unfold updateEntry in Hu.
  destruct (snapshot !! spec_Topic spec); [|done].
  destruct (classify snapshot spec); by inversion Hu.
Qed.

Section SyncFacts.
Context {G : Type} (adminClient : AdminClient G).
Context (unicodeLower : string -> string).

Local Abbreviation SyncTopics := (SyncTopics adminClient unicodeLower).
Local Abbreviation createMissing := (createMissing adminClient unicodeLower).
Local Abbreviation updateExisting := (updateExisting adminClient).

Lemma GetExistingTopics_run (g : G) :
  let fetched := GetMetadata adminClient g true 5000 in
  GetExistingTopics adminClient g
  = (Returned (match fetched.2 with
               | Ok topics => Ok (snapshotOf topics)
               | Err err => Err (Errorf_w "failed to get metadata: " err)
               end),
     fetched.1, [EvCall (CallGetMetadata true 5000)]).
Proof.
  intros fetched. subst fetched. unfold GetExistingTopics, bind, callGetMetadata.
  destruct (GetMetadata adminClient g true 5000) as [g1 [topics|err]]; reflexivity.
Qed.

(** The metadata call fails: the run ends there, with the wrapped error. *)
Lemma SyncTopics_fetch_failed specs (g g1 : G) err :
  GetMetadata adminClient g true 5000 = (g1, Err err) ->
  SyncTopics specs g
  = (Returned (Some (Errorf_w "failed to get existing topics: "
                       (Errorf_w "failed to get metadata: " err))),
     g1, [EvCall (CallGetMetadata true 5000)]).
Proof.
  intros H. unfold SyncTopics.
  rewrite (bind_returned _ _ _ _ _ _ (GetExistingTopics_run g)). by rewrite H.
Qed.

(** A desired topic hits a missing replica sample: the run panics in the
    analysis pass, after the metadata call and before any other call. *)
Lemma SyncTopics_panics specs (g g1 : G) topics :
  GetMetadata adminClient g true 5000 = (g1, Ok topics) ->
  existsb (hitsMissingSample (snapshotOf topics)) specs = true ->
  SyncTopics specs g
  = (Panicked (indexOutOfRange 0 0), g1,
     EvCall (CallGetMetadata true 5000)
     :: flat_map (analysisLines (snapshotOf topics))
          (beforeFirstHit (snapshotOf topics) specs)).
Proof.
  intros H Hex. unfold SyncTopics.
  rewrite (bind_returned _ _ _ _ _ _ (GetExistingTopics_run g)). rewrite H. cbn [fst snd].
  by rewrite (bind_panicked _ _ _ _ _ _
                (analyzeTopics_missing (snapshotOf topics) specs g1 Hex)).
Qed.

(** Otherwise the run goes through all its phases. *)
Lemma SyncTopics_completes specs (g g1 : G) topics :
  GetMetadata adminClient g true 5000 = (g1, Ok topics) ->
  existsb (hitsMissingSample (snapshotOf topics)) specs = false ->
  let snapshot := snapshotOf topics in
  let a := analysisOf snapshot specs in
  exists t1 g2 creation t2 g3 updates,
    createMissing (topicsToCreate a) (mkTally 0 0 0) g1 = (Returned t1, g2, creation)
    /\ updateExisting (topicsToUpdate a) t1 g2 = (Returned t2, g3, updates)
    /\ SyncTopics specs g
       = (Returned (if failedCount t2 >? 0
                    then Some (operationsFailed (failedCount t2)) else None),
          g3,
          EvCall (CallGetMetadata true 5000)
          :: flat_map (analysisLines snapshot) specs
          ++ creation ++ updates
          ++ reportLines (cannotScaleDown a)
          ++ [EvPrint (SyncSummary (createdCount t2) (updatedCount t2)
                         (unchangedCount a) (len (cannotScaleDown a))
                         (failedCount t2))])
    /\ callsOf creation
       = replicate (createAttemptsOf creation) (CallCreateTopics (topicsToCreate a))
    /\ (createAttemptsOf creation <= 2)%nat
    /\ (topicsToCreate a = [] <-> createAttemptsOf creation = 0%nat)
    /\ updateFailures creation = 0
    /\ callsOf updates = map directiveOf (topicsToUpdate a)
    /\ createFailed updates = false
    /\ createAttemptsOf updates = 0%nat
    /\ 0 <= updateFailures updates <= len (topicsToUpdate a)
    /\ failedCount t2
       = (if createFailed creation then len (topicsToCreate a) else 0)
         + updateFailures updates
    /\ createdCount t2
       = (if createFailed creation then 0 else len (topicsToCreate a))
    /\ updatedCount t2 = len (topicsToUpdate a) - updateFailures updates.
Proof.
  intros H Hno snapshot a.
  destruct (createMissing_summary adminClient unicodeLower (topicsToCreate a)
              (mkTally 0 0 0) g1)
    as (t1 & g2 & creation & Hc & Hcalls & Hbound & Hzero & Hcf0 & Huf & Hf1 & Hu1 & Hc1).
  destruct (updateExisting_summary adminClient (topicsToUpdate a) t1 g2
              (analysisOf_updates_need_increase snapshot specs))
    as (t2 & g3 & updates & Hu & Hucalls & Hucr & Huf2 & Huu & Hucf & Huat & Hub).
  exists t1, g2, creation, t2, g3, updates. split; [exact Hc|]. split; [exact Hu|].
  split.
  { unfold SyncTopics.
    rewrite (bind_returned _ _ _ _ _ _ (GetExistingTopics_run g)). rewrite H. cbn [fst snd].
    rewrite (bind_returned _ _ _ _ _ _ (analyzeTopics_sampled snapshot specs g1 Hno)).
    fold a. rewrite (bind_returned _ _ _ _ _ _ Hc).
    rewrite (bind_returned _ _ _ _ _ _ Hu).
    assert (Hreport : reportScaleDown (G:=G) (cannotScaleDown a) g3
                      = (Returned tt, g3, reportLines (cannotScaleDown a))).
    { unfold reportScaleDown, reportLines.
      destruct (cannotScaleDown a) as [|i rest]; [done|].
      replace (len (i :: rest) >? 0) with true by (symmetry; by apply len_pos_iff).
      unfold bind at 1. unfold print at 1, emit at 1.
      assert (Hitems : forall l,
        forRange (fun (_ : unit) info =>
                    print (G:=G) (ScaleDownItem (sd_topic info) (currentPartitions info)
                                                (desiredPartitions info))) tt l g3
        = (Returned tt, g3, map scaleDownItem l)).
      { induction l as [|x l IH]; [done|]. simpl forRange.
        unfold bind at 1. unfold print at 1, emit at 1. by rewrite IH. }
      by rewrite Hitems. }
    rewrite (bind_returned _ _ _ _ _ _ Hreport).
    unfold outcomeOf, clientOf, eventsOf, bind, print, emit, ret. cbn [fst snd].
    destruct (failedCount t2 >? 0); cbn [fst snd]; rewrite ?app_nil_r;
      rewrite <- ?app_assoc; reflexivity. }
  rewrite Hucr, Huf2, Huu, Hf1, Hu1, Hc1. cbn [createdCount updatedCount failedCount].
  repeat split; try done; try lia; try apply Hzero.
  destruct (createFailed creation) eqn:Hcf; [done|].
  destruct (topicsToCreate a); [by unfold len | done].
Qed.
End SyncFacts.

(** ** The claims on [SyncTopics] *)

(** The classification is decided by the name lookup and the two
    comparisons alone; the four cases are exclusive by construction. *)
Lemma classify_cases (snapshot : gmap string TopicMetadata) (spec : TopicSpecification) :
  (snapshot !! spec_Topic spec = None -> classify snapshot spec = ToCreate)
  /\ (forall existing, snapshot !! spec_Topic spec = Some existing ->
        (NumPartitions spec > len (Partitions existing) ->
           classify snapshot spec = ToIncreasePartitions)
        /\ (NumPartitions spec < len (Partitions existing) ->
              classify snapshot spec
              = CannotScaleDown (len (Partitions existing)) (NumPartitions spec))
        /\ (NumPartitions spec = len (Partitions existing) ->
              classify snapshot spec = Unchanged)).
Proof.
  unfold classify. split; [by intros ->|]. intros existing ->.
  repeat split; intros H.
  - replace (len (Partitions existing) <? NumPartitions spec) with true; [done|].
    symmetry. apply Z.ltb_lt. lia.
  - replace (len (Partitions existing) <? NumPartitions spec) with false
      by (symmetry; apply Z.ltb_ge; lia).
    replace (NumPartitions spec <? len (Partitions existing)) with true; [done|].
    symmetry. apply Z.ltb_lt. lia.
  - rewrite H, Z.ltb_irrefl. done.
Qed.

Lemma omap_cons_list {A B} (f : A -> option B) (x : A) (l : list A) :
  omap f (x :: l) = option_list (f x) ++ omap f l.
Proof. simpl. by destruct (f x). Qed.

Lemma createEntries_filter snapshot specs :
  omap (createEntry snapshot) specs
  = List.filter (fun spec => isToCreate (classify snapshot spec)) specs.
Proof.
  induction specs as [|s specs IH]; [done|].
  rewrite omap_cons_list, IH. unfold createEntry. simpl.
  by destruct (isToCreate (classify snapshot s)).
Qed.

Lemma updateEntries_desired snapshot specs :
  map desired (omap (updateEntry snapshot) specs)
  = List.filter (fun spec => isToIncreasePartitions (classify snapshot spec)) specs.
Proof.
  induction specs as [|s specs IH]; [done|].
  rewrite omap_cons_list, map_app, IH. unfold updateEntry, classify. simpl.
  destruct (snapshot !! spec_Topic s) as [existing|]; [|done].
  destruct (len (Partitions existing) <? NumPartitions s); [done|].
  by destruct (NumPartitions s <? len (Partitions existing)).
Qed.

Lemma updateEntry_Some snapshot spec u :
  updateEntry snapshot spec = Some u ->
  exists existing,
    snapshot !! spec_Topic spec = Some existing
    /\ classify snapshot spec = ToIncreasePartitions
    /\ u = mkUpdateInfo (spec_Topic spec) existing spec true.
Proof.
  unfold updateEntry. destruct (snapshot !! spec_Topic spec) as [existing|]; [|done].
  destruct (classify snapshot spec); try done. intros [= <-]. by exists existing.
Qed.

Lemma classify_CannotScaleDown snapshot spec cur des :
  classify snapshot spec = CannotScaleDown cur des ->
  exists existing,
    snapshot !! spec_Topic spec = Some existing
    /\ cur = len (Partitions existing) /\ des = NumPartitions spec
    /\ NumPartitions spec < len (Partitions existing).
Proof.
  unfold classify. destruct (snapshot !! spec_Topic spec) as [existing|]; [|done].
  destruct (len (Partitions existing) <? NumPartitions spec); [done|].
  destruct (NumPartitions spec <? len (Partitions existing)) eqn:Hlt; [|done].
  intros [= <- <-]. exists existing. apply Z.ltb_lt in Hlt. done.
Qed.

Lemma classify_ToIncreasePartitions snapshot spec existing :
  snapshot !! spec_Topic spec = Some existing ->
  classify snapshot spec = ToIncreasePartitions ->
  len (Partitions existing) < NumPartitions spec.
Proof.
  unfold classify. intros ->.
  destruct (len (Partitions existing) <? NumPartitions spec) eqn:E;
    [intros _; by apply Z.ltb_lt|].
  by destruct (NumPartitions spec <? len (Partitions existing)).
Qed.

Lemma scaleDownEntries_filter snapshot specs :
  omap (scaleDownEntry snapshot) specs
  = map (fun spec =>
           mkScaleDownInfo (spec_Topic spec)
             (match snapshot !! spec_Topic spec with
              | Some existing => len (Partitions existing)
              | None => 0
              end)
             (NumPartitions spec))
        (List.filter (fun spec => isCannotScaleDown (classify snapshot spec)) specs).
Proof.
  induction specs as [|s specs IH]; [done|].
  rewrite omap_cons_list, IH. unfold scaleDownEntry at 1.
  change (List.filter ?f (s :: specs))
    with (if f s then s :: List.filter f specs else List.filter f specs).
  destruct (classify snapshot s) as [| |cur des|] eqn:Hc; simpl; rewrite Hc;
    simpl; try done.
  apply classify_CannotScaleDown in Hc as (existing & Hlook & -> & -> & _).
  by rewrite Hlook.
Qed.

Lemma analysisLines_no_calls snapshot specs :
  callsOf (flat_map (analysisLines snapshot) specs) = [].
Proof.
  induction specs as [|s specs IH]; [done|]. simpl. rewrite callsOf_app, IH.
  unfold analysisLines.
  by destruct (replicationMismatch snapshot s), (isUnchanged (classify snapshot s)).
Qed.

(** Away from missing replica samples, the analysis pass returns the work
    lists of [analysisOf]: each desired topic is in the list of its class
    and in no other, and each list is in the order of the desired list. *)
Lemma analysis_classifies {G : Type} (snapshot : gmap string TopicMetadata)
    (specs : list TopicSpecification) (g : G) :
  existsb (hitsMissingSample snapshot) specs = false ->
  exists a lines,
    analyzeTopics snapshot specs g = (Returned a, g, lines)
    /\ topicsToCreate a
       = List.filter (fun spec => isToCreate (classify snapshot spec)) specs
    /\ map desired (topicsToUpdate a)
       = List.filter (fun spec => isToIncreasePartitions (classify snapshot spec)) specs
    /\ (forall u, In u (topicsToUpdate a) ->
          topic u = spec_Topic (desired u)
          /\ snapshot !! topic u = Some (current u)
          /\ needsPartitionIncrease u = true)
    /\ cannotScaleDown a
       = map (fun spec =>
                mkScaleDownInfo (spec_Topic spec)
                  (match snapshot !! spec_Topic spec with
                   | Some existing => len (Partitions existing)
                   | None => 0
                   end)
                  (NumPartitions spec))
             (List.filter (fun spec => isCannotScaleDown (classify snapshot spec)) specs)
    /\ unchangedCount a
       = len (List.filter (fun spec => isUnchanged (classify snapshot spec)) specs)
    /\ callsOf lines = [].
Proof.
  intros Hno. rewrite (analyzeTopics_sampled snapshot specs g Hno).
  eexists _, _. split; [reflexivity|]. unfold analysisOf.
  cbn [topicsToCreate topicsToUpdate cannotScaleDown unchangedCount].
  split; [apply createEntries_filter|].
  split; [apply updateEntries_desired|].
  split; [|split; [apply scaleDownEntries_filter|split; [done|apply analysisLines_no_calls]]].
  intros u Hu. apply list_elem_of_In, list_elem_of_omap in Hu as (s & _ & Hu).
  apply updateEntry_Some in Hu as (existing & Hlook & _ & ->). by simpl.
Qed.

(** C1 fails on the program at a topic that matches and whose partition 0
    lists no replica: the desired count equals the current one, so the
    topic classifies as unchanged, and the pass panics on
    [Replicas[0]] before it counts it. *)
Theorem C1_pass_panics_on_missing_sample :
  let snapshot := snapshotOf [ordersWithoutReplicas 1] in
  let spec := mkSpec "orders" 1 1 in
  classify snapshot spec = Unchanged
  /\ forall g : Script,
       analyzeTopics snapshot [spec] g = (Panicked (indexOutOfRange 0 0), g, []).
Proof. split; [reflexivity | intros g; reflexivity]. Qed.

Lemma sampleMissing_iff (existing : TopicMetadata) :
  sampleMissing existing = true
  <-> exists p0 rest, Partitions existing = p0 :: rest /\ Replicas p0 = [].
Proof.
  unfold sampleMissing. destruct (Partitions existing) as [|p0 rest].
  - split; [done | by intros (? & ? & ? & _)].
  - destruct (Replicas p0) as [|r0 rs] eqn:Hr.
    + split; [intros _; by exists p0, rest | done].
    + split; [done | intros (q & rest' & [= <- <-] & Hq); congruence].
Qed.

Lemma hitsMissingSample_exists (snapshot : gmap string TopicMetadata)
    (specs : list TopicSpecification) :
  existsb (hitsMissingSample snapshot) specs = true
  <-> exists spec existing p0 rest,
        In spec specs /\ snapshot !! spec_Topic spec = Some existing
        /\ Partitions existing = p0 :: rest /\ Replicas p0 = [].
Proof.
  rewrite existsb_exists. unfold hitsMissingSample. split.
  - intros (spec & Hin & Hhit).
    destruct (snapshot !! spec_Topic spec) as [existing|] eqn:Hlook; [|done].
    apply sampleMissing_iff in Hhit as (p0 & rest & Hp & Hr).
    by exists spec, existing, p0, rest.
  - intros (spec & existing & p0 & rest & Hin & Hlook & Hp & Hr).
    exists spec. split; [done|]. rewrite Hlook. apply sampleMissing_iff. eauto.
Qed.

Lemma NoDup_map_inj_on {A B} (f : A -> B) (l : list A) (x y : A) :
  List.NoDup (map f l) -> In x l -> In y l -> f x = f y -> x = y.
Proof.
  induction l as [|a l IH]; [done|]. simpl. intros Hnd Hx Hy Hf.
  apply List.NoDup_cons_iff in Hnd as [Hnotin Hnd].
  destruct Hx as [<-|Hx], Hy as [<-|Hy]; try done.
  - exfalso. apply Hnotin. rewrite Hf. by apply in_map.
  - exfalso. apply Hnotin. rewrite <- Hf. by apply in_map.
  - by apply IH.
Qed.

Lemma scaleDownItem_reported (infos : list topicScaleDownInfo) info :
  In info infos -> In (scaleDownItem info) (reportLines infos).
Proof.
  intros Hin. destruct infos as [|i rest]; [done|]. unfold reportLines.
  right. by apply in_map.
Qed.

Section SyncClaims.
Context {G : Type} (adminClient : AdminClient G).
Context (unicodeLower : string -> string).

Local Abbreviation SyncTopics := (SyncTopics adminClient unicodeLower).

Lemma callsOf_reportLines (infos : list topicScaleDownInfo) :
  callsOf (reportLines infos) = [].
Proof.
  destruct infos as [|i rest]; [done|]. unfold reportLines.
  change (callsOf (map (fun x => EvPrint (ScaleDownItem (sd_topic x)
            (currentPartitions x) (desiredPartitions x))) (i :: rest)) = []).
  apply callsOf_prints.
Qed.



(** The calls of a run that goes through all its phases: the metadata
    call, the attempts of the batch create, one call for each queued update. *)
Lemma SyncTopics_calls specs (g g1 : G) topics :
  GetMetadata adminClient g true 5000 = (g1, Ok topics) ->
  existsb (hitsMissingSample (snapshotOf topics)) specs = false ->
  let a := analysisOf (snapshotOf topics) specs in
  exists attempts : nat,
    callsOf (eventsOf (SyncTopics specs g))
    = CallGetMetadata true 5000
      :: replicate attempts (CallCreateTopics (topicsToCreate a))
      ++ map directiveOf (topicsToUpdate a)
    /\ (attempts <= 2)%nat
    /\ (topicsToCreate a = [] <-> attempts = 0%nat).
Proof.
  intros Hfetch Hhit a.
  destruct (SyncTopics_completes adminClient unicodeLower specs g g1 topics Hfetch Hhit)
    as (t1 & g2 & creation & t2 & g3 & updates & _ & _ & Hrun & Hcc & Hb & Hz & _ & Huc & _).
  exists (createAttemptsOf creation). rewrite Hrun. unfold eventsOf. cbn [snd].
  change (EvCall (CallGetMetadata true 5000) :: ?l)
    with ([EvCall (CallGetMetadata true 5000)] ++ l).
  rewrite !callsOf_app, analysisLines_no_calls, callsOf_reportLines, Hcc, Huc.
  split; [by rewrite app_nil_r | done].
Qed.

(** C10. After a successful metadata call, [SyncTopics] panics exactly when
    some desired topic names a topic of the snapshot whose partition 0 has
    an empty replica list: the check guards [len(existing.Partitions) > 0]
    and then reads [existing.Partitions[0].Replicas[0]].  The panic is the
    out-of-range index, raised before any call other than the metadata
    call; when no desired topic is of that kind, [SyncTopics] returns. *)
Theorem C10_replica_index_unguarded (specs : list TopicSpecification)
    (g g1 : G) (topics : list TopicMetadata) :
  GetMetadata adminClient g true 5000 = (g1, Ok topics) ->
  let snapshot := snapshotOf topics in
  let run := SyncTopics specs g in
  ((exists msg, outcomeOf run = Panicked msg)
   <-> exists spec existing p0 rest,
         In spec specs /\ snapshot !! spec_Topic spec = Some existing
         /\ Partitions existing = p0 :: rest /\ Replicas p0 = [])
  /\ ((forall spec existing p0 rest,
         In spec specs -> snapshot !! spec_Topic spec = Some existing ->
         Partitions existing = p0 :: rest -> Replicas p0 <> []) ->
      exists r, outcomeOf run = Returned r)
  /\ (forall msg, outcomeOf run = Panicked msg ->
        msg = indexOutOfRange 0 0
        /\ callsOf (eventsOf run) = [CallGetMetadata true 5000]).
Proof.
  intros Hfetch snapshot run.
  destruct (existsb (hitsMissingSample snapshot) specs) eqn:Hhit.
  - pose proof (SyncTopics_panics adminClient unicodeLower specs g g1 topics Hfetch Hhit)
      as Hrun.
    subst run. rewrite Hrun. unfold outcomeOf, eventsOf. cbn [fst snd].
    apply hitsMissingSample_exists in Hhit. split; [|split].
    + split; [intros _; exact Hhit | intros _; eauto].
    + intros Hall. destruct Hhit as (spec & existing & p0 & rest & Hin & Hl & Hp & Hr).
      by destruct (Hall spec existing p0 rest).
    + intros msg [= <-]. split; [done|].
      change (EvCall (CallGetMetadata true 5000) :: ?l)
        with ([EvCall (CallGetMetadata true 5000)] ++ l).
      by rewrite callsOf_app, analysisLines_no_calls.
  - destruct (SyncTopics_completes adminClient unicodeLower specs g g1 topics Hfetch Hhit)
      as (t1 & g2 & creation & t2 & g3 & updates & _ & _ & Hrun & _).
    subst run. rewrite Hrun. unfold outcomeOf. cbn [fst snd].
    split; [|split].
    + split; [by intros [msg Hmsg]|].
      intros Hex. apply hitsMissingSample_exists in Hex. fold snapshot in Hex. congruence.
    + intros _. eauto.
    + by intros msg.
Qed.
(** In a run that goes through all its phases, a desired topic with fewer
    partitions than the existing topic is reported with the current and the
    desired count; every [CreatePartitions] call of the run is made for a
    desired topic that asks for more partitions than its topic has; and when
    the desired names are distinct, no such call names the reported topic. *)
Lemma scale_down_reported specs (g g1 : G) topics spec existing :
  GetMetadata adminClient g true 5000 = (g1, Ok topics) ->
  existsb (hitsMissingSample (snapshotOf topics)) specs = false ->
  In spec specs ->
  snapshotOf topics !! spec_Topic spec = Some existing ->
  NumPartitions spec < len (Partitions existing) ->
  let run := SyncTopics specs g in
  (exists r, outcomeOf run = Returned r)
  /\ In (EvPrint (ScaleDownItem (spec_Topic spec) (len (Partitions existing))
                                (NumPartitions spec)))
        (eventsOf run)
  /\ (forall ps, In (CallCreatePartitions ps) (callsOf (eventsOf run)) ->
        exists s t,
          In s specs /\ snapshotOf topics !! spec_Topic s = Some t
          /\ len (Partitions t) < NumPartitions s
          /\ ps = [mkPartitionsSpec (spec_Topic s) (NumPartitions s)])
  /\ (List.NoDup (map spec_Topic specs) ->
      forall c, In c (callsOf (eventsOf run)) ->
        altersPartitionsOf (spec_Topic spec) c = false).
Proof.
  intros Hfetch Hhit Hin Hlook Hlt run.
  assert (Hclass : classify (snapshotOf topics) spec
                   = CannotScaleDown (len (Partitions existing)) (NumPartitions spec)).
  { destruct (classify_cases (snapshotOf topics) spec) as [_ Hc].
    by apply (Hc existing Hlook). }
  assert (Hcalls : forall ps, In (CallCreatePartitions ps) (callsOf (eventsOf run)) ->
            exists s t,
              In s specs /\ snapshotOf topics !! spec_Topic s = Some t
              /\ len (Partitions t) < NumPartitions s
              /\ ps = [mkPartitionsSpec (spec_Topic s) (NumPartitions s)]).
  { intros ps Hps.
    destruct (SyncTopics_calls specs g g1 topics Hfetch Hhit)
      as (attempts & Hc & _).
    subst run. rewrite Hc in Hps. destruct Hps as [Hps|Hps]; [done|].
    apply in_app_or in Hps as [Hps|Hps].
    - apply list_elem_of_In, elem_of_replicate in Hps as [Hps _]. done.
    - apply in_map_iff in Hps as (u & Hd & Hu).
      apply list_elem_of_In, list_elem_of_omap in Hu as (s & Hs & Hu).
      apply updateEntry_Some in Hu as (t & Hl & Hcl & ->).
      exists s, t. split; [by apply list_elem_of_In|]. split; [done|].
      unfold directiveOf in Hd. simpl in Hd. injection Hd as <-.
      split; [|done]. by apply (classify_ToIncreasePartitions _ _ _ Hl Hcl). }
  destruct (SyncTopics_completes adminClient unicodeLower specs g g1 topics Hfetch Hhit)
    as (t1 & g2 & creation & t2 & g3 & updates & _ & _ & Hrun & _).
  split; [|split; [|split; [exact Hcalls|]]].
  - subst run. rewrite Hrun. unfold outcomeOf. cbn [fst snd]. eauto.
  - subst run. rewrite Hrun. unfold eventsOf. cbn [snd]. right.
    rewrite !in_app_iff. do 3 right. left.
    apply (scaleDownItem_reported _
             (mkScaleDownInfo (spec_Topic spec) (len (Partitions existing))
                              (NumPartitions spec))).
    apply list_elem_of_In, list_elem_of_omap. exists spec.
    split; [by apply list_elem_of_In|]. unfold scaleDownEntry. by rewrite Hclass.
  - intros Hnd c Hc. destruct c as [| |ps]; try done.
    destruct (Hcalls ps Hc) as (s & t & Hs & Hl & Hgt & ->). simpl.
    rewrite orb_false_r. apply String.eqb_neq. intros Heq.
    assert (s = spec) as -> by (by apply (NoDup_map_inj_on spec_Topic specs)).
    rewrite Hlook in Hl. injection Hl as <-. lia.
Qed.

(** An answer gives an error exactly when it is a failed answer. *)
Lemma increaseError_failed (topicName : string) (answer : result (list TopicResult)) :
  increaseError topicName answer = None <-> answerFailed answer = false.
Proof.
  destruct answer as [results|err]; [|done]. unfold increaseError, answerFailed.
  induction results as [|r rs IH]; [done|]. simpl.
  by destruct (Code (res_Error r) =? ErrNoError).
Qed.

Lemma increaseAnswers_length (toUpdate : list topicUpdateInfo) (g : G) :
  length (increaseAnswers adminClient toUpdate g).1 = length toUpdate.
Proof.
  revert g. induction toUpdate as [|u us IH]; intros g; [done|].
  simpl. by rewrite IH.
Qed.

Lemma failedAnswers_cons answer answers :
  failedAnswers (answer :: answers)
  = (if answerFailed answer then 1 else 0) + failedAnswers answers.
Proof.
  unfold failedAnswers, len. simpl. destruct (answerFailed answer); simpl length; lia.
Qed.

Lemma failedAnswers_bounds answers :
  0 <= failedAnswers answers <= len answers.
Proof.
  induction answers as [|a l IH]; [by unfold failedAnswers, len|].
  rewrite failedAnswers_cons, len_cons. destruct (answerFailed a); lia.
Qed.

(** The loop over the queue, by the answers of the client: every update
    gets its call, a failed answer adds one to the failure count and any
    other answer one to the update count. *)
Lemma updates_by_answers (toUpdate : list topicUpdateInfo) (t : tally) (g : G) :
  (forall u, In u toUpdate -> needsPartitionIncrease u = true) ->
  let answers := increaseAnswers adminClient toUpdate g in
  forRange (applyUpdate adminClient) t toUpdate g
  = (Returned (mkTally (createdCount t)
                 (updatedCount t + (len toUpdate - failedAnswers answers.1))
                 (failedCount t + failedAnswers answers.1)),
     answers.2, updateTrace toUpdate answers.1).
Proof.
  revert t g. induction toUpdate as [|u us IH]; intros t g Hall answers; subst answers.
  - simpl. unfold ret, failedAnswers, len. simpl. destruct t as [c u f]. simpl.
    by rewrite !Z.add_0_r.
  - simpl forRange.
    rewrite (bind_returned _ _ _ _ _ _
               (applyUpdate_run adminClient t u g (Hall u (or_introl eq_refl)))).
    cbn [increaseAnswers fst snd updateTrace].
    set (call := CreatePartitions adminClient g _).
    rewrite (IH _ call.1 (fun x Hx => Hall x (or_intror Hx))).
    unfold outcomeOf, clientOf, eventsOf. cbn [fst snd].
    rewrite failedAnswers_cons, len_cons.
    pose proof (increaseError_failed (topic u) call.2) as Hfail.
    destruct (increaseError (topic u) call.2) as [e|] eqn:He.
    + destruct (answerFailed call.2); [|discriminate (proj2 Hfail eq_refl)].
      cbn [createdCount updatedCount failedCount app].
      do 3 f_equal. f_equal; lia.
    + rewrite (proj1 Hfail eq_refl).
      cbn [createdCount updatedCount failedCount app].
      do 3 f_equal. f_equal; lia.
Qed.

Lemma updateExisting_by_answers (toUpdate : list topicUpdateInfo) (t : tally) (g : G) :
  (forall u, In u toUpdate -> needsPartitionIncrease u = true) ->
  let answers := increaseAnswers adminClient toUpdate g in
  updateExisting adminClient toUpdate t g
  = (Returned (mkTally (createdCount t)
                 (updatedCount t + (len toUpdate - failedAnswers answers.1))
                 (failedCount t + failedAnswers answers.1)),
     answers.2, updatePhase toUpdate answers.1).
Proof.
  intros Hall answers. pose proof (updates_by_answers toUpdate t g Hall) as Hrun.
  cbv zeta in Hrun. fold answers in Hrun.
  unfold updateExisting, updatePhase. destruct toUpdate as [|u us].
  - exact Hrun.
  - replace (len (u :: us) >? 0) with true by (symmetry; by apply len_pos_iff).
    unfold bind at 1. unfold print, emit. by rewrite Hrun.
Qed.

(** A run of [SyncTopics] that goes through all its phases, by the answers
    of the client to the calls of the update queue. *)
Lemma SyncTopics_by_answers (specs : list TopicSpecification) (g0 : G) :
  forall topics,
    (GetMetadata adminClient g0 true 5000).2 = Ok topics ->
    existsb (hitsMissingSample (snapshotOf topics)) specs = false ->
    let a := analysisOf (snapshotOf topics) specs in
    let creation := createMissing adminClient unicodeLower (topicsToCreate a)
                      (mkTally 0 0 0) (GetMetadata adminClient g0 true 5000).1 in
    let answers := increaseAnswers adminClient (topicsToUpdate a)
                     (clientOf creation) in
    exists counted,
      outcomeOf creation = Returned counted
      /\ updatedCount counted = 0
      /\ length answers.1 = length (topicsToUpdate a)
      /\ 0 <= failedAnswers answers.1 <= len (topicsToUpdate a)
      /\ let failed := failedCount counted + failedAnswers answers.1 in
         SyncTopics specs g0
         = (Returned (if failed >? 0 then Some (operationsFailed failed) else None),
            answers.2,
            EvCall (CallGetMetadata true 5000)
            :: flat_map (analysisLines (snapshotOf topics)) specs
            ++ eventsOf creation
            ++ updatePhase (topicsToUpdate a) answers.1
            ++ reportLines (cannotScaleDown a)
            ++ [EvPrint (SyncSummary (createdCount counted)
                           (len (topicsToUpdate a) - failedAnswers answers.1)
                           (unchangedCount a) (len (cannotScaleDown a))
                           failed)]).
Proof.
  intros topics Hfetch Hhit.
  destruct (GetMetadata adminClient g0 true 5000) as [g1 fetched] eqn:Hmeta.
  cbn [fst snd] in *. subst fetched.
  set (a := analysisOf (snapshotOf topics) specs).
  set (creation := createMissing adminClient unicodeLower (topicsToCreate a)
                     (mkTally 0 0 0) g1).
  set (answers := increaseAnswers adminClient (topicsToUpdate a) (clientOf creation)).
  destruct (SyncTopics_completes adminClient unicodeLower specs g0 g1 topics Hmeta Hhit)
    as (t1 & g2 & creating & t2 & g3 & updates & Hc & Hu & Hrun & _ & _ & _ & _ & _
        & _ & _ & _ & _ & _ & _).
  fold a in Hc, Hu, Hrun. fold creation in Hc.
  destruct (createMissing_summary adminClient unicodeLower (topicsToCreate a)
              (mkTally 0 0 0) g1)
    as (t1' & g2' & creating' & Hc' & _ & _ & _ & _ & _ & _ & Hupd & _).
  fold creation in Hc'. rewrite Hc in Hc'. injection Hc' as <- <- <-.
  assert (Hclient : clientOf creation = g2) by (by rewrite Hc).
  assert (Hevents : eventsOf creation = creating) by (by rewrite Hc).
  subst answers. rewrite Hclient, Hevents.
  set (answers := increaseAnswers adminClient (topicsToUpdate a) g2).
  pose proof (updateExisting_by_answers (topicsToUpdate a) t1 g2
                (analysisOf_updates_need_increase (snapshotOf topics) specs)) as Hby.
  cbv zeta in Hby. fold answers in Hby.
  rewrite Hu in Hby. injection Hby as -> -> ->.
  exists t1. split; [by rewrite Hc|]. split; [exact Hupd|].
  split; [apply increaseAnswers_length|].
  split.
  { pose proof (failedAnswers_bounds answers.1) as Hb.
    unfold len in Hb. subst answers.
    rewrite (increaseAnswers_length _ _) in Hb. exact Hb. }
  cbv zeta. rewrite Hrun.
  cbn [createdCount updatedCount failedCount]. rewrite Hupd, Z.add_0_l. reflexivity.
Qed.

(** C8. [increaseTopicPartitions] makes exactly one [CreatePartitions] call,
    with the single directive [{topic, IncreaseTo}], and never a second one.
    A failed call gives the wrapped error; an answer gives nil exactly when
    every result has code [ErrNoError], and an error otherwise.  In
    [SyncTopics] the update phase is decided by the answers of the client
    to the calls of the queue, made one after the other whatever the
    answers before were: each update gets its call and its line, each
    failed answer adds one to the failure count of the summary and each
    other answer one to its update count, on top of what the create phase
    counted, and the run returns the failure error exactly when that count
    is positive. *)
Theorem C8_partition_increase_single_shot (topicName : string)
    (newPartitionCount : Z) (g : G)
    (toUpdate : list topicUpdateInfo) (t : tally) (g0 : G)
    (specs : list TopicSpecification) :
  let call := CreatePartitions adminClient g
                [mkPartitionsSpec topicName newPartitionCount] in
  let run := increaseTopicPartitions adminClient topicName newPartitionCount g in
  eventsOf run
  = [EvCall (CallCreatePartitions [mkPartitionsSpec topicName newPartitionCount])]
  /\ clientOf run = call.1
  /\ (forall err, call.2 = Err err ->
        outcomeOf run = Returned (Some (increaseCallFailed topicName err)))
  /\ (forall results, call.2 = Ok results ->
        (outcomeOf run = Returned None
         <-> forall r, In r results -> Code (res_Error r) = ErrNoError)
        /\ ((exists r, In r results /\ Code (res_Error r) <> ErrNoError) ->
            exists e, outcomeOf run = Returned (Some e)))
  /\ (outcomeOf run = Returned None <-> answerFailed call.2 = false)
  /\ (forall update e,
        needsPartitionIncrease update = true ->
        outcomeOf (increaseTopicPartitions adminClient (topic update)
                     (NumPartitions (desired update)) g0) = Returned (Some e) ->
        outcomeOf (applyUpdate adminClient t update g0)
        = Returned (mkTally (createdCount t) (updatedCount t) (failedCount t + 1)))
  /\ ((forall u, In u toUpdate -> needsPartitionIncrease u = true) ->
      let answers := increaseAnswers adminClient toUpdate g0 in
      length answers.1 = length toUpdate
      /\ updateExisting adminClient toUpdate t g0
         = (Returned (mkTally (createdCount t)
                        (updatedCount t + (len toUpdate - failedAnswers answers.1))
                        (failedCount t + failedAnswers answers.1)),
            answers.2, updatePhase toUpdate answers.1))
  /\ (forall topics,
        (GetMetadata adminClient g0 true 5000).2 = Ok topics ->
        existsb (hitsMissingSample (snapshotOf topics)) specs = false ->
        let a := analysisOf (snapshotOf topics) specs in
        let creation := createMissing adminClient unicodeLower (topicsToCreate a)
                          (mkTally 0 0 0) (GetMetadata adminClient g0 true 5000).1 in
        let answers := increaseAnswers adminClient (topicsToUpdate a)
                         (clientOf creation) in
        exists counted,
          outcomeOf creation = Returned counted
          /\ updatedCount counted = 0
          /\ length answers.1 = length (topicsToUpdate a)
          /\ 0 <= failedAnswers answers.1 <= len (topicsToUpdate a)
          /\ let failed := failedCount counted + failedAnswers answers.1 in
             SyncTopics specs g0
             = (Returned (if failed >? 0 then Some (operationsFailed failed) else None),
                answers.2,
                EvCall (CallGetMetadata true 5000)
                :: flat_map (analysisLines (snapshotOf topics)) specs
                ++ eventsOf creation
                ++ updatePhase (topicsToUpdate a) answers.1
                ++ reportLines (cannotScaleDown a)
                ++ [EvPrint (SyncSummary (createdCount counted)
                               (len (topicsToUpdate a) - failedAnswers answers.1)
                               (unchangedCount a) (len (cannotScaleDown a))
                               failed)])).
Proof.
  intros call run. subst run.
  rewrite (increaseTopicPartitions_run adminClient topicName newPartitionCount g).
  fold call. unfold eventsOf, clientOf, outcomeOf. cbn [fst snd].
  split; [done|]. split; [done|]. split; [by intros err ->|].
  split; [|split; [|split; [|split]]].
  - intros results ->. unfold increaseError. split.
    + rewrite <- firstPartitionError_None. split; [by intros [= ->] | by intros ->].
    + intros (r & Hin & Hcode).
      destruct (firstPartitionError results) as [e|] eqn:He; [eauto|].
      exfalso. apply Hcode. by apply (proj1 (firstPartitionError_None results) He).
  - rewrite <- (increaseError_failed topicName call.2).
    split; [by intros [= ->] | by intros ->].
  - intros update e Hneeds.
    rewrite (increaseTopicPartitions_run adminClient _ _ g0),
      (applyUpdate_run adminClient t update g0 Hneeds). cbn [fst snd].
    by intros [= ->].
  - intros Hall. split; [apply increaseAnswers_length|].
    by apply updateExisting_by_answers.
  - exact (SyncTopics_by_answers specs g0).
Qed.
End SyncClaims.

(** C10 on a cluster whose topic "orders" has one partition without
    replicas. *)
Lemma C10_replica_index_unguarded_witness :
  exists msg,
    outcomeOf (SyncTopics scripted noUnicode [mkSpec "orders" 1 1]
                 (clusterWith [ordersWithoutReplicas 1] [] []))
    = Panicked msg.
Proof.
  pose proof (C10_replica_index_unguarded scripted noUnicode [mkSpec "orders" 1 1]
                (clusterWith [ordersWithoutReplicas 1] [] []) (mkScript [] [] [])
                [ordersWithoutReplicas 1] eq_refl) as H.
  cbv zeta in H. destruct H as (H & _). apply H.
  exists (mkSpec "orders" 1 1), (ordersWithoutReplicas 1), (mkPartition []), [].
  split; [by left|]. split; [reflexivity|]. split; reflexivity.
Defined.

(** C5 fails on the program at a topic to scale down whose partition 0
    lists no replica: "orders" has two partitions and one is desired, so it
    classifies as cannot-scale-down; the run panics in the analysis pass,
    prints no report and never reaches "payments". *)
Theorem C5_report_lost_on_missing_sample :
  let cluster :=
    clusterWith [ordersWithoutReplicas 2] [Ok [mkTopicResult "payments" success]] [] in
  let desired := [mkSpec "orders" 1 1; mkSpec "payments" 1 1] in
  classify (snapshotOf [ordersWithoutReplicas 2]) (mkSpec "orders" 1 1)
  = CannotScaleDown 2 1
  /\ SyncTopics scripted noUnicode desired cluster
     = (Panicked (indexOutOfRange 0 0),
        mkScript [] [Ok [mkTopicResult "payments" success]] [],
        [EvCall (CallGetMetadata true 5000)]).
Proof. split; reflexivity. Qed.



(** C8 on a cluster where "orders" and "payments" are both to grow and the
    first increase times out: "payments" still gets its call, the summary
    counts one update and one failure, and the run returns the failure
    error. *)
Lemma C8_partition_increase_single_shot_witness :
  SyncTopics scripted noUnicode growBoth growingCluster
  = (Returned (Some (operationsFailed 1)), mkScript [] [] [],
     [ EvCall (CallGetMetadata true 5000);
       EvPrint (UpdatingExistingTopics 2);
       EvCall (CallCreatePartitions [mkPartitionsSpec "orders" 3]);
       EvPrint (FailedToUpdatePartitions "orders"
                  (increaseCallFailed "orders" (Errorf "request timed out locally")));
       EvCall (CallCreatePartitions [mkPartitionsSpec "payments" 4]);
       EvPrint (UpdatedPartitions "payments");
       EvPrint (SyncSummary 0 1 0 0 1) ]).
Proof.
  pose proof (C8_partition_increase_single_shot scripted noUnicode "orders" 3
                growingCluster [] (mkTally 0 0 0) growingCluster growBoth) as H.
  cbv zeta in H. destruct H as (_ & _ & _ & _ & _ & _ & _ & H).
  destruct (H [topicOnBroker1 "orders" 1; topicOnBroker1 "payments" 2]
              eq_refl eq_refl) as (counted & Hcounted & _ & _ & _ & Hrun).
  injection Hcounted as <-. rewrite Hrun. reflexivity.
Defined.

(** ** Replication factors do not steer the run *)

Section ReplicationFacts.
Context (snapshot : gmap string TopicMetadata) (rf : TopicSpecification -> Z).

Local Abbreviation another := (setReplication snapshot rf).

Lemma setReplication_Topic spec : spec_Topic (another spec) = spec_Topic spec.
Proof. unfold setReplication. by destruct (snapshot !! spec_Topic spec). Qed.

Lemma setReplication_NumPartitions spec :
  NumPartitions (another spec) = NumPartitions spec.
Proof. unfold setReplication. by destruct (snapshot !! spec_Topic spec). Qed.

Lemma setReplication_absent spec :
  snapshot !! spec_Topic spec = None -> another spec = spec.
Proof. unfold setReplication. by intros ->. Qed.

Lemma setReplication_classify spec :
  classify snapshot (another spec) = classify snapshot spec.
Proof.
  unfold classify. by rewrite setReplication_Topic, setReplication_NumPartitions.
Qed.

Lemma setReplication_hits spec :
  hitsMissingSample snapshot (another spec) = hitsMissingSample snapshot spec.
Proof. unfold hitsMissingSample. by rewrite setReplication_Topic. Qed.

Lemma setReplication_createEntry spec :
  createEntry snapshot (another spec) = createEntry snapshot spec.
Proof.
  unfold createEntry. rewrite setReplication_classify.
  unfold classify. destruct (snapshot !! spec_Topic spec) eqn:Hl.
  - destruct (len (Partitions t) <? NumPartitions spec); [done|].
    by destruct (NumPartitions spec <? len (Partitions t)).
  - simpl. by rewrite (setReplication_absent spec Hl).
Qed.

Lemma setReplication_scaleDownEntry spec :
  scaleDownEntry snapshot (another spec) = scaleDownEntry snapshot spec.
Proof.
  unfold scaleDownEntry. by rewrite setReplication_classify, setReplication_Topic.
Qed.

Lemma setReplication_updateEntry spec :
  forgetReplication <$> updateEntry snapshot (another spec)
  = forgetReplication <$> updateEntry snapshot spec.
Proof.
  unfold updateEntry. rewrite setReplication_classify, setReplication_Topic.
  destruct (snapshot !! spec_Topic spec); [|done].
  destruct (classify snapshot spec); try done. simpl. unfold forgetReplication. simpl.
  by rewrite setReplication_Topic, setReplication_NumPartitions.
Qed.

Lemma setReplication_lines spec :
  withoutReplicationWarnings (analysisLines snapshot (another spec))
  = withoutReplicationWarnings (analysisLines snapshot spec).
Proof.
  unfold analysisLines, withoutReplicationWarnings.
  rewrite !List.filter_app, setReplication_classify, setReplication_Topic.
  f_equal. by destruct (replicationMismatch snapshot (another spec)),
                       (replicationMismatch snapshot spec).
Qed.

Lemma setReplication_all_lines specs :
  withoutReplicationWarnings (flat_map (analysisLines snapshot) (map another specs))
  = withoutReplicationWarnings (flat_map (analysisLines snapshot) specs).
Proof.
  induction specs as [|s specs IH]; [done|]. simpl.
  unfold withoutReplicationWarnings in *.
  rewrite !List.filter_app, IH. f_equal. apply setReplication_lines.
Qed.

Lemma setReplication_existsb specs :
  existsb (hitsMissingSample snapshot) (map another specs)
  = existsb (hitsMissingSample snapshot) specs.
Proof.
  induction specs as [|s specs IH]; [done|]. simpl.
  by rewrite setReplication_hits, IH.
Qed.

Lemma setReplication_beforeFirstHit specs :
  beforeFirstHit snapshot (map another specs)
  = map another (beforeFirstHit snapshot specs).
Proof.
  induction specs as [|s specs IH]; [done|]. simpl.
  rewrite setReplication_hits. destruct (hitsMissingSample snapshot s); [done|].
  simpl. by rewrite IH.
Qed.

(** The work lists of the two desired lists. *)
Lemma setReplication_analysis specs :
  topicsToCreate (analysisOf snapshot (map another specs))
  = topicsToCreate (analysisOf snapshot specs)
  /\ map forgetReplication (topicsToUpdate (analysisOf snapshot (map another specs)))
     = map forgetReplication (topicsToUpdate (analysisOf snapshot specs))
  /\ cannotScaleDown (analysisOf snapshot (map another specs))
     = cannotScaleDown (analysisOf snapshot specs)
  /\ unchangedCount (analysisOf snapshot (map another specs))
     = unchangedCount (analysisOf snapshot specs).
Proof.
  unfold analysisOf. cbn [topicsToCreate topicsToUpdate cannotScaleDown unchangedCount].
  induction specs as [|s specs (IH1 & IH2 & IH3 & IH4)]; [done|].
  rewrite map_cons, !omap_cons_list, !map_app, IH1, IH2, IH3.
  rewrite setReplication_createEntry, setReplication_scaleDownEntry.
  split; [done|]. split; [|split; [done|]].
  - f_equal. pose proof (setReplication_updateEntry s) as Hu.
    destruct (updateEntry snapshot (another s)), (updateEntry snapshot s);
      simpl in *; congruence.
  - simpl. rewrite setReplication_classify.
    destruct (isUnchanged (classify snapshot s)); [|exact IH4].
    rewrite !len_cons. by rewrite IH4.
Qed.
End ReplicationFacts.

Section ReplicationRuns.
Context {G : Type} (adminClient : AdminClient G).
Context (unicodeLower : string -> string).

(** The update loop reads the name, the desired partition count and the
    flag of a queued update, and nothing else. *)
Lemma applyUpdate_forgetReplication (t : tally) (u : topicUpdateInfo) :
  applyUpdate adminClient t (forgetReplication u) = applyUpdate adminClient t u.
Proof. reflexivity. Qed.

Lemma updateExisting_forgetReplication (l l' : list topicUpdateInfo) (t : tally) (g : G) :
  map forgetReplication l' = map forgetReplication l ->
  updateExisting adminClient l' t g = updateExisting adminClient l t g.
Proof.
  intros Hmap.
  assert (Hlen : len l' = len l).
  { unfold len. by rewrite <- (length_map forgetReplication l'), Hmap, length_map. }
  unfold updateExisting. rewrite Hlen. destruct (len l >? 0); [|done].
  assert (Hloop : forall (k : list topicUpdateInfo) t0 g0,
            forRange (applyUpdate adminClient) t0 (map forgetReplication k) g0
            = forRange (applyUpdate adminClient) t0 k g0).
  { induction k as [|u k IH]; intros t0 g0; [done|]. simpl.
    unfold bind. rewrite applyUpdate_forgetReplication.
    destruct (applyUpdate adminClient t0 u g0) as [[[t1|msg] g1] ev]; [|done].
    by rewrite IH. }
  unfold bind, print, emit. by rewrite <- (Hloop l'), <- (Hloop l), Hmap.
Qed.
Lemma callsOf_withoutReplicationWarnings (events : list Event) :
  callsOf (withoutReplicationWarnings events) = callsOf events.
Proof.
  induction events as [|e events IH]; [done|].
  unfold withoutReplicationWarnings in *. simpl.
  destruct e as [c|l|d]; simpl; rewrite ?IH; try done.
  destruct l; simpl; by rewrite ?IH.
Qed.

Lemma withoutReplicationWarnings_app (a b : list Event) :
  withoutReplicationWarnings (a ++ b)
  = withoutReplicationWarnings a ++ withoutReplicationWarnings b.
Proof. apply List.filter_app. Qed.

(** C7. Replace the replication factor of every desired topic whose name is
    in the snapshot by any other value.  The classification of each topic
    stays the same; the analysis pass ends the same way, with the same
    to-create list, the same cannot-scale-down list, the same unchanged
    count and the same queued updates (which carry the desired topic as
    given, hence agree up to its replication factor, and lead to the same
    directives); and the whole run of [SyncTopics] has the same outcome, the
    same final client state, the same calls, and the same events once the
    replication warnings are taken out.  A desired topic whose partition
    count matches and whose replication factor differs from the sample is
    counted as unchanged and prints the warning and the unchanged line,
    without any call. *)
Theorem C7_replication_mismatch_only_warns (specs : list TopicSpecification)
    (rf : TopicSpecification -> Z) (g : G) :
  let fetched := GetMetadata adminClient g true 5000 in
  let snapshot := match fetched.2 with
                  | Ok topics => snapshotOf topics
                  | Err _ => ∅
                  end in
  let specs' := map (setReplication snapshot rf) specs in
  let run := SyncTopics adminClient unicodeLower specs g in
  let run' := SyncTopics adminClient unicodeLower specs' g in
  (forall spec,
     classify snapshot (setReplication snapshot rf spec) = classify snapshot spec)
  /\ (forall g0 : G,
        match outcomeOf (analyzeTopics snapshot specs' g0),
              outcomeOf (analyzeTopics snapshot specs g0) with
        | Returned a', Returned a =>
            topicsToCreate a' = topicsToCreate a
            /\ map forgetReplication (topicsToUpdate a')
               = map forgetReplication (topicsToUpdate a)
            /\ map directiveOf (topicsToUpdate a') = map directiveOf (topicsToUpdate a)
            /\ cannotScaleDown a' = cannotScaleDown a
            /\ unchangedCount a' = unchangedCount a
        | Panicked msg', Panicked msg => msg' = msg
        | _, _ => False
        end)
  /\ outcomeOf run' = outcomeOf run
  /\ clientOf run' = clientOf run
  /\ callsOf (eventsOf run') = callsOf (eventsOf run)
  /\ withoutReplicationWarnings (eventsOf run')
     = withoutReplicationWarnings (eventsOf run)
  /\ (forall spec existing r0 a (g0 : G),
        snapshot !! spec_Topic spec = Some existing ->
        replicaSample existing = Some r0 ->
        int32 (ReplicationFactor spec) <> r0 ->
        NumPartitions spec = len (Partitions existing) ->
        classify snapshot spec = Unchanged
        /\ analyzeSpec snapshot a spec g0
           = (Returned (mkAnalysis (topicsToCreate a) (topicsToUpdate a)
                                   (cannotScaleDown a) (unchangedCount a + 1)),
              g0,
              [EvPrint (ReplicationChangeNotImplemented (spec_Topic spec));
               EvPrint (AlreadyMatches (spec_Topic spec))])).
Proof.
  intros fetched snapshot specs' run run'.
  assert (Hdir : forall l l' : list topicUpdateInfo,
            map forgetReplication l' = map forgetReplication l ->
            map directiveOf l' = map directiveOf l).
  { intros l l' Hmap.
    assert (Hd : forall k : list topicUpdateInfo,
              map directiveOf k = map directiveOf (map forgetReplication k))
      by (intros k; by rewrite map_map).
    by rewrite (Hd l'), (Hd l), Hmap. }
  assert (Hruns : outcomeOf run' = outcomeOf run /\ clientOf run' = clientOf run
                  /\ withoutReplicationWarnings (eventsOf run')
                     = withoutReplicationWarnings (eventsOf run)).
  { subst run run' specs' snapshot fetched.
    destruct (GetMetadata adminClient g true 5000) as [g1 [topics|err]] eqn:Hfetch;
      cbn [fst snd].
    - destruct (existsb (hitsMissingSample (snapshotOf topics)) specs) eqn:Hhit.
      + pose proof Hhit as Hhit'. rewrite <- (setReplication_existsb _ rf) in Hhit'.
        rewrite (SyncTopics_panics adminClient unicodeLower _ g g1 topics Hfetch Hhit'),
          (SyncTopics_panics adminClient unicodeLower _ g g1 topics Hfetch Hhit).
        unfold outcomeOf, clientOf, eventsOf. cbn [fst snd]. split; [done|]. split; [done|].
        rewrite setReplication_beforeFirstHit.
        change (EvCall (CallGetMetadata true 5000) :: ?l)
          with ([EvCall (CallGetMetadata true 5000)] ++ l).
        by rewrite !withoutReplicationWarnings_app, setReplication_all_lines.
      + pose proof Hhit as Hhit'. rewrite <- (setReplication_existsb _ rf) in Hhit'.
        destruct (SyncTopics_completes adminClient unicodeLower _ g g1 topics Hfetch Hhit')
          as (t1' & g2' & creation' & t2' & g3' & updates' & Hc' & Hu' & Hrun' & _).
        destruct (SyncTopics_completes adminClient unicodeLower _ g g1 topics Hfetch Hhit)
          as (t1 & g2 & creation & t2 & g3 & updates & Hc & Hu & Hrun & _).
        destruct (setReplication_analysis (snapshotOf topics) rf specs)
          as (Ea & Eb & Ec & Ed).
        rewrite Ea, Hc in Hc'. injection Hc' as <- <- <-.
        rewrite (updateExisting_forgetReplication _ _ t1 g2 Eb), Hu in Hu'.
        injection Hu' as <- <- <-.
        rewrite Hrun', Hrun, Ec, Ed.
        unfold outcomeOf, clientOf, eventsOf. cbn [fst snd]. split; [done|]. split; [done|].
        change (EvCall (CallGetMetadata true 5000) :: ?l)
          with ([EvCall (CallGetMetadata true 5000)] ++ l).
        by rewrite !withoutReplicationWarnings_app, setReplication_all_lines.
    - by rewrite !(SyncTopics_fetch_failed adminClient unicodeLower _ g g1 err Hfetch). }
  destruct Hruns as (Ho & Hg & Hev).
  split; [apply setReplication_classify|]. split; [|split; [exact Ho|split; [exact Hg|]]].
  - intros g0. subst specs'.
    destruct (existsb (hitsMissingSample snapshot) specs) eqn:Hhit.
    + pose proof Hhit as Hhit'. rewrite <- (setReplication_existsb _ rf) in Hhit'.
      by rewrite (analyzeTopics_missing _ _ g0 Hhit'), (analyzeTopics_missing _ _ g0 Hhit).
    + pose proof Hhit as Hhit'. rewrite <- (setReplication_existsb _ rf) in Hhit'.
      rewrite (analyzeTopics_sampled _ _ g0 Hhit'), (analyzeTopics_sampled _ _ g0 Hhit).
      unfold outcomeOf. cbn [fst snd].
      destruct (setReplication_analysis snapshot rf specs) as (Ea & Eb & Ec & Ed).
      split; [done|]. split; [done|]. split; [by apply Hdir | done].
  - split; [by rewrite <- (callsOf_withoutReplicationWarnings (eventsOf run')), Hev,
                callsOf_withoutReplicationWarnings|].
    split; [exact Hev|].
    intros spec existing r0 a g0 Hlook Hsample Hdiff Hsame.
    assert (Hclass : classify snapshot spec = Unchanged)
      by (by apply (proj2 (classify_cases snapshot spec) existing Hlook)).
    split; [exact Hclass|].
    assert (Hhit : hitsMissingSample snapshot spec = false).
    { unfold hitsMissingSample. rewrite Hlook. unfold sampleMissing.
      unfold replicaSample in Hsample. destruct (Partitions existing); [done|].
      by destruct (Replicas p). }
    rewrite (analyzeSpec_sampled snapshot a spec g0 Hhit).
    unfold analysisStep, analysisLines, createEntry, updateEntry, scaleDownEntry,
      replicationMismatch.
    rewrite Hclass, Hlook, Hsample. simpl.
    replace (int32 (ReplicationFactor spec) =? r0) with false
      by (symmetry; by apply Z.eqb_neq).
    simpl. by rewrite !app_nil_r.
Qed.
End ReplicationRuns.

(** C7 on a cluster where "orders" has three partitions on broker 1 and
    three replicas are desired. *)
Lemma C7_replication_mismatch_only_warns_witness :
  classify (snapshotOf [topicOnBroker1 "orders" 3]) (mkSpec "orders" 3 3) = Unchanged
  /\ analyzeSpec (snapshotOf [topicOnBroker1 "orders" 3]) emptyAnalysis
       (mkSpec "orders" 3 3) (mkScript [] [] [])
     = (Returned (mkAnalysis [] [] [] (0 + 1)), mkScript [] [] [],
        [EvPrint (ReplicationChangeNotImplemented "orders");
         EvPrint (AlreadyMatches "orders")]).
Proof.
  pose proof (C7_replication_mismatch_only_warns scripted noUnicode
                [mkSpec "orders" 3 3] (fun _ => 1)
                (clusterWith [topicOnBroker1 "orders" 3] [] [])) as H.
  cbv zeta in H. destruct H as (_ & _ & _ & _ & _ & _ & H).
  apply (H (mkSpec "orders" 3 3) (topicOnBroker1 "orders" 3) 1 emptyAnalysis
           (mkScript [] [] [])).
  - reflexivity.
  - reflexivity.
  - discriminate.
  - reflexivity.
Defined.

(** ** The desired-state loader *)

Lemma checked_convert (topics : list TopicConfig) (acc : list TopicSpecification) :
  (forallb validRecord topics = true ->
   TopicsChecked.convert topics acc = Ok (acc ++ map toSpecification topics))
  /\ (forallb validRecord topics = false ->
      exists err, TopicsChecked.convert topics acc = Err err).
Proof.
  revert acc. induction topics as [|topic rest IH]; intros acc.
  - split; [intros _; simpl; by rewrite app_nil_r | done].
  - simpl. unfold validRecord at 1 3.
    destruct (String.eqb (Name topic) "") eqn:Hname; simpl; [split; [done | eauto]|].
    rewrite Z.leb_antisym. destruct (0 <? cfg_Partitions topic); simpl;
      [|split; [done | eauto]].
    rewrite Z.leb_antisym. destruct (0 <? cfg_ReplicationFactor topic); simpl;
      [|split; [done | eauto]].
    destruct (IH (acc ++ [toSpecification topic])) as [IH1 IH2]. split.
    + intros Hv. rewrite (IH1 Hv), <- app_assoc. done.
    + exact IH2.
Qed.

Lemma validRecord_false (topic : TopicConfig) :
  validRecord topic = false
  <-> Name topic = ""%string \/ cfg_Partitions topic <= 0
      \/ cfg_ReplicationFactor topic <= 0.
Proof.
  unfold validRecord. rewrite !andb_false_iff, negb_false_iff, String.eqb_eq,
    !Z.ltb_ge. tauto.
Qed.

(** The revision that validates rejects a file with an unacceptable
    record, and the command then ends before any call. *)
Lemma checked_loader_rejects {G : Type} (adminClient : AdminClient G)
    (unicodeLower : string -> string) (ctxCanceled : G -> bool)
    (listTopics : bool) (configFile : string) (setup : option error)
    (topics : list TopicConfig) (topic : TopicConfig) (g : G) :
  In topic topics ->
  Name topic = ""%string \/ cfg_Partitions topic <= 0
    \/ cfg_ReplicationFactor topic <= 0 ->
  exists err,
    TopicsChecked.GetAllTopicConfigs configFile (Parsed topics) = Err err
    /\ (configFile <> ""%string ->
        main adminClient unicodeLower ctxCanceled TopicsChecked.GetAllTopicConfigs
          listTopics configFile (Parsed topics) setup g
        = (Returned (Fatal err), g, [])).
Proof.
  intros Hin Hbad. apply validRecord_false in Hbad.
  assert (Hall : forallb validRecord topics = false).
  { apply not_true_iff_false. intros Hall.
    rewrite forallb_forall in Hall. specialize (Hall topic Hin). congruence. }
  destruct (proj2 (checked_convert topics []) Hall) as [err Herr].
  exists err. split; [exact Herr|]. intros Hfile. unfold main.
  apply String.eqb_neq in Hfile. rewrite Hfile. simpl. by rewrite Herr.
Qed.

(** The revision that does not validate accepts every parsed file. *)
Lemma unchecked_loader_accepts (configFile : string) (topics : list TopicConfig) :
  TopicsUnchecked.GetAllTopicConfigs configFile (Parsed topics)
  = Ok (map toSpecification topics).
Proof.
  simpl. change (map toSpecification topics) with ([] ++ map toSpecification topics).
  generalize (@nil TopicSpecification).
  induction topics as [|topic rest IH]; intros acc; simpl.
  - by rewrite app_nil_r.
  - by rewrite IH, <- app_assoc.
Qed.

(** C9 fails on the revision of the loader that does not validate: a record
    with an empty name, no partition and no replica is loaded without an
    error, and the command goes on to ask the broker to create it.  The
    revision that validates rejects the same file. *)
Theorem C9_unchecked_loader_accepts_invalid_record :
  TopicsUnchecked.GetAllTopicConfigs "topics.yaml" (Parsed [emptyRecord])
  = Ok [mkSpec "" 0 0]
  /\ callsOf (eventsOf (main scripted noUnicode neverCanceled
                          TopicsUnchecked.GetAllTopicConfigs false "topics.yaml"
                          (Parsed [emptyRecord]) None acceptsAnything))
     = [CallCreateTopics [mkSpec "" 0 0]]
  /\ TopicsChecked.GetAllTopicConfigs "topics.yaml" (Parsed [emptyRecord])
     = Err (Errorf "topic name cannot be empty").
Proof. repeat split; reflexivity. Qed.

(** * Further properties of the manager *)

(** ** [GetExistingTopics] *)

Lemma snapshot_fold_lookup (topics : list TopicMetadata)
    (m0 : gmap string TopicMetadata) (name : string) :
  foldl (fun m t => <[meta_Topic t := t]> m) m0 topics !! name
  = match last (named name topics) with
    | Some t => Some t
    | None => m0 !! name
    end.
Proof.
  revert m0. induction topics as [|t topics IH]; intros m0; [done|].
  simpl foldl. rewrite IH. unfold named. simpl List.filter.
  destruct (String.eqb_spec (meta_Topic t) name) as [Heq|Hne].
  - rewrite last_cons. destruct (last (List.filter _ topics)); [done|].
    by rewrite <- Heq, lookup_insert_eq.
  - destruct (last (List.filter _ topics)); [done|].
    by rewrite lookup_insert_ne.
Qed.

Section ManagerExtras.
Context {G : Type} (adminClient : AdminClient G).

(** X1. [GetExistingTopics] makes exactly one metadata call, for all topics
    with a timeout of 5000 ms.  When the call fails it returns the error
    wrapped as "failed to get metadata: ...".  When it succeeds it returns a
    map in which every name of the answer is a key and no other name is;
    the topic stored under a name is the last topic of the answer that
    carries that name, so every stored topic sits under its own name. *)
Theorem X1_existing_topics_keyed_by_name (g : G) :
  let fetched := GetMetadata adminClient g true 5000 in
  let run := GetExistingTopics adminClient g in
  eventsOf run = [EvCall (CallGetMetadata true 5000)]
  /\ clientOf run = fetched.1
  /\ (forall err, fetched.2 = Err err ->
        outcomeOf run = Returned (Err (Errorf_w "failed to get metadata: " err)))
  /\ (forall topics, fetched.2 = Ok topics ->
        exists m : gmap string TopicMetadata,
          outcomeOf run = Returned (Ok m)
          /\ (forall name, m !! name = last (named name topics))
          /\ (forall name, m !! name = None <-> ~ In name (map meta_Topic topics))
          /\ (forall name t, m !! name = Some t -> meta_Topic t = name /\ In t topics)).
Proof.
  intros fetched run. subst run. rewrite GetExistingTopics_run. fold fetched.
  unfold eventsOf, clientOf, outcomeOf. cbn [fst snd].
  split; [done|]. split; [done|]. split; [by intros err ->|].
  intros topics ->. exists (snapshotOf topics). split; [done|].
  assert (Hlook : forall name, snapshotOf topics !! name = last (named name topics)).
  { intros name. unfold snapshotOf. rewrite snapshot_fold_lookup, lookup_empty.
    by destruct (last (named name topics)). }
  assert (Hin : forall name t, In t (named name topics)
                               <-> In t topics /\ meta_Topic t = name).
  { intros name t. unfold named. rewrite List.filter_In, String.eqb_eq. tauto. }
  split; [exact Hlook|]. split.
  - intros name. rewrite Hlook, last_None. split.
    + intros Hnil Hname. apply in_map_iff in Hname as (t & Ht & Hint).
      assert (Hmem : In t (named name topics)) by (by apply Hin).
      by rewrite Hnil in Hmem.
    + intros Hno. destruct (named name topics) as [|t rest] eqn:Hf; [done|].
      exfalso. apply Hno. assert (Hmem : In t (named name topics))
        by (rewrite Hf; by left).
      apply Hin in Hmem as [Ht Hn]. rewrite <- Hn. by apply in_map.
  - intros name t. rewrite Hlook. intros Hlast.
    assert (Hmem : In t (named name topics)).
    { apply last_Some in Hlast as [l' ->].
      apply in_or_app. right. by left. }
    apply Hin in Hmem. tauto.
Qed.
End ManagerExtras.

(** X1 on an answer that lists "orders" twice: the later entry is kept. *)
Lemma X1_existing_topics_keyed_by_name_witness :
  exists m : gmap string TopicMetadata,
    outcomeOf (GetExistingTopics scripted ordersListedTwice) = Returned (Ok m)
    /\ m !! "orders"%string = Some (topicOnBroker1 "orders" 3)
    /\ m !! "payments"%string = None.
Proof.
  pose proof (X1_existing_topics_keyed_by_name scripted ordersListedTwice) as H.
  cbv zeta in H. destruct H as (_ & _ & _ & H).
  destruct (H [topicOnBroker1 "orders" 1; topicOnBroker1 "orders" 3] eq_refl)
    as (m & Hm & Hlook & _).
  exists m. split; [exact Hm|]. by rewrite !Hlook.
Defined.

(** ** What [SyncTopics] asks of the broker *)

Lemma classify_isMissing snapshot spec :
  isToCreate (classify snapshot spec) = isMissing snapshot spec.
Proof.
  unfold classify, isMissing. destruct (snapshot !! spec_Topic spec) as [t|]; [|done].
  destruct (len (Partitions t) <? NumPartitions spec); [done|].
  by destruct (NumPartitions spec <? len (Partitions t)).
Qed.

Lemma classify_isGrowing snapshot spec :
  isToIncreasePartitions (classify snapshot spec) = isGrowing snapshot spec.
Proof.
  unfold classify, isGrowing. destruct (snapshot !! spec_Topic spec) as [t|]; [|done].
  destruct (len (Partitions t) <? NumPartitions spec); [done|].
  by destruct (NumPartitions spec <? len (Partitions t)).
Qed.

Lemma classify_isSettled snapshot spec :
  isUnchanged (classify snapshot spec) = isSettled snapshot spec.
Proof.
  unfold classify, isSettled. destruct (snapshot !! spec_Topic spec) as [t|]; [|done].
  destruct (Z.ltb_spec (len (Partitions t)) (NumPartitions spec)).
  - simpl. symmetry. apply Z.eqb_neq. lia.
  - destruct (Z.ltb_spec (NumPartitions spec) (len (Partitions t))); simpl; symmetry.
    + apply Z.eqb_neq. lia.
    + apply Z.eqb_eq. lia.
Qed.

Lemma filter_ext_bool {A} (f h : A -> bool) (l : list A) :
  (forall x, f x = h x) -> List.filter f l = List.filter h l.
Proof. intros H. apply List.filter_ext. exact H. Qed.

Lemma analysisOf_create snapshot specs :
  topicsToCreate (analysisOf snapshot specs) = List.filter (isMissing snapshot) specs.
Proof.
  unfold analysisOf. cbn [topicsToCreate]. rewrite createEntries_filter.
  apply filter_ext_bool. intros s. apply classify_isMissing.
Qed.

Lemma analysisOf_directives snapshot specs :
  map directiveOf (topicsToUpdate (analysisOf snapshot specs))
  = map growCall (List.filter (isGrowing snapshot) specs).
Proof.
  unfold analysisOf. cbn [topicsToUpdate].
  induction specs as [|s specs IH]; [done|].
  rewrite omap_cons_list, map_app, IH. simpl List.filter.
  rewrite <- classify_isGrowing. unfold updateEntry.
  destruct (snapshot !! spec_Topic s) as [t|] eqn:Hl.
  - by destruct (classify snapshot s).
  - unfold classify. by rewrite Hl.
Qed.

Lemma analysisOf_lengths snapshot specs :
  len (topicsToCreate (analysisOf snapshot specs))
  + len (topicsToUpdate (analysisOf snapshot specs))
  + len (cannotScaleDown (analysisOf snapshot specs))
  + unchangedCount (analysisOf snapshot specs)
  = len specs.
Proof.
  unfold analysisOf.
  cbn [topicsToCreate topicsToUpdate cannotScaleDown unchangedCount].
  induction specs as [|s specs IH]; [done|].
  change (List.filter ?f (s :: specs))
    with (if f s then s :: List.filter f specs else List.filter f specs).
  rewrite !omap_cons_list, !len_app, (len_cons s specs).
  assert (Hone : len (option_list (createEntry snapshot s))
                 + len (option_list (updateEntry snapshot s))
                 + len (option_list (scaleDownEntry snapshot s))
                 + (if isUnchanged (classify snapshot s) then 1 else 0) = 1).
  { unfold createEntry, updateEntry, scaleDownEntry, classify.
    destruct (snapshot !! spec_Topic s) as [t|]; [|done].
    destruct (len (Partitions t) <? NumPartitions s); [done|].
    by destruct (NumPartitions s <? len (Partitions t)). }
  destruct (isUnchanged (classify snapshot s)); rewrite ?len_cons; lia.
Qed.

Lemma omap_nothing {A B} (f : A -> option B) (l : list A) :
  (forall x, In x l -> f x = None) -> omap f l = [].
Proof.
  induction l as [|x l IH]; [done|]. intros H.
  rewrite omap_cons_list, (H x (or_introl eq_refl)), IH; [done|].
  intros y Hy. apply H. by right.
Qed.

Lemma filter_everything {A} (f : A -> bool) (l : list A) :
  (forall x, In x l -> f x = true) -> List.filter f l = l.
Proof.
  induction l as [|x l IH]; [done|]. intros H. simpl.
  rewrite (H x (or_introl eq_refl)), IH; [done|].
  intros y Hy. apply H. by right.
Qed.

Section SyncExtras.
Context {G : Type} (adminClient : AdminClient G).
Context (unicodeLower : string -> string).

Local Abbreviation SyncTopics := (SyncTopics adminClient unicodeLower).

(** X2. When every desired topic exists with exactly the desired number of
    partitions (and a replica sample to read), [SyncTopics] asks the broker
    for the metadata and for nothing else, counts every topic as unchanged,
    ends with the summary "0 created, 0 updated, n unchanged, 0 cannot scale
    down, 0 failed" and returns nil.  An empty desired list is such a run. *)
Theorem X2_settled_cluster_is_left_alone (specs : list TopicSpecification)
    (g g1 : G) (topics : list TopicMetadata) :
  GetMetadata adminClient g true 5000 = (g1, Ok topics) ->
  existsb (hitsMissingSample (snapshotOf topics)) specs = false ->
  (forall spec, In spec specs -> isSettled (snapshotOf topics) spec = true) ->
  SyncTopics specs g
  = (Returned None, g1,
     EvCall (CallGetMetadata true 5000)
     :: flat_map (analysisLines (snapshotOf topics)) specs
     ++ [EvPrint (SyncSummary 0 0 (len specs) 0 0)])
  /\ callsOf (eventsOf (SyncTopics specs g)) = [CallGetMetadata true 5000]
  /\ (forall spec, In spec specs ->
        In (EvPrint (AlreadyMatches (spec_Topic spec))) (eventsOf (SyncTopics specs g))).
Proof.
  intros Hfetch Hhit Hall.
  set (snapshot := snapshotOf topics) in *.
  assert (Hclass : forall spec, In spec specs -> classify snapshot spec = Unchanged).
  { intros spec Hin. specialize (Hall spec Hin). rewrite <- classify_isSettled in Hall.
    by destruct (classify snapshot spec). }
  assert (Ha : analysisOf snapshot specs = mkAnalysis [] [] [] (len specs)).
  { unfold analysisOf. f_equal.
    - apply omap_nothing. intros s Hs. unfold createEntry. by rewrite (Hclass s Hs).
    - apply omap_nothing. intros s Hs. unfold updateEntry. rewrite (Hclass s Hs).
      by destruct (snapshot !! spec_Topic s).
    - apply omap_nothing. intros s Hs. unfold scaleDownEntry. by rewrite (Hclass s Hs).
    - f_equal. apply filter_everything. intros s Hs. by rewrite (Hclass s Hs). }
  destruct (SyncTopics_completes adminClient unicodeLower specs g g1 topics Hfetch Hhit)
    as (t1 & g2 & creation & t2 & g3 & updates & Hc & Hu & Hrun & _).
  fold snapshot in Hc, Hu, Hrun. rewrite Ha in Hc, Hu, Hrun.
  cbn [topicsToCreate topicsToUpdate cannotScaleDown unchangedCount] in Hc, Hu, Hrun.
  injection Hc as <- <- <-. injection Hu as <- <- <-.
  assert (Hrun' : SyncTopics specs g
                  = (Returned None, g1,
                     EvCall (CallGetMetadata true 5000)
                     :: flat_map (analysisLines snapshot) specs
                     ++ [EvPrint (SyncSummary 0 0 (len specs) 0 0)]))
    by (rewrite Hrun; reflexivity).
  split; [exact Hrun'|]. rewrite Hrun'. unfold eventsOf. cbn [snd]. split.
  - change (EvCall (CallGetMetadata true 5000) :: ?l)
      with ([EvCall (CallGetMetadata true 5000)] ++ l).
    by rewrite !callsOf_app, analysisLines_no_calls.
  - intros spec Hin. right. apply in_or_app. left.
    apply in_flat_map. exists spec. split; [done|].
    unfold analysisLines. rewrite (Hclass spec Hin). apply in_or_app. right. by left.
Qed.

(** X3. In a run of [SyncTopics] that goes through all its phases the calls
    are, in this order: the metadata call; at most two [CreateTopics]
    attempts, each with exactly the desired topics that are missing from the
    snapshot, in desired order, and none at all when nothing is missing;
    then one [CreatePartitions] call for each desired topic that asks for
    more partitions than its topic has, in desired order, each with the
    single directive {name, desired count}. *)
Theorem X3_calls_of_a_sync_run (specs : list TopicSpecification)
    (g g1 : G) (topics : list TopicMetadata) :
  GetMetadata adminClient g true 5000 = (g1, Ok topics) ->
  existsb (hitsMissingSample (snapshotOf topics)) specs = false ->
  exists attempts : nat,
    callsOf (eventsOf (SyncTopics specs g))
    = CallGetMetadata true 5000
      :: replicate attempts
           (CallCreateTopics (List.filter (isMissing (snapshotOf topics)) specs))
      ++ map growCall (List.filter (isGrowing (snapshotOf topics)) specs)
    /\ (attempts <= 2)%nat
    /\ (List.filter (isMissing (snapshotOf topics)) specs = [] <-> attempts = 0%nat).
Proof.
  intros Hfetch Hhit.
  destruct (SyncTopics_completes adminClient unicodeLower specs g g1 topics Hfetch Hhit)
    as (t1 & g2 & creation & t2 & g3 & updates & _ & _ & Hrun & Hcc & Hb & Hz & _ & Huc & _).
  exists (createAttemptsOf creation). rewrite Hrun. unfold eventsOf. cbn [snd].
  change (EvCall (CallGetMetadata true 5000) :: ?l)
    with ([EvCall (CallGetMetadata true 5000)] ++ l).
  rewrite !callsOf_app, analysisLines_no_calls, callsOf_reportLines, Hcc, Huc.
  rewrite analysisOf_create in *. rewrite analysisOf_directives.
  split; [by rewrite app_nil_r | done].
Qed.

(** X4. A run of [SyncTopics] that goes through all its phases ends with the
    summary line, and the five counts of the summary (created, updated,
    unchanged, cannot scale down, failed) are non-negative and add up to the
    number of desired topics: every desired topic is counted exactly once. *)
Theorem X4_summary_accounts_for_every_topic (specs : list TopicSpecification)
    (g g1 : G) (topics : list TopicMetadata) :
  GetMetadata adminClient g true 5000 = (g1, Ok topics) ->
  existsb (hitsMissingSample (snapshotOf topics)) specs = false ->
  exists before created updated unchanged cannot failed,
    eventsOf (SyncTopics specs g)
    = before ++ [EvPrint (SyncSummary created updated unchanged cannot failed)]
    /\ created + updated + unchanged + cannot + failed = len specs
    /\ 0 <= created /\ 0 <= updated /\ 0 <= unchanged /\ 0 <= cannot /\ 0 <= failed.
Proof.
  intros Hfetch Hhit.
  destruct (SyncTopics_completes adminClient unicodeLower specs g g1 topics Hfetch Hhit)
    as (t1 & g2 & creation & t2 & g3 & updates & _ & _ & Hrun & _ & _ & _ & _ & _ & _ & _
        & Hub & Hf & Hcr & Hup).
  set (a := analysisOf (snapshotOf topics) specs) in *.
  exists (EvCall (CallGetMetadata true 5000)
          :: flat_map (analysisLines (snapshotOf topics)) specs
          ++ creation ++ updates ++ reportLines (cannotScaleDown a)),
    (createdCount t2), (updatedCount t2), (unchangedCount a),
    (len (cannotScaleDown a)), (failedCount t2).
  split.
  - rewrite Hrun. unfold eventsOf. cbn [snd].
    rewrite <- app_comm_cons. by rewrite <- !app_assoc.
  - pose proof (analysisOf_lengths (snapshotOf topics) specs) as Hlen. fold a in Hlen.
    pose proof (len_nonneg (topicsToCreate a)).
    pose proof (len_nonneg (cannotScaleDown a)).
    assert (0 <= unchangedCount a) by (unfold a, analysisOf; apply len_nonneg).
    rewrite Hf, Hcr, Hup. destruct (createFailed creation); repeat split; lia.
Qed.
End SyncExtras.

(** X2 on a cluster that already has "orders" with three partitions and
    "payments" with one. *)
Lemma X2_settled_cluster_is_left_alone_witness :
  callsOf (eventsOf (SyncTopics scripted noUnicode settledDesired settledCluster))
  = [CallGetMetadata true 5000]
  /\ outcomeOf (SyncTopics scripted noUnicode settledDesired settledCluster)
     = Returned None.
Proof.
  pose proof (X2_settled_cluster_is_left_alone scripted noUnicode settledDesired
                settledCluster (mkScript [] [] [])
                [topicOnBroker1 "orders" 3; topicOnBroker1 "payments" 1]
                eq_refl eq_refl) as H.
  destruct H as (Hrun & Hcalls & _).
  - intros spec [<- | [<- | []]]; reflexivity.
  - split; [exact Hcalls | by rewrite Hrun].
Defined.

(** X3 on a cluster where "orders" must grow, "payments" cannot shrink and
    "audit" is missing. *)
Lemma X3_calls_of_a_sync_run_witness :
  exists attempts : nat,
    callsOf (eventsOf (SyncTopics scripted noUnicode mixedDesired mixedCluster))
    = CallGetMetadata true 5000
      :: replicate attempts (CallCreateTopics [mkSpec "audit" 6 1])
      ++ [CallCreatePartitions [mkPartitionsSpec "orders" 3]]
    /\ (attempts <= 2)%nat.
Proof.
  destruct (X3_calls_of_a_sync_run scripted noUnicode mixedDesired mixedCluster
              (mkScript [] [Ok [mkTopicResult "audit" success]]
                           [Ok [mkTopicResult "orders" success]])
              [topicOnBroker1 "orders" 1; topicOnBroker1 "payments" 3]
              eq_refl eq_refl) as (attempts & Hcalls & Hle & _).
  exists attempts. split; [exact Hcalls | exact Hle].
Defined.

(** X4 on the same cluster: the five counts add up to three topics. *)
Lemma X4_summary_accounts_for_every_topic_witness :
  exists before created updated unchanged cannot failed,
    eventsOf (SyncTopics scripted noUnicode mixedDesired mixedCluster)
    = before ++ [EvPrint (SyncSummary created updated unchanged cannot failed)]
    /\ created + updated + unchanged + cannot + failed = 3.
Proof.
  destruct (X4_summary_accounts_for_every_topic scripted noUnicode mixedDesired
              mixedCluster
              (mkScript [] [Ok [mkTopicResult "audit" success]]
                           [Ok [mkTopicResult "orders" success]])
              [topicOnBroker1 "orders" 1; topicOnBroker1 "payments" 3]
              eq_refl eq_refl)
    as (before & c & u & n & s & f & Hev & Hsum & _).
  exists before, c, u, n, s, f. split; [exact Hev | exact Hsum].
Defined.

(** ** The replication check *)

Lemma int32_wraps (n : Z) : int32 (n + 2 ^ 32) = int32 n.
Proof.
  unfold int32. replace (n + 2 ^ 32 + 2 ^ 31) with (n + 2 ^ 31 + 1 * 2 ^ 32) by lia.
  by rewrite Z.mod_add.
Qed.

(** X5. For a desired topic that names an existing topic whose partition 0
    lists at least one replica, the pass prints the replication warning
    exactly when the desired replication factor, narrowed to 32 bits,
    differs from the first replica entry of partition 0, which is a broker
    id.  The other replicas of partition 0, hence their number, and the
    other partitions play no role in the warning; and a replication factor
    that differs by 2^32 gets the same answer. *)
Theorem X5_warning_compares_with_first_replica {G : Type}
    (snapshot : gmap string TopicMetadata) (a : analysis)
    (spec : TopicSpecification) (existing : TopicMetadata)
    (r0 : Z) (rs : list Z) (ps : list PartitionMetadata) (g : G) :
  snapshot !! spec_Topic spec = Some existing ->
  Partitions existing = mkPartition (r0 :: rs) :: ps ->
  (In (EvPrint (ReplicationChangeNotImplemented (spec_Topic spec)))
      (eventsOf (analyzeSpec snapshot a spec g))
   <-> int32 (ReplicationFactor spec) <> r0)
  /\ replicationMismatch snapshot
       (mkSpec (spec_Topic spec) (NumPartitions spec) (ReplicationFactor spec + 2 ^ 32))
     = replicationMismatch snapshot spec.
Proof.
  intros Hlook Hparts.
  assert (Hhit : hitsMissingSample snapshot spec = false).
  { unfold hitsMissingSample, sampleMissing. by rewrite Hlook, Hparts. }
  assert (Hmis : replicationMismatch snapshot spec
                 = negb (int32 (ReplicationFactor spec) =? r0)).
  { unfold replicationMismatch, replicaSample. by rewrite Hlook, Hparts. }
  assert (Hiff : In (EvPrint (ReplicationChangeNotImplemented (spec_Topic spec)))
                    (eventsOf (analyzeSpec snapshot a spec g))
                 <-> int32 (ReplicationFactor spec) <> r0).
  { rewrite (analyzeSpec_sampled snapshot a spec g Hhit). unfold eventsOf. cbn [snd].
    unfold analysisLines. rewrite Hmis.
    destruct (Z.eqb_spec (int32 (ReplicationFactor spec)) r0) as [E|E]; simpl.
    - split; [|done]. destruct (isUnchanged (classify snapshot spec)); simpl;
        [intros [H|[]]; discriminate | done].
    - split; [done | intros _; by left]. }
  split; [exact Hiff|].
  unfold replicationMismatch. cbn [spec_Topic ReplicationFactor].
  by rewrite int32_wraps.
Qed.

(** X5 on a topic with three replicas on brokers 2, 3 and 4: a desired
    replication factor of 3 is warned about, one of 2 is not. *)
Lemma X5_warning_compares_with_first_replica_witness :
  In (EvPrint (ReplicationChangeNotImplemented "orders"))
     (eventsOf (analyzeSpec (snapshotOf [topicWithReplicas "orders" [2; 3; 4] 0])
                  emptyAnalysis (mkSpec "orders" 1 3) (mkScript [] [] [])))
  /\ ~ In (EvPrint (ReplicationChangeNotImplemented "orders"))
          (eventsOf (analyzeSpec (snapshotOf [topicWithReplicas "orders" [2; 3; 4] 0])
                       emptyAnalysis (mkSpec "orders" 1 2) (mkScript [] [] []))).
Proof.
  split.
  - apply (X5_warning_compares_with_first_replica
             (snapshotOf [topicWithReplicas "orders" [2; 3; 4] 0]) emptyAnalysis
             (mkSpec "orders" 1 3) (topicWithReplicas "orders" [2; 3; 4] 0)
             2 [3; 4] [] (mkScript [] [] []) eq_refl eq_refl).
    discriminate.
  - intros Hin.
    apply (X5_warning_compares_with_first_replica
             (snapshotOf [topicWithReplicas "orders" [2; 3; 4] 0]) emptyAnalysis
             (mkSpec "orders" 1 2) (topicWithReplicas "orders" [2; 3; 4] 0)
             2 [3; 4] [] (mkScript [] [] []) eq_refl eq_refl) in Hin.
    by apply Hin.
Defined.

(** ** More on the create path *)

Lemma allBenign_iff (results : list TopicResult) :
  allBenign results <-> countIf isTopicError results = 0.
Proof.
  rewrite countIf_zero. unfold allBenign. split; intros H r Hr; specialize (H r Hr).
  - unfold isTopicError, isCreated, isAlreadyExists. by destruct H as [-> | ->].
  - unfold isTopicError, isCreated, isAlreadyExists in H.
    destruct (Z.eqb_spec (Code (res_Error r)) ErrNoError); [by left|].
    destruct (Z.eqb_spec (Code (res_Error r)) ErrTopicAlreadyExists); [by right | done].
Qed.

Section CreateExtras.
Context {G : Type} (adminClient : AdminClient G).
Context (unicodeLower : string -> string).

Local Abbreviation createTopicsFromSpecs :=
  (createTopicsFromSpecs adminClient unicodeLower).
Local Abbreviation isRetryable := (isRetryableError unicodeLower).

(** X6. [createTopicsFromSpecs] returns nil exactly when the answer to its
    last call holds only successes and already-exists results: either the
    first call answers so, or the first call fails with a retryable error
    and the second call answers so.  In every other case it returns an
    error; it never panics.  It calls the broker at least once, also for an
    empty batch, waits at most once, for one second, and leaves the client
    in the state after its last call. *)
Theorem X6_create_succeeds_iff_last_answer_benign
    (specs : list TopicSpecification) (g : G) :
  let run := createTopicsFromSpecs specs g in
  let first := CreateTopics adminClient g specs in
  let second := CreateTopics adminClient first.1 specs in
  (outcomeOf run = Returned None
   <-> (exists results, first.2 = Ok results /\ allBenign results)
       \/ (exists err results,
             first.2 = Err err /\ isRetryable (Some err) = true
             /\ second.2 = Ok results /\ allBenign results))
  /\ (outcomeOf run = Returned None \/ exists e, outcomeOf run = Returned (Some e))
  /\ callsOf (eventsOf run) <> []
  /\ (sleepsOf (eventsOf run) = [] \/ sleepsOf (eventsOf run) = [1 * (1 * Second)])
  /\ clientOf run
     = match first.2 with
       | Ok _ => first.1
       | Err err => if isRetryable (Some err) then second.1 else first.1
       end.
Proof.
  intros run first second. subst run first second.
  destruct (CreateTopics adminClient g specs) as [g1 [results|err]] eqn:H1; cbn [fst snd].
  - rewrite (create_first_ok _ _ _ _ _ _ H1). observe.
    split; [|split; [|by repeat split; try left]].
    + destruct (Z.eqb_spec (countIf isTopicError results) 0) as [E|E].
      * split; [intros _; left; exists results | done].
        split; [done | by apply allBenign_iff].
      * split; [done|]. intros [(rs & [= <-] & Hb) | (e & rs & [=] & _)].
        by apply allBenign_iff in Hb.
    + destruct (countIf isTopicError results =? 0); [by left | right; eauto].
  - destruct (isRetryable (Some err)) eqn:Hr.
    + destruct (CreateTopics adminClient g1 specs) as [g2 [results|err2]] eqn:H2;
        cbn [fst snd].
      * rewrite (create_retry_ok _ _ _ _ _ _ _ _ H1 Hr H2). observe.
        split; [|split; [|by repeat split; try right]].
        -- destruct (Z.eqb_spec (countIf isTopicError results) 0) as [E|E].
           ++ split; [intros _; right; exists err, results | done].
              repeat split; try done. by apply allBenign_iff.
           ++ split; [done|].
              intros [(rs & [=] & _) | (e & rs & _ & _ & [= <-] & Hb)].
              by apply allBenign_iff in Hb.
        -- destruct (countIf isTopicError results =? 0); [by left | right; eauto].
      * rewrite (create_retry_err _ _ _ _ _ _ _ _ H1 Hr H2). observe.
        split; [|split; [right; eauto | by repeat split; try right]].
        split; [done|]. by intros [(rs & [=] & _) | (e & rs & _ & _ & [=] & _)].
    + rewrite (create_first_terminal _ _ _ _ _ _ H1 Hr). observe.
      split; [|split; [right; eauto | by repeat split; try left]].
      split; [done|]. intros [(rs & [=] & _) | (e & rs & [= <-] & Hr' & _)].
      congruence.
Qed.
End CreateExtras.

(** ** The retry classifier and wrapped errors *)

Lemma isASCII_append (a b : string) : isASCII (a +:+ b) = isASCII a && isASCII b.
Proof.
  induction a as [|c a IH]; [done|].
  rewrite append_String. simpl. by rewrite IH, andb_assoc.
Qed.

Lemma mapBytes_append (f : ascii -> ascii) (a b : string) :
  mapBytes f (a +:+ b) = mapBytes f a +:+ mapBytes f b.
Proof.
  induction a as [|c a IH]; [done|].
  rewrite append_String. simpl. by rewrite IH.
Qed.

Lemma append_assoc_string (a b c : string) : (a +:+ b) +:+ c = a +:+ (b +:+ c).
Proof.
  induction a as [|x a IH]; [done|]. rewrite !append_String. by rewrite IH.
Qed.

Lemma occursIn_after (sub pre s : string) :
  occursIn sub s -> occursIn sub (pre +:+ s).
Proof.
  intros (p & q & ->). exists (pre +:+ p), q. by rewrite append_assoc_string.
Qed.

Lemma isASCII_uint (d : Decimal.uint) : isASCII (NilEmpty.string_of_uint d) = true.
Proof. induction d; simpl; by rewrite ?IHd. Qed.

Lemma isASCII_fmt_d (n : Z) : isASCII (fmt_d n) = true.
Proof.
  unfold fmt_d, NilZero.string_of_int, NilZero.string_of_uint.
  destruct (Z.to_int n) as [d|d]; destruct d; try done;
    simpl; by rewrite ?isASCII_uint.
Qed.

(** X7. The wrappers of the program keep an error retryable.  When
    [isRetryableError] accepts an error with an ASCII text, it also accepts
    the errors the program builds around it with [%w]: the attempt error of
    [createTopicsFromSpecs] for every attempt number, the call error of
    [increaseTopicPartitions] for every ASCII topic name, the metadata error
    of [GetExistingTopics] and the doubly wrapped one of [SyncTopics]. *)
Theorem X7_wrapping_keeps_retryable (unicodeLower : string -> string)
    (err : error) (attempt : Z) (topicName : string) :
  isASCII topicName = true ->
  isASCII (ErrorText err) = true ->
  isRetryableError unicodeLower (Some err) = true ->
  isRetryableError unicodeLower (Some (attemptFailed attempt err)) = true
  /\ isRetryableError unicodeLower (Some (increaseCallFailed topicName err)) = true
  /\ isRetryableError unicodeLower
       (Some (Errorf_w "failed to get metadata: " err)) = true
  /\ isRetryableError unicodeLower (Some (fetchFailed err)) = true.
Proof.
  intros Hname Herr Hretry.
  assert (Hwrap : forall p e, isASCII p = true -> isASCII (ErrorText e) = true ->
            isRetryableError unicodeLower (Some e) = true ->
            isRetryableError unicodeLower (Some (Errorf_w p e)) = true).
  { intros p e Hp He Hr.
    apply isRetryableError_iff in Hr as (e' & sub & [= <-] & Hin & Hocc).
    apply isRetryableError_iff. exists (Errorf_w p e), sub.
    split; [done|]. split; [done|].
    unfold Errorf_w. cbn [ErrorText]. unfold ToLower in *.
    rewrite isASCII_append, Hp, He. rewrite He in Hocc. simpl.
    rewrite mapBytes_append. by apply occursIn_after. }
  split; [|split; [|split]].
  - unfold attemptFailed. apply Hwrap; [|done|done].
    by rewrite !isASCII_append, isASCII_fmt_d.
  - unfold increaseCallFailed. apply Hwrap; [|done|done].
    by rewrite !isASCII_append, Hname.
  - by apply Hwrap.
  - unfold fetchFailed. apply Hwrap; [done| |].
    + unfold Errorf_w. cbn [ErrorText]. by rewrite isASCII_append, Herr.
    + by apply Hwrap.
Qed.

(** X7 on a refused connection, wrapped as the first attempt. *)
Lemma X7_wrapping_keeps_retryable_witness :
  isRetryableError noUnicode
    (Some (attemptFailed 1 (Errorf "dial tcp: connection refused"))) = true.
Proof.
  apply (X7_wrapping_keeps_retryable noUnicode
           (Errorf "dial tcp: connection refused") 1 "orders");
    reflexivity.
Defined.

(** ** More on the desired-state loader *)

Lemma validRecord_true (topic : TopicConfig) :
  validRecord topic = true <-> wellFormedSpec (toSpecification topic).
Proof.
  unfold validRecord, wellFormedSpec, toSpecification. simpl.
  rewrite !andb_true_iff, negb_true_iff, String.eqb_neq, !Z.ltb_lt. tauto.
Qed.

(** X8. The validating revision of [GetAllTopicConfigs] succeeds on a parsed
    file exactly when every record has a non-empty name, at least one
    partition and a replication factor of at least one; it then returns one
    specification per record, in file order, with the fields of the record.
    A file that cannot be read or parsed gives an error that wraps the
    cause. *)
Theorem X8_checked_loader_accepts_exactly_valid_files (configFile : string)
    (topics : list TopicConfig) (cause : error) :
  (forall specs,
     TopicsChecked.GetAllTopicConfigs configFile (Parsed topics) = Ok specs
     <-> (forall topic, In topic topics ->
            Name topic <> ""%string /\ 0 < cfg_Partitions topic
            /\ 0 < cfg_ReplicationFactor topic)
         /\ specs = map toSpecification topics)
  /\ (forall specs,
        TopicsChecked.GetAllTopicConfigs configFile (Parsed topics) = Ok specs ->
        length specs = length topics
        /\ forall spec, In spec specs -> wellFormedSpec spec)
  /\ (exists e, TopicsChecked.GetAllTopicConfigs configFile (ReadFailed cause) = Err e
                /\ Unwrap e = Some cause)
  /\ (exists e, TopicsChecked.GetAllTopicConfigs configFile (ParseFailed cause) = Err e
                /\ Unwrap e = Some cause).
Proof.
  assert (Hchar : forall specs,
     TopicsChecked.GetAllTopicConfigs configFile (Parsed topics) = Ok specs
     <-> forallb validRecord topics = true /\ specs = map toSpecification topics).
  { intros specs. simpl. destruct (checked_convert topics []) as [Hok Hbad].
    destruct (forallb validRecord topics) eqn:Hall.
    - rewrite (Hok eq_refl). simpl. split; [intros [= <-]; done | by intros [_ ->]].
    - destruct (Hbad eq_refl) as [e ->]. split; [done | by intros [? _]]. }
  split; [|split; [|split; eexists; (split; [reflexivity | done])]].
  - intros specs. rewrite Hchar, forallb_forall. split.
    + intros [Hall ->]. split; [|done]. intros topic Hin.
      by apply validRecord_true, Hall.
    + intros [Hall ->]. split; [|done]. intros topic Hin.
      by apply validRecord_true, Hall.
  - intros specs Hok. apply Hchar in Hok as [Hall ->].
    split; [by rewrite length_map|]. intros spec Hin.
    apply in_map_iff in Hin as (topic & <- & Hin).
    rewrite forallb_forall in Hall. by apply validRecord_true, Hall.
Qed.

(** X9. The validating loader stops at the first record that fails a check
    and reports that record: "topic name cannot be empty" for an empty
    name, otherwise the missing partitions, otherwise the missing
    replication factor.  The records after it are not looked at. *)
Theorem X9_first_bad_record_decides (configFile : string)
    (good : list TopicConfig) (bad : TopicConfig) (rest rest' : list TopicConfig) :
  forallb validRecord good = true ->
  validRecord bad = false ->
  TopicsChecked.GetAllTopicConfigs configFile (Parsed (good ++ bad :: rest))
  = Err (recordError bad)
  /\ TopicsChecked.GetAllTopicConfigs configFile (Parsed (good ++ bad :: rest'))
     = TopicsChecked.GetAllTopicConfigs configFile (Parsed (good ++ bad :: rest)).
Proof.
  intros Hgood Hbad.
  assert (Hgen : forall tail acc,
            TopicsChecked.convert (good ++ bad :: tail) acc = Err (recordError bad)).
  { intros tail. induction good as [|t good' IH]; intros acc.
    - simpl. unfold recordError. unfold validRecord in Hbad.
      destruct (String.eqb (Name bad) ""); [done|].
      rewrite !Z.leb_antisym.
      destruct (0 <? cfg_Partitions bad); [|done].
      by destruct (0 <? cfg_ReplicationFactor bad).
    - simpl in Hgood. apply andb_true_iff in Hgood as [Ht Hgood'].
      simpl. unfold validRecord in Ht.
      destruct (String.eqb (Name t) ""); [done|].
      rewrite !Z.leb_antisym.
      destruct (0 <? cfg_Partitions t); [|done].
      destruct (0 <? cfg_ReplicationFactor t); [|done].
      simpl. by apply IH. }
  simpl. by rewrite !Hgen.
Qed.

(** X9 on a file whose second record has no partitions and whose third has
    no name: the second record is the one reported. *)
Lemma X9_first_bad_record_decides_witness :
  TopicsChecked.GetAllTopicConfigs "topics.yaml" (Parsed oneBadRecord)
  = Err (Errorf "topic 'payments' must have at least 1 partition").
Proof.
  destruct (X9_first_bad_record_decides "topics.yaml"
              [mkTopicConfig "orders" 3 1 ""] (mkTopicConfig "payments" 0 1 "")
              [mkTopicConfig "" 1 1 ""] [] eq_refl eq_refl) as [H _].
  exact H.
Defined.

(** X10. The two revisions of the loader agree on every file the validating
    one accepts: whatever it returns, the other revision returns too.  The
    other revision fails only where the validating one fails too, on files
    that cannot be read or parsed, with the same cause; on every parsed
    file it returns one specification per record, checked or not. *)
Theorem X10_revisions_agree_on_accepted_files (configFile : string) (file : loaded) :
  (forall specs,
     TopicsChecked.GetAllTopicConfigs configFile file = Ok specs ->
     TopicsUnchecked.GetAllTopicConfigs configFile file = Ok specs)
  /\ (forall e,
        TopicsUnchecked.GetAllTopicConfigs configFile file = Err e ->
        exists e', TopicsChecked.GetAllTopicConfigs configFile file = Err e'
                   /\ Unwrap e' = Unwrap e)
  /\ (forall topics, file = Parsed topics ->
        TopicsUnchecked.GetAllTopicConfigs configFile file
        = Ok (map toSpecification topics)).
Proof.
  split; [|split].
  - intros specs. destruct file as [err|err|topics]; [done | done |].
    intros Hok. rewrite unchecked_loader_accepts.
    destruct (checked_convert topics []) as [Hgood Hbad].
    destruct (forallb validRecord topics) eqn:Hall.
    + simpl in Hok. rewrite (Hgood eq_refl) in Hok. simpl in Hok. congruence.
    + destruct (Hbad eq_refl) as [e He]. simpl in Hok. congruence.
  - intros e. destruct file as [err|err|topics].
    + intros [= <-]. eexists. split; [reflexivity | done].
    + intros [= <-]. eexists. split; [reflexivity | done].
    + by rewrite unchecked_loader_accepts.
  - intros topics ->. apply unchecked_loader_accepts.
Qed.

(** X10 on a file with one good record. *)
Lemma X10_revisions_agree_on_accepted_files_witness :
  TopicsUnchecked.GetAllTopicConfigs "topics.yaml"
    (Parsed [mkTopicConfig "orders" 3 1 "order events"])
  = Ok [mkSpec "orders" 3 1].
Proof.
  destruct (X10_revisions_agree_on_accepted_files "topics.yaml"
              (Parsed [mkTopicConfig "orders" 3 1 "order events"])) as [H _].
  apply H. reflexivity.
Defined.

(** ** The command *)

Section MainExtras.
Context {G : Type} (adminClient : AdminClient G).
Context (unicodeLower : string -> string).
Context (ctxCanceled : G -> bool).
Context (GetAllTopicConfigs : string -> loaded -> result (list TopicSpecification)).

Local Abbreviation command :=
  (main adminClient unicodeLower ctxCanceled GetAllTopicConfigs).

(** [main] in create mode: the run of [createTopicsFromSpecs] on the loaded
    list, and the exit its result stands for. *)
Lemma main_create_mode (configFile : string) (file : loaded)
    (specs : list TopicSpecification) (g : G) :
  configFile <> ""%string ->
  GetAllTopicConfigs configFile file = Ok specs ->
  let inner := createTopicsFromSpecs adminClient unicodeLower specs g in
  exists r,
    outcomeOf inner = Returned r
    /\ command false configFile file None g
       = (Returned (match r with
                    | None => Completed
                    | Some e => if ctxCanceled (clientOf inner) then Cancelled
                                else Fatal e
                    end),
          clientOf inner, eventsOf inner).
Proof.
  intros Hfile Hload inner.
  destruct (createTopicsFromSpecs_returns adminClient unicodeLower specs g) as [r Hr].
  fold inner in Hr. exists r. split; [exact Hr|].
  unfold main. apply String.eqb_neq in Hfile. rewrite Hfile, Hload.
  unfold ManagerCreateTopics, bind. fold inner.
  destruct inner as [[o g'] ev]. unfold outcomeOf, clientOf, eventsOf in *.
  cbn [fst snd] in *. subst o. destruct r as [e|].
  - destruct (ctxCanceled g'); by rewrite app_nil_r.
  - unfold ret. by rewrite app_nil_r.
Qed.

(** [main] outside create mode: nothing happens at the broker. *)
Lemma main_quiet (listTopics : bool) (configFile : string)
    (file : loaded) (setup : option error) (g : G) :
  configFile = ""%string \/ listTopics = true \/ setup <> None
    \/ (exists err, GetAllTopicConfigs configFile file = Err err) ->
  exists e, command listTopics configFile file setup g = (Returned e, g, [])
            /\ e <> Completed.
Proof.
  intros Hcase. unfold main.
  destruct (String.eqb_spec configFile "") as [E|E]; [by exists UsageError|].
  destruct (GetAllTopicConfigs configFile file) as [specs|err]; [|by exists (Fatal err)].
  destruct listTopics; [by exists (Listed specs)|].
  destruct setup as [e|]; [by exists (Fatal e)|].
  by destruct Hcase as [?|[?|[?|[? ?]]]].
Qed.

End MainExtras.

(** X12. With the validating loader, every specification [main] ever sends
    to the broker has a non-empty name, at least one partition and a
    replication factor of at least one; and a file with a record that fails
    one of the checks ends [main] before any call. *)
Theorem X12_checked_main_sends_only_valid_specs {G : Type}
    (adminClient : AdminClient G) (unicodeLower : string -> string)
    (ctxCanceled : G -> bool) (listTopics : bool) (configFile : string)
    (file : loaded) (setup : option error) (g : G) :
  let run := main adminClient unicodeLower ctxCanceled
               TopicsChecked.GetAllTopicConfigs listTopics configFile file setup g in
  (forall specs spec,
     In (CallCreateTopics specs) (callsOf (eventsOf run)) -> In spec specs ->
     wellFormedSpec spec)
  /\ (forall topics topic,
        file = Parsed topics -> In topic topics ->
        ~ wellFormedSpec (toSpecification topic) ->
        callsOf (eventsOf run) = [] /\ outcomeOf run <> Returned Completed).
Proof.
  intros run. split.
  - intros specs spec Hc Hin.
    assert (Hmode : configFile <> ""%string /\ listTopics = false /\ setup = None
                    /\ exists loaded,
                         TopicsChecked.GetAllTopicConfigs configFile file = Ok loaded).
    { destruct (String.eqb_spec configFile "") as [Hfile|Hfile];
        [|destruct listTopics;
          [|destruct setup as [e|];
            [|destruct (TopicsChecked.GetAllTopicConfigs configFile file)
                as [l|err] eqn:Hload; [by eauto 6|]]]].
      all: exfalso; revert Hc; subst run.
      - destruct (main_quiet adminClient unicodeLower ctxCanceled
                    TopicsChecked.GetAllTopicConfigs listTopics configFile file setup g
                    (or_introl Hfile)) as (e & -> & _). done.
      - destruct (main_quiet adminClient unicodeLower ctxCanceled
                    TopicsChecked.GetAllTopicConfigs true configFile file setup g
                    (or_intror (or_introl eq_refl))) as (e & -> & _). done.
      - assert (Hs : Some e <> None) by done.
        destruct (main_quiet adminClient unicodeLower ctxCanceled
                    TopicsChecked.GetAllTopicConfigs false configFile file (Some e) g
                    (or_intror (or_intror (or_introl Hs)))) as (e' & -> & _). done.
      - assert (Hf : exists err0,
                  TopicsChecked.GetAllTopicConfigs configFile file = Err err0)
          by eauto.
        destruct (main_quiet adminClient unicodeLower ctxCanceled
                    TopicsChecked.GetAllTopicConfigs false configFile file None g
                    (or_intror (or_intror (or_intror Hf)))) as (e' & -> & _). done. }
    destruct Hmode as (Hfile & -> & -> & loadedSpecs & Hload).
    destruct (main_create_mode adminClient unicodeLower ctxCanceled
                TopicsChecked.GetAllTopicConfigs configFile file loadedSpecs g
                Hfile Hload) as (r & _ & Hrun).
    subst run. rewrite Hrun in Hc. unfold eventsOf at 1 in Hc. cbn [snd] in Hc.
    destruct (createTopicsFromSpecs_calls adminClient unicodeLower loadedSpecs g)
      as [Hcalls _].
    rewrite Hcalls in Hc.
    apply list_elem_of_In, elem_of_replicate in Hc as [[= ->] _].
    destruct file as [err|err|topics]; [done | done |].
    destruct (checked_convert topics []) as [Hgood Hbad].
    destruct (forallb validRecord topics) eqn:Hall.
    + simpl in Hload. rewrite (Hgood eq_refl) in Hload. injection Hload as <-.
      simpl in Hin. apply in_map_iff in Hin as (topic & <- & Hin).
      rewrite forallb_forall in Hall. by apply validRecord_true, Hall.
    + destruct (Hbad eq_refl) as [e He]. simpl in Hload. congruence.
  - intros topics topic -> Hin Hbad.
    assert (Hfail : exists err,
              TopicsChecked.GetAllTopicConfigs configFile (Parsed topics) = Err err).
    { destruct (checked_convert topics []) as [_ Hno]. apply Hno.
      apply not_true_iff_false. intros Hall. rewrite forallb_forall in Hall.
      by apply Hbad, validRecord_true, Hall. }
    destruct (main_quiet adminClient unicodeLower ctxCanceled
                TopicsChecked.GetAllTopicConfigs listTopics configFile (Parsed topics)
                setup g (or_intror (or_intror (or_intror Hfail)))) as (e & Hrun & Hne).
    subst run. rewrite Hrun. unfold eventsOf, outcomeOf. cbn [fst snd].
    split; [done | by intros [= ->]].
Qed.

(** * The admin client configuration *)




(** The credentials test of the revision that sets SASL from them. *)
Lemma credentials_given (config : KafkaConfig) :
  negb (String.eqb (Username config) "") && negb (String.eqb (Password config) "") = true
  <-> Username config <> ""%string /\ Password config <> ""%string.
Proof. by rewrite andb_true_iff, !negb_true_iff, !String.eqb_neq. Qed.

(** X13. In the revision of [getKafkaAdmin] that sets SASL from the
    credentials and then looks at the server address, the map handed to
    [kafka.NewAdminClient] holds the SASL mechanism, user name and password
    exactly when both the user name and the password are non-empty, and its
    "security.protocol" is "SASL_SSL" whenever [shouldUseSSL] accepts the
    server, with or without credentials, "SASL_PLAINTEXT" for credentials
    on any other server, and absent otherwise.  So a server on port 9092
    without credentials is asked for SASL over SSL with no SASL mechanism in
    the map.  A failure of [kafka.NewAdminClient] comes back wrapped. *)
Theorem X13_ssl_first_security_settings {C : Type}
    (NewAdminClient : gmap string ConfigValue -> result C) (config : KafkaConfig) :
  let configMap := (KafkaSslFirst.adminConfig config).1 in
  let credentials :=
    negb (String.eqb (Username config) "") && negb (String.eqb (Password config) "") in
  configMap !! "security.protocol"%string
  = (if KafkaSslFirst.shouldUseSSL (Server config) then Some (CfgString "SASL_SSL")
     else if credentials then Some (CfgString "SASL_PLAINTEXT") else None)
  /\ configMap !! "sasl.mechanisms"%string
     = (if credentials then Some (CfgString "PLAIN") else None)
  /\ configMap !! "sasl.username"%string
     = (if credentials then Some (CfgString (Username config)) else None)
  /\ configMap !! "sasl.password"%string
     = (if credentials then Some (CfgString (Password config)) else None)
  /\ (credentials = true
      <-> Username config <> ""%string /\ Password config <> ""%string)
  /\ (KafkaSslFirst.getKafkaAdmin NewAdminClient config).2
     = match NewAdminClient configMap with
       | Ok adminClient => Ok adminClient
       | Err err => Err (Errorf_w "failed to create admin client: " err)
       end.
Proof.
  intros configMap credentials. subst configMap credentials.
  unfold KafkaSslFirst.getKafkaAdmin, connectAdmin, KafkaSslFirst.adminConfig,
    debugBlock, baseConfigMap, SetKey.
  split; [|split; [|split; [|split; [|split; [apply credentials_given|]]]]].
  all: destruct (DebugEnabled config);
    destruct (negb (String.eqb (Debug config) ""));
    destruct (negb (String.eqb (Username config) "")
              && negb (String.eqb (Password config) ""));
    destruct (KafkaSslFirst.shouldUseSSL (Server config));
    cbn [fst snd]; try reflexivity; by simplify_map_eq.
Qed.

(** X14. In the revision of [getKafkaAdmin] that decides by
    [config.ShouldUseAuth()], the map handed to [kafka.NewAdminClient]
    always has a "security.protocol": "PLAINTEXT" exactly when
    [ShouldUseAuth] says no, and otherwise "SASL_SSL" or "SASL_PLAINTEXT" by
    [shouldUseSSL] of the server.  The SASL mechanism, user name and
    password are in the map exactly when [ShouldUseAuth] says yes, so
    credentials are never combined with "PLAINTEXT". *)
Theorem X14_by_auth_security_settings {C : Type}
    (ShouldUseAuth : KafkaConfig -> bool)
    (NewAdminClient : gmap string ConfigValue -> result C) (config : KafkaConfig) :
  let configMap := (KafkaByAuth.adminConfig ShouldUseAuth config).1 in
  configMap !! "security.protocol"%string
  = Some (CfgString (if ShouldUseAuth config
                     then if KafkaByAuth.shouldUseSSL (Server config)
                          then "SASL_SSL" else "SASL_PLAINTEXT"
                     else "PLAINTEXT"))
  /\ configMap !! "sasl.mechanisms"%string
     = (if ShouldUseAuth config then Some (CfgString "PLAIN") else None)
  /\ configMap !! "sasl.username"%string
     = (if ShouldUseAuth config then Some (CfgString (Username config)) else None)
  /\ configMap !! "sasl.password"%string
     = (if ShouldUseAuth config then Some (CfgString (Password config)) else None)
  /\ (configMap !! "security.protocol"%string = Some (CfgString "PLAINTEXT")
      <-> ShouldUseAuth config = false)
  /\ (KafkaByAuth.getKafkaAdmin ShouldUseAuth NewAdminClient config).2
     = match NewAdminClient configMap with
       | Ok adminClient => Ok adminClient
       | Err err => Err (Errorf_w "failed to create admin client: " err)
       end.
Proof.
  intros configMap. subst configMap.
  unfold KafkaByAuth.getKafkaAdmin, connectAdmin, KafkaByAuth.adminConfig,
    debugBlock, baseConfigMap, SetKey.
  split; [|split; [|split; [|split; [|split]]]].
  all: destruct (DebugEnabled config);
    destruct (negb (String.eqb (Debug config) ""));
    destruct (ShouldUseAuth config);
    destruct (KafkaByAuth.shouldUseSSL (Server config));
    cbn [fst snd]; try reflexivity; try (by simplify_map_eq).
  all: simplify_map_eq; split; done.
Qed.

(** X15. In both revisions of [getKafkaAdmin] the map handed to
    [kafka.NewAdminClient] keeps the four base settings (the configured
    bootstrap servers, keep-alive on, a request timeout of 5000 ms, a
    metadata age of 30000 ms) whatever the later blocks set; "log_level" is
    the configured level when debugging is enabled and 3 otherwise; and
    "debug" is present exactly when debugging is enabled, with the
    configured categories or, when those are empty, "broker,topic,protocol". *)
Theorem X15_base_and_debug_settings (ShouldUseAuth : KafkaConfig -> bool)
    (config : KafkaConfig) (configMap : gmap string ConfigValue) :
  configMap = (KafkaSslFirst.adminConfig config).1
  \/ configMap = (KafkaByAuth.adminConfig ShouldUseAuth config).1 ->
  configMap !! "bootstrap.servers"%string = Some (CfgString (Server config))
  /\ configMap !! "socket.keepalive.enable"%string = Some (CfgBool true)
  /\ configMap !! "request.timeout.ms"%string = Some (CfgInt 5000)
  /\ configMap !! "metadata.max.age.ms"%string = Some (CfgInt 30000)
  /\ configMap !! "log_level"%string
     = Some (CfgInt (if DebugEnabled config then LogLevel config else 3))
  /\ configMap !! "debug"%string
     = (if DebugEnabled config
        then Some (CfgString (if String.eqb (Debug config) ""
                              then "broker,topic,protocol" else Debug config))
        else None).
Proof.
  intros [-> | ->];
    unfold KafkaSslFirst.adminConfig, KafkaByAuth.adminConfig,
      debugBlock, baseConfigMap, SetKey;
    destruct (DebugEnabled config);
    destruct (String.eqb (Debug config) "");
    destruct (negb (String.eqb (Username config) "")
              && negb (String.eqb (Password config) ""));
    destruct (ShouldUseAuth config);
    destruct (KafkaSslFirst.shouldUseSSL (Server config));
    destruct (KafkaByAuth.shouldUseSSL (Server config));
    cbn [fst snd negb]; repeat split; by simplify_map_eq.
Qed.

(** X15 on the defaults of a local broker, in the revision that looks at the
    server address. *)
Lemma X15_base_and_debug_settings_witness :
  (KafkaSslFirst.adminConfig localDefaults).1 !! "log_level"%string = Some (CfgInt 3)
  /\ (KafkaSslFirst.adminConfig localDefaults).1 !! "debug"%string = None.
Proof.
  destruct (X15_base_and_debug_settings (fun _ => false) localDefaults
              (KafkaSslFirst.adminConfig localDefaults).1 (or_introl eq_refl))
    as (_ & _ & _ & _ & Hlevel & Hdebug).
  split; [exact Hlevel | exact Hdebug].
Defined.

(** * Which error a partition increase returns *)

Lemma firstPartitionError_first (pre post : list TopicResult) (r : TopicResult) :
  (forall x, In x pre -> Code (res_Error x) = ErrNoError) ->
  Code (res_Error r) <> ErrNoError ->
  firstPartitionError (pre ++ r :: post) = Some (increaseResultFailed r).
Proof.
  intros Hpre Hr. induction pre as [|x pre IH]; simpl.
  - apply Z.eqb_neq in Hr. by rewrite Hr.
  - rewrite (Hpre x (or_introl eq_refl)). simpl. apply IH.
    intros y Hy. apply Hpre. by right.
Qed.

(** X17. When the answer to the [CreatePartitions] call holds a result with
    a code other than [ErrNoError], [increaseTopicPartitions] returns the
    error of the first such result, in the order of the answer: its text
    names the topic and the error of that result, not the requested topic,
    and it wraps nothing.  The results after it do not matter. *)
Theorem X17_first_failed_result_is_reported {G : Type} (adminClient : AdminClient G)
    (topicName : string) (newPartitionCount : Z) (g : G)
    (pre post : list TopicResult) (r : TopicResult) :
  (CreatePartitions adminClient g [mkPartitionsSpec topicName newPartitionCount]).2
  = Ok (pre ++ r :: post) ->
  (forall x, In x pre -> Code (res_Error x) = ErrNoError) ->
  Code (res_Error r) <> ErrNoError ->
  outcomeOf (increaseTopicPartitions adminClient topicName newPartitionCount g)
  = Returned (Some (increaseResultFailed r))
  /\ ErrorText (increaseResultFailed r)
     = ("failed to increase partitions for topic '" +:+ res_Topic r
        +:+ "': " +:+ ErrString (res_Error r))%string
  /\ Unwrap (increaseResultFailed r) = None.
Proof.
  intros Hcall Hpre Hr.
  rewrite (increaseTopicPartitions_run adminClient topicName newPartitionCount g).
  unfold outcomeOf. cbn [fst snd]. rewrite Hcall. unfold increaseError.
  by rewrite (firstPartitionError_first pre post r Hpre Hr).
Qed.

(** X17 on an answer whose second and third results fail: the second one is
    reported. *)
Lemma X17_first_failed_result_is_reported_witness :
  outcomeOf (increaseTopicPartitions scripted "orders" 3 secondResultFails)
  = Returned (Some (Errorf
      "failed to increase partitions for topic 'payments': Invalid partitions")).
Proof.
  destruct (X17_first_failed_result_is_reported scripted "orders" 3 secondResultFails
              [mkTopicResult "orders" success]
              [mkTopicResult "audit" (mkKafkaError 41 "Not controller")]
              (mkTopicResult "payments" (mkKafkaError 37 "Invalid partitions"))
              eq_refl) as (H & _).
  - intros x [<- | []]. reflexivity.
  - discriminate.
  - exact H.
Defined.

(** * The further properties on sample runs *)

(** X6 on a client that refuses the first connection and then creates the
    topic. *)
Lemma X6_create_succeeds_iff_last_answer_benign_witness :
  outcomeOf (createTopicsFromSpecs scripted noUnicode [mkSpec "orders" 3 1]
               refusedThenCreated) = Returned None.
Proof.
  pose proof (X6_create_succeeds_iff_last_answer_benign scripted noUnicode
                [mkSpec "orders" 3 1] refusedThenCreated) as H.
  cbv zeta in H. destruct H as (H & _). apply H. right.
  exists (Errorf "dial tcp: connection refused"), [mkTopicResult "orders" success].
  split; [reflexivity|]. split; [reflexivity|]. split; [reflexivity|].
  intros r [<- | []]. by left.
Defined.

(** X8 on a file with one good record. *)
Lemma X8_checked_loader_accepts_exactly_valid_files_witness :
  TopicsChecked.GetAllTopicConfigs "topics.yaml" (Parsed [ordersRecord])
  = Ok [mkSpec "orders" 3 1].
Proof.
  destruct (X8_checked_loader_accepts_exactly_valid_files "topics.yaml"
              [ordersRecord] (Errorf "unused")) as (H & _).
  apply H. split; [|reflexivity].
  intros topic [<- | []]. repeat split; done.
Defined.


(** X12 on a file whose second record has no partitions: no call is made. *)
Lemma X12_checked_main_sends_only_valid_specs_witness :
  callsOf (eventsOf (main scripted noUnicode neverCanceled
                       TopicsChecked.GetAllTopicConfigs false "topics.yaml"
                       (Parsed oneBadRecord) None createsOrders)) = [].
Proof.
  pose proof (X12_checked_main_sends_only_valid_specs scripted noUnicode neverCanceled
                false "topics.yaml" (Parsed oneBadRecord) None createsOrders) as H.
  cbv zeta in H. destruct H as (_ & H).
  destruct (H oneBadRecord (mkTopicConfig "payments" 0 1 "") eq_refl) as [Hcalls _].
  - right. by left.
  - intros (_ & Hpos & _). simpl in Hpos. lia.
  - exact Hcalls.
Defined.

(** X13 on the defaults of a local broker: SASL over SSL is asked for, and
    no SASL mechanism is set. *)
Lemma X13_ssl_first_security_settings_witness :
  (KafkaSslFirst.adminConfig localDefaults).1 !! "security.protocol"%string
  = Some (CfgString "SASL_SSL")
  /\ (KafkaSslFirst.adminConfig localDefaults).1 !! "sasl.mechanisms"%string = None.
Proof.
  pose proof (X13_ssl_first_security_settings recordingClient localDefaults) as H.
  cbv zeta in H. destruct H as (Hp & Hm & _). split; [exact Hp | exact Hm].
Defined.

(** X14 on the defaults of a local broker, without authentication. *)
Lemma X14_by_auth_security_settings_witness :
  (KafkaByAuth.adminConfig (fun _ => false) localDefaults).1
    !! "security.protocol"%string
  = Some (CfgString "PLAINTEXT").
Proof.
  pose proof (X14_by_auth_security_settings (fun _ => false) recordingClient
                localDefaults) as H.
  cbv zeta in H. destruct H as (Hp & _). exact Hp.
Defined.
